(** * Runtime-resource lifecycle reconciler of mlrun

    A shallow embedding of [BaseRuntimeHandler] (mlrun/runtimes/base.py):
    the status resolver, the run-state reconciler, the monitor loop and
    the deletion engine, together with the properties of the specification
    that concern them.

    Runs and runtime resources are Python dictionaries in the source.  They
    are modelled here as values of a small universe of Python objects, with
    the exceptions that the dictionary operations of the source can raise. *)

From Stdlib Require Import ZArith List String Ascii Bool Lia.
Import ListNotations.
Local Open Scope string_scope.
Local Open Scope Z_scope.

(** ** Python values *)

(** [VTime t] is a timezone-aware [datetime], as the number of microseconds
    since the epoch.  Dictionaries keep their insertion order. *)
Unset Elimination Schemes.
Inductive value : Type :=
| VNone
| VStr (s : string)
| VTime (t : Z)
| VList (l : list value)
| VDict (d : list (value * value)).
Set Elimination Schemes.

Inductive exn : Type :=
| KeyError
| TypeError
| AttributeError
| ValueError (msg : string)
| RuntimeError (msg : string)
| MLRunNotFoundError
| ApiException (status : Z)
| Exception (msg : string).

Inductive result (A : Type) : Type :=
| Ok (a : A)
| Raise (e : exn).
Arguments Ok {A} a.
Arguments Raise {A} e.

Definition rbind {A B} (r : result A) (f : A -> result B) : result B :=
  match r with
  | Ok a => f a
  | Raise e => Raise e
  end.

Declare Scope result_scope.
Delimit Scope result_scope with result.
Notation "'let?' x ':=' r 'in' k" := (rbind r (fun x => k))
  (at level 10, x pattern, r at level 100, k at level 200) : result_scope.

Module Py.

(** Truth value of an object ([if x:], [not x]). *)
Definition truthy (v : value) : bool :=
  match v with
  | VNone => false
  | VStr s => negb (String.eqb s "")
  | VTime _ => true
  | VList l => match l with [] => false | _ => true end
  | VDict d => match d with [] => false | _ => true end
  end.

Definition is_none (v : value) : bool :=
  match v with VNone => true | _ => false end.

(** Lists and dictionaries have no hash: using one as a dictionary key
    raises [TypeError]. *)
Definition hashable (v : value) : bool :=
  match v with
  | VList _ | VDict _ => false
  | _ => true
  end.

(** [==], used here on dictionary keys and on the elements of lists. *)
Fixpoint eqb (a b : value) {struct a} : bool :=
  match a, b with
  | VNone, VNone => true
  | VStr x, VStr y => String.eqb x y
  | VTime x, VTime y => Z.eqb x y
  | VList x, VList y =>
      (fix go (l1 l2 : list value) {struct l1} : bool :=
         match l1, l2 with
         | [], [] => true
         | h1 :: t1, h2 :: t2 => eqb h1 h2 && go t1 t2
         | _, _ => false
         end) x y
  | VDict x, VDict y =>
      (fix go (l1 l2 : list (value * value)) {struct l1} : bool :=
         match l1, l2 with
         | [], [] => true
         | (k1, v1) :: t1, (k2, v2) :: t2 =>
             eqb k1 k2 && eqb v1 v2 && go t1 t2
         | _, _ => false
         end) x y
  | _, _ => false
  end.

(** Entry of key [k] in the items of a dictionary. *)
Fixpoint assoc (k : value) (d : list (value * value)) : option value :=
  match d with
  | [] => None
  | (k', v) :: d' => if eqb k' k then Some v else assoc k d'
  end.

(** Items after [d[k] = v]: the entry is replaced where it stands, a new
    key goes last. *)
Fixpoint update (k v : value) (d : list (value * value))
  : list (value * value) :=
  match d with
  | [] => [(k, v)]
  | (k', v') :: d' =>
      if eqb k' k then (k', v) :: d' else (k', v') :: update k v d'
  end.

(** [d.get(k, default)] *)
Definition get (d k default : value) : result value :=
  match d with
  | VDict items =>
      if hashable k then
        Ok (match assoc k items with Some v => v | None => default end)
      else Raise TypeError
  | _ => Raise AttributeError
  end.

(** [d[k]] *)
Definition getitem (d k : value) : result value :=
  match d with
  | VDict items =>
      if hashable k then
        match assoc k items with
        | Some v => Ok v
        | None => Raise KeyError
        end
      else Raise TypeError
  | _ => Raise TypeError
  end.

(** [d[k] = v]; the result is the object after the assignment. *)
Definition setitem (d k v : value) : result value :=
  match d with
  | VDict items =>
      if hashable k then Ok (VDict (update k v items)) else Raise TypeError
  | _ => Raise TypeError
  end.

(** [d.setdefault(k, default)]: the entry returned, and the dictionary
    after the call. *)
Definition setdefault (d k default : value) : result (value * value) :=
  match d with
  | VDict items =>
      if hashable k then
        match assoc k items with
        | Some v => Ok (v, d)
        | None => Ok (default, VDict (items ++ [(k, default)]))
        end
      else Raise TypeError
  | _ => Raise AttributeError
  end.

(** [d.setdefault(k1, {})[k2] = v].  The inner dictionary is the object
    held by [d], so the assignment shows in [d]. *)
Definition setdefault_setitem (d k1 k2 v : value) : result value :=
  (let? (inner, d1) := setdefault d k1 (VDict []) in
   let? inner' := setitem inner k2 v in
   setitem d1 k1 inner')%result.

(** [d.get(k1, {}).get(k2, default)] *)
Definition get_in (d k1 k2 default : value) : result value :=
  (let? inner := get d k1 (VDict []) in get inner k2 default)%result.

Definition chars (s : string) : list value :=
  map (fun c => VStr (String c EmptyString)) (list_ascii_of_string s).

(** The elements a [for] loop visits. *)
Definition iter (v : value) : result (list value) :=
  match v with
  | VList l => Ok l
  | VDict d => Ok (map fst d)
  | VStr s => Ok (chars s)
  | _ => Raise TypeError
  end.

(** [x in c] *)
Definition contains (c x : value) : result bool :=
  match c with
  | VDict d =>
      if hashable x then
        Ok (match assoc x d with Some _ => true | None => false end)
      else Raise TypeError
  | VList l => Ok (existsb (eqb x) l)
  | VStr s =>
      match x with
      | VStr sub =>
          Ok (match String.index 0 sub s with Some _ => true | None => false end)
      | _ => Raise TypeError
      end
  | _ => Raise TypeError
  end.

(** [x in l] for a list [l] of string constants. *)
Definition in_strings (x : value) (l : list string) : bool :=
  match x with
  | VStr s => existsb (String.eqb s) l
  | _ => false
  end.

(** [a < b] *)
Definition lt (a b : value) : result bool :=
  match a, b with
  | VTime x, VTime y => Ok (x <? y)
  | VStr x, VStr y => Ok (String.ltb x y)
  | _, _ => Raise TypeError
  end.

End Py.

(** ** What the handler imports *)

(** [RunStates] and [PodPhases] of mlrun/runtimes/constants.py.  The module
    is imported by base.py; its tables are taken as parameters. *)
Class Constants : Type := {
  RunStates_error : string;
  RunStates_terminal_states : list string;
  RunStates_non_terminal_states : list string;
  PodPhases_terminal_phases : list string;
  PodPhases_pod_phase_to_run_state : value -> result string
}.

(** The settings of [mlrun.config.config] that the handler reads; periods
    are in seconds. *)
Class Config : Type := {
  runs_monitoring_interval : Z;
  resolve_runs_monitoring_missing_runtime_resources_debouncing_interval : Z;
  runtime_resources_deletion_grace_period : Z;
  default_project : string
}.

(** [datetime.isoformat] and [datetime.fromisoformat] of the Python
    library, on timezone-aware timestamps. *)
Class Datetime : Type := {
  isoformat : Z -> string;
  fromisoformat : value -> result Z
}.

(** [timedelta(seconds=s)], in microseconds. *)
Definition timedelta (seconds : Z) : Z := seconds * 1000000.

(** What one pass observes of its surroundings and cannot change: the
    clock (a pass is taken to run at one instant), the answers of
    [get_k8s()] about the cluster, and the logs the cluster still holds
    for a run. *)
Class Platform : Type := {
  now_date : Z;
  is_running_inside_kubernetes_cluster : bool;
  resolve_namespace : string;
  (** whether a resource carries the labels a selector asks for *)
  selects : string -> value -> bool;
  (** whether the custom resource definition of the kind is registered *)
  crd_defined : bool;
  (** [crud.Logs()._get_logs_legacy_method(db_session, project, uid)] *)
  _get_logs_legacy_method : value -> value -> string;
  (** the kind of each value of the mlrun/class label, over all handlers *)
  class_to_kind_map : list (value * value)
}.

Module RuntimeClassMode.
Inductive t : Type := run | build.
Definition eqb (a b : t) : bool :=
  match a, b with
  | run, run | build, build => true
  | _, _ => false
  end.
End RuntimeClassMode.

(** The methods of [BaseRuntimeHandler] that the runtime kinds override,
    as fields.  [base_handler] below holds the bodies of the base class. *)
Record RuntimeHandler : Type := {
  kind : string;
  class_modes : list (RuntimeClassMode.t * string);
  _get_object_label_selector : string -> string;
  _get_main_runtime_resource_label_selector : string;
  _get_crd_info : string * string * string;
  _are_resources_coupled_to_run_object : bool;
  _expect_pods_without_uid : bool;
  _resolve_crd_object_status_info : value -> result (bool * value * option string)
}.

(** [_get_object_label_selector] is abstract in the base class. *)
Definition base_handler (object_label_selector : string -> string)
  : RuntimeHandler := {|
  kind := "base";
  class_modes := [];
  _get_object_label_selector := object_label_selector;
  _get_main_runtime_resource_label_selector := "";
  _get_crd_info := ("", "", "");
  _are_resources_coupled_to_run_object := false;
  _expect_pods_without_uid := false;
  _resolve_crd_object_status_info := fun _ => Ok (false, VNone, None)
|}.

(** ** Effects *)

Inductive level : Type := debug | info | warning.

(** The calls of a pass on its collaborators, in the order they happen. *)
Inductive event : Type :=
| ListPods (namespace selector : string)
| ListCustomObjects (group version namespace plural selector : string)
| DeletePod (name : value) (namespace : string)
| DeleteCrd (name : value) (group version plural namespace : string)
| ListRuns
| ReadRun (uid project : value)
| StoreRun (run uid project : value)
| StoreLog (project uid : value)
| Log (lvl : level) (msg : string).

(** The mutable surroundings: the resources of the cluster, the rows of the
    run store as (project, uid, run), the runs whose log is archived, and
    the calls made so far (latest first). *)
Record world : Type := {
  pods : list value;
  crds : list value;
  runs : list (value * value * value);
  log_files : list (value * value);
  trace : list event
}.

(** A computation can change the world and then raise: the changes stay. *)
Definition M (A : Type) : Type := world -> result A * world.

Definition ret {A} (a : A) : M A := fun w => (Ok a, w).

Definition bind {A B} (c : M A) (f : A -> M B) : M B :=
  fun w =>
    match c w with
    | (Ok a, w') => f a w'
    | (Raise e, w') => (Raise e, w')
    end.

Definition raise {A} (e : exn) : M A := fun w => (Raise e, w).

Definition lift {A} (r : result A) : M A := fun w => (r, w).

(** [try: c except ...: h]; the handler re-raises what it does not catch. *)
Definition try_except {A} (c : M A) (h : exn -> M A) : M A :=
  fun w =>
    match c w with
    | (Ok a, w') => (Ok a, w')
    | (Raise e, w') => h e w'
    end.

Definition record (e : event) (w : world) : world :=
  {| pods := pods w; crds := crds w; runs := runs w;
     log_files := log_files w; trace := e :: trace w |}.

Definition emit (e : event) : M unit := fun w => (Ok tt, record e w).

Definition logger (lvl : level) (msg : string) : M unit := emit (Log lvl msg).

Declare Scope monad_scope.
Delimit Scope monad_scope with monad.
Notation "x <- c ;; k" := (bind c (fun x => k))
  (at level 61, c at next level, right associativity) : monad_scope.
Notation "' pat <- c ;; k" := (bind c (fun x => match x with pat => k end))
  (at level 61, pat pattern, c at next level, right associativity) : monad_scope.
Notation "c ;; k" := (bind c (fun _ => k))
  (at level 61, right associativity) : monad_scope.
Local Open Scope monad_scope.

(** [for x in xs: acc = body x acc] *)
Fixpoint for_each {A B} (xs : list A) (acc : B) (body : A -> B -> M B) : M B :=
  match xs with
  | [] => ret acc
  | x :: xs' => acc' <- body x acc ;; for_each xs' acc' body
  end.

Definition set_pods (ps : list value) (w : world) : world :=
  {| pods := ps; crds := crds w; runs := runs w;
     log_files := log_files w; trace := trace w |}.

Definition set_crds (cs : list value) (w : world) : world :=
  {| pods := pods w; crds := cs; runs := runs w;
     log_files := log_files w; trace := trace w |}.

Definition set_runs (rs : list (value * value * value)) (w : world) : world :=
  {| pods := pods w; crds := crds w; runs := rs;
     log_files := log_files w; trace := trace w |}.

Definition set_log_files (ls : list (value * value)) (w : world) : world :=
  {| pods := pods w; crds := crds w; runs := runs w;
     log_files := ls; trace := trace w |}.

(** ** The collaborators *)

(** Modelled from the spec: the Run Store ([DBInterface], not among the
    sources).  [read] answers the run of (project, uid) or NotFound,
    [write] is an upsert by (project, uid), the listing answers every run
    of every project, those in the given states when states are given. *)
Module RunStore.

Fixpoint find (project uid : value) (rows : list (value * value * value))
  : option value :=
  match rows with
  | [] => None
  | (p, u, r) :: rows' =>
      if Py.eqb p project && Py.eqb u uid then Some r
      else find project uid rows'
  end.

Fixpoint upsert (project uid r : value) (rows : list (value * value * value))
  : list (value * value * value) :=
  match rows with
  | [] => [(project, uid, r)]
  | (p, u, r') :: rows' =>
      if Py.eqb p project && Py.eqb u uid then (p, u, r) :: rows'
      else (p, u, r') :: upsert project uid r rows'
  end.

Definition in_states (states : option (list string)) (r : value) : bool :=
  match states with
  | None => true
  | Some l =>
      match Py.get_in r (VStr "status") (VStr "state") VNone with
      | Ok st => Py.in_strings st l
      | Raise _ => false
      end
  end.

Definition read_run (uid project : value) : M value :=
  emit (ReadRun uid project) ;;
  fun w =>
    match find project uid (runs w) with
    | Some r => (Ok r, w)
    | None => (Raise MLRunNotFoundError, w)
    end.

Definition store_run (r uid project : value) : M unit :=
  emit (StoreRun r uid project) ;;
  fun w => (Ok tt, set_runs (upsert project uid r (runs w)) w).

Definition list_runs (states : option (list string)) : M (list value) :=
  emit ListRuns ;;
  fun w => (Ok (filter (in_states states) (map snd (runs w))), w).

End RunStore.

(** Modelled from the spec: the Log Archive ([mlrun.api.crud.Logs], not
    among the sources): whether a log exists for a run, and storing one. *)
Module Logs.

Definition log_file_exists_for_run_uid (project uid : value) : M bool :=
  fun w =>
    (Ok (existsb (fun pu => Py.eqb (fst pu) project && Py.eqb (snd pu) uid)
           (log_files w)), w).

Definition store_log (project uid : value) : M unit :=
  emit (StoreLog project uid) ;;
  fun w => (Ok tt, set_log_files (log_files w ++ [(project, uid)]) w).

End Logs.

(** Modelled from the spec: the Resource Provider ([get_k8s()], not among
    the sources).  Listings answer the resources that the selector selects;
    listing custom objects of a definition that is not registered raises
    the provider's 404; a deleted resource is gone from later listings. *)
Module K8s.
Section WithPlatform.
Context {platform : Platform}.

(** [resource.metadata.name] of a listed resource *)
Definition metadata_name (r : value) : result value :=
  match r with
  | VDict items =>
      match Py.assoc (VStr "metadata") items with
      | Some (VDict m) =>
          Ok (match Py.assoc (VStr "name") m with
              | Some n => n
              | None => VNone
              end)
      | _ => Raise AttributeError
      end
  | _ => Raise AttributeError
  end.

Definition named (name : value) (r : value) : bool :=
  match metadata_name r with
  | Ok n => Py.eqb n name
  | Raise _ => false
  end.

Definition list_namespaced_pod (namespace selector : string)
  : M (list value) :=
  emit (ListPods namespace selector) ;;
  fun w => (Ok (filter (selects selector) (pods w)), w).

Definition delete_pod (name : value) (namespace : string) : M unit :=
  emit (DeletePod name namespace) ;;
  fun w => (Ok tt, set_pods (filter (fun r => negb (named name r)) (pods w)) w).

Definition list_namespaced_custom_object
  (group version namespace plural selector : string) : M value :=
  emit (ListCustomObjects group version namespace plural selector) ;;
  fun w =>
    if crd_defined then
      (Ok (VDict [(VStr "items", VList (filter (selects selector) (crds w)))]), w)
    else (Raise (ApiException 404), w).

Definition delete_crd (name : value)
  (group version plural namespace : string) : M unit :=
  emit (DeleteCrd name group version plural namespace) ;;
  fun w => (Ok tt, set_crds (filter (fun r => negb (named name r)) (crds w)) w).

End WithPlatform.
End K8s.

(** Modelled from the spec: [mlrun.utils.retry_until_successful], which
    calls [c] every [interval] seconds until it does not raise, and raises
    once [timeout] seconds have passed. *)
Fixpoint retry (attempts : nat) {A} (c : M A) : M A :=
  match attempts with
  | O => raise (Exception "failed to execute command by the given deadline")
  | S n => try_except c (fun _ => retry n c)
  end.

Definition retry_until_successful {A} (interval timeout : Z) (c : M A) : M A :=
  retry (S (Z.to_nat (timeout / interval))) c.

(** ** BaseRuntimeHandler *)

Section BaseRuntimeHandler.

Context {constants : Constants} {config : Config} {datetime : Datetime}
        {platform : Platform}.
Variable self : RuntimeHandler.

Definition wait_for_deletion_interval : Z := 10.

Definition _get_possible_mlrun_class_label_values
  (class_mode : option RuntimeClassMode.t) : list string :=
  match class_mode with
  | None => map snd (class_modes self)
  | Some m =>
      match find (fun kv => RuntimeClassMode.eqb (fst kv) m) (class_modes self) with
      | Some (_, v) => if String.eqb v "" then [] else [v]
      | None => []
      end
  end.

Definition _get_default_label_selector
  (class_mode : option RuntimeClassMode.t) : string :=
  let class_values := _get_possible_mlrun_class_label_values class_mode in
  match class_values with
  | [] => ""
  | [v] => "mlrun/class=" ++ v
  | _ => "mlrun/class in (" ++ String.concat ", " class_values ++ ")"
  end.

Definition nonempty (s : option string) : bool :=
  match s with
  | Some s => negb (String.eqb s "")
  | None => false
  end.

Definition _add_object_label_selector_if_needed
  (object_id label_selector : option string) : option string :=
  match object_id with
  | Some id =>
      if nonempty object_id then
        let object_label_selector := _get_object_label_selector self id in
        match label_selector with
        | Some l =>
            if nonempty label_selector
            then Some (String.concat "," [object_label_selector; l])
            else Some object_label_selector
        | None => Some object_label_selector
        end
      else label_selector
  | None => label_selector
  end.

Definition resolve_label_selector
  (project : string) (object_id label_selector : option string)
  (class_mode : option RuntimeClassMode.t)
  (with_main_runtime_resource_label_selector : bool) : string :=
  let default_label_selector := _get_default_label_selector class_mode in
  let label_selector :=
    match label_selector with
    | Some l =>
        if nonempty label_selector
        then String.concat "," [default_label_selector; l]
        else default_label_selector
    | None => default_label_selector
    end in
  let label_selector :=
    if negb (String.eqb project "") && negb (String.eqb project "*")
    then String.concat "," [label_selector; "mlrun/project=" ++ project]
    else label_selector in
  let label_selector :=
    match _add_object_label_selector_if_needed object_id (Some label_selector) with
    | Some l => l
    | None => label_selector
    end in
  if with_main_runtime_resource_label_selector then
    let main_runtime_resource_label_selector :=
      _get_main_runtime_resource_label_selector self in
    if negb (String.eqb main_runtime_resource_label_selector "")
    then String.concat "," [label_selector; main_runtime_resource_label_selector]
    else label_selector
  else label_selector.

Definition _list_pods (namespace label_selector : string) : M (list value) :=
  K8s.list_namespaced_pod namespace label_selector.

Definition crd_info_given : bool :=
  let '(crd_group, crd_version, crd_plural) := _get_crd_info self in
  negb (String.eqb crd_group "") && negb (String.eqb crd_version "")
  && negb (String.eqb crd_plural "").

Definition _list_crd_objects (namespace label_selector : string) : M value :=
  let '(crd_group, crd_version, crd_plural) := _get_crd_info self in
  if crd_info_given then
    try_except
      (crd_objects <- K8s.list_namespaced_custom_object
                        crd_group crd_version namespace crd_plural label_selector ;;
       lift (Py.getitem crd_objects (VStr "items")))
      (fun exc =>
         match exc with
         | ApiException status =>
             if negb (status =? 404) then raise exc else ret (VList [])
         | _ => raise exc
         end)
  else ret (VList []).

(** The labels of a resource name its run: project, uid, name. *)
Definition _resolve_runtime_resource_run (runtime_resource : value)
  : result (value * value * value) :=
  (let? metadata := Py.get runtime_resource (VStr "metadata") (VDict []) in
   let? labels := Py.get metadata (VStr "labels") (VDict []) in
   let? project := Py.get labels (VStr "mlrun/project") VNone in
   let project :=
     if negb (Py.truthy project) then VStr default_project else project in
   let? uid := Py.get labels (VStr "mlrun/uid") VNone in
   let? name := Py.get labels (VStr "mlrun/name") (VStr "no-name") in
   Ok (project, uid, name))%result.

(** The latest completion time among the containers seen so far. *)
Definition take_latest (container_status last_container_completion_time : value)
  : result value :=
  (let? state := Py.get container_status (VStr "state") (VDict []) in
   let? terminated := Py.get state (VStr "terminated") VNone in
   if Py.truthy terminated then
     let? state := Py.getitem container_status (VStr "state") in
     let? terminated := Py.getitem state (VStr "terminated") in
     let? container_completion_time :=
       Py.get terminated (VStr "finished_at") VNone in
     if negb (Py.truthy last_container_completion_time) then
       Ok container_completion_time
     else
       let? earlier :=
         Py.lt last_container_completion_time container_completion_time in
       Ok (if earlier then container_completion_time
           else last_container_completion_time)
   else Ok last_container_completion_time)%result.

Fixpoint latest_completion (container_statuses : list value) (last : value)
  : result value :=
  match container_statuses with
  | [] => Ok last
  | c :: cs =>
      (let? last' := take_latest c last in latest_completion cs last')%result
  end.

(** Whether the pod is in a terminal phase, when it got there, and the
    run state that matches its phase. *)
Definition _resolve_pod_status_info (pod : value)
  : result (bool * value * option string) :=
  (let? status := Py.getitem pod (VStr "status") in
   let? phase := Py.getitem status (VStr "phase") in
   let in_terminal_state := Py.in_strings phase PodPhases_terminal_phases in
   let? run_state := PodPhases_pod_phase_to_run_state phase in
   let? last_container_completion_time :=
     if in_terminal_state then
       let? container_statuses :=
         Py.get status (VStr "container_statuses") (VList []) in
       let? container_statuses := Py.iter container_statuses in
       latest_completion container_statuses VNone
     else Ok VNone in
   Ok (in_terminal_state, last_container_completion_time, Some run_state))%result.

Definition of_option (s : option string) : value :=
  match s with
  | Some s => VStr s
  | None => VNone
  end.

Definition _ensure_run_logs_collected (project uid : value) : M unit :=
  log_file_exists <- Logs.log_file_exists_for_run_uid project uid ;;
  if negb log_file_exists then
    let logs_from_k8s := _get_logs_legacy_method project uid in
    if negb (String.eqb logs_from_k8s "") then
      logger info "Storing run logs" ;;
      Logs.store_log project uid
    else ret tt
  else ret tt.

(** The last lines of [_ensure_run_state]: the accepted state is written
    to the run and the run is stored. *)
Definition update_run_state (project uid : value) (run_state : option string)
  (run : value) : M (bool * option string * value) :=
  logger info "Updating run state" ;;
  run <- lift (Py.setdefault_setitem run (VStr "status") (VStr "state")
                 (of_option run_state)) ;;
  run <- lift (Py.setdefault_setitem run (VStr "status") (VStr "last_update")
                 (VStr (isoformat now_date))) ;;
  RunStore.store_run run uid project ;;
  ret (true, run_state, run).

(** The head of [_ensure_run_state]: the run it works on is the one given,
    the one read from the run store, or a new one. *)
Definition find_or_new_run (project uid name run : value) (search_run : bool)
  : M value :=
  let run := if Py.is_none run then VDict [] else run in
  run <- (if search_run then
            try_except (RunStore.read_run uid project)
              (fun exc =>
                 match exc with
                 | MLRunNotFoundError => ret (VDict [])
                 | _ => raise exc
                 end)
          else ret run) ;;
  if negb (Py.truthy run) then
    logger warning "Run not found. A new run will be created" ;;
    ret (VDict [(VStr "metadata",
                 VDict [(VStr "project", project);
                        (VStr "name", name);
                        (VStr "uid", uid)])])
  else ret run.

(** The rest of [_ensure_run_state], from [db_run_state = ...] on. *)
Definition reconcile_run_state (project uid : value)
  (run_state : option string) (run : value) : M (bool * option string * value) :=
  db_run_state <- lift (Py.get_in run (VStr "status") (VStr "state") VNone) ;;
  if Py.truthy db_run_state then
    if Py.eqb db_run_state (of_option run_state) then
      ret (false, run_state, run)
    else if Py.in_strings db_run_state RunStates_terminal_states then
      debounced <-
        (if negb (Py.in_strings (of_option run_state) RunStates_terminal_states) then
           let now := now_date in
           last_update_str <-
             lift (Py.get_in run (VStr "status") (VStr "last_update") VNone) ;;
           if negb (Py.is_none last_update_str) then
             last_update <- lift (fromisoformat last_update_str) ;;
             let debounce_period := runs_monitoring_interval in
             ret (last_update >? now - timedelta debounce_period)
           else ret false
         else ret false) ;;
      if debounced then
        logger warning
          "Monitoring found non-terminal state on runtime resource but record has recently updated to terminal state. Debouncing" ;;
        ret (false, run_state, run)
      else
        logger warning
          "Run record has terminal state but monitoring found different state on runtime resource. Changing" ;;
        update_run_state project uid run_state run
    else update_run_state project uid run_state run
  else update_run_state project uid run_state run.

(** The reconciler.  The source answers (changed, state) and assigns into
    the run dictionary it works on; the third component here is that
    dictionary after the call.  It is the caller's own object when the
    caller passed a non-empty [run] with [search_run] false. *)
Definition _ensure_run_state (project uid name : value)
  (run_state : option string) (run : value) (search_run : bool)
  : M (bool * option string * value) :=
  run <- find_or_new_run project uid name run search_run ;;
  reconcile_run_state project uid run_state run.

Definition orphan_reason : string :=
  "A runtime resource related to this run could not be found".

Definition _ensure_run_not_stuck_on_non_terminal_state
  (project run_uid run run_runtime_resources_map : value) : M unit :=
  let now := now_date in
  db_run_state <- lift (Py.get_in run (VStr "status") (VStr "state") VNone) ;;
  if negb (Py.truthy db_run_state) then
    logger info
      "Runs monitoring found a run without state, updating to a terminal state" ;;
    run <- lift (Py.setdefault_setitem run (VStr "status") (VStr "state")
                   (VStr RunStates_error)) ;;
    run <- lift (Py.setdefault_setitem run (VStr "status") (VStr "last_update")
                   (VStr (isoformat now))) ;;
    RunStore.store_run run run_uid project
  else if Py.in_strings db_run_state RunStates_non_terminal_states then
    found <-
      lift (if Py.truthy run_runtime_resources_map then
              let? resources :=
                Py.get run_runtime_resources_map project (VDict []) in
              Py.contains resources run_uid
            else Ok false)%result ;;
    if found then ret tt
    else
      last_update_str <-
        lift (Py.get_in run (VStr "status") (VStr "last_update") VNone) ;;
      let debounce_period :=
        resolve_runs_monitoring_missing_runtime_resources_debouncing_interval in
      if Py.is_none last_update_str then
        logger info
          "Runs monitoring found run in non-terminal state without last update time set, updating last update time to now, to be able to evaluate next time if something changed" ;;
        run <- lift (Py.setdefault_setitem run (VStr "status") (VStr "last_update")
                       (VStr (isoformat now))) ;;
        RunStore.store_run run run_uid project
      else
        last_update <- lift (fromisoformat last_update_str) ;;
        if last_update >? now - timedelta debounce_period then
          logger warning
            "Monitoring did not discover a runtime resource that corresponded to a run in a non-terminal state. but record has recently updated. Debouncing"
        else
          logger info "Updating run state" ;;
          run <- lift (Py.setdefault_setitem run (VStr "status") (VStr "state")
                         (VStr RunStates_error)) ;;
          run <- lift (Py.setdefault_setitem run (VStr "status") (VStr "reason")
                         (VStr orphan_reason)) ;;
          run <- lift (Py.setdefault_setitem run (VStr "status") (VStr "last_update")
                         (VStr (isoformat now))) ;;
          RunStore.store_run run run_uid project
  else ret tt.

(** *** Deletion *)

Definition _pre_deletion_runtime_resource_run_actions
  (runtime_resource : value) (run_state : option string) : M unit :=
  '(project, uid, name) <- lift (_resolve_runtime_resource_run runtime_resource) ;;
  if negb (Py.truthy uid) then
    if negb (_expect_pods_without_uid self) then
      logger warning
        "Could not resolve run uid from runtime resource. Skipping pre-deletion actions" ;;
      raise (ValueError "Could not resolve run uid from runtime resource")
    else ret tt
  else
    logger info
      "Performing pre-deletion actions before cleaning up runtime resources" ;;
    _ <- _ensure_run_state project uid name run_state VNone true ;;
    _ensure_run_logs_collected project uid.

Fixpoint traverse {A B} (f : A -> result B) (xs : list A) : result (list B) :=
  match xs with
  | [] => Ok []
  | x :: xs' =>
      (let? y := f x in let? ys := traverse f xs' in Ok (y :: ys))%result
  end.

Definition _verify_pods_removed (namespace label_selector : string)
  (deleted_pod_names : list value) : M unit :=
  pods <- K8s.list_namespaced_pod namespace label_selector ;;
  existing_pod_names <- lift (traverse K8s.metadata_name pods) ;;
  if forallb Py.hashable existing_pod_names
     && forallb Py.hashable deleted_pod_names then
    let still_in_deletion_pods :=
      filter (fun n => existsb (Py.eqb n) existing_pod_names) deleted_pod_names in
    match still_in_deletion_pods with
    | [] => ret tt
    | _ => raise (RuntimeError "Pods are still in deletion process")
    end
  else raise TypeError.

Definition _wait_for_pods_deletion (namespace : string)
  (deleted_pods : list value) (label_selector : string) : M unit :=
  deleted_pod_names <-
    lift (traverse (fun pod_dict =>
                      let? metadata := Py.getitem pod_dict (VStr "metadata") in
                      Py.getitem metadata (VStr "name"))%result deleted_pods) ;;
  match deleted_pod_names with
  | [] => ret tt
  | _ =>
      let timeout := 180 in
      logger debug "Waiting for pods deletion" ;;
      retry_until_successful wait_for_deletion_interval timeout
        (_verify_pods_removed namespace label_selector deleted_pod_names)
  end.

(** [last_update + timedelta(seconds=float(grace_period)) > now], for a
    [last_update] that is not [None]. *)
Definition within_grace_period (last_update : value) (grace_period now : Z)
  : result bool :=
  match last_update with
  | VTime t => Ok (t + timedelta grace_period >? now)
  | _ => Raise TypeError
  end.

(** What the loops of the deletion do with one resource once its status
    is resolved: [true] when the resource is passed over. *)
Definition passed_over (force in_terminal_state : bool) (last_update : value)
  (grace_period : Z) : result bool :=
  if negb force then
    if negb in_terminal_state then Ok true
    else
      let now := now_date in
      if negb (Py.is_none last_update) then
        within_grace_period last_update grace_period now
      else Ok false
  else Ok false.

(** The body of the loop of [_delete_pod_resources]. *)
Definition delete_pod_resource (namespace : string) (force : bool)
  (grace_period : Z) (pod_dict : value) (deleted_pods : list value)
  : M (list value) :=
  try_except
    ('(in_terminal_state, last_update, run_state) <-
       lift (_resolve_pod_status_info pod_dict) ;;
     continue <- lift (passed_over force in_terminal_state last_update grace_period) ;;
     if continue then ret deleted_pods
     else
       (if _are_resources_coupled_to_run_object self then
          try_except
            (_pre_deletion_runtime_resource_run_actions pod_dict run_state)
            (fun exc =>
               pod_name <- lift (K8s.metadata_name pod_dict) ;;
               logger warning "Failure in pod run pre-deletion actions. Continuing")
        else ret tt) ;;
       pod_name <- lift (K8s.metadata_name pod_dict) ;;
       K8s.delete_pod pod_name namespace ;;
       ret (deleted_pods ++ [pod_dict])%list)
    (fun exc =>
       pod_name <- lift (K8s.metadata_name pod_dict) ;;
       logger warning "Cleanup failed processing pod. Continuing" ;;
       ret deleted_pods).

Definition grace_period_or_default (grace_period : option Z) : Z :=
  match grace_period with
  | None => runtime_resources_deletion_grace_period
  | Some g => g
  end.

Definition _delete_pod_resources (namespace label_selector : string)
  (force : bool) (grace_period : option Z) : M (list value) :=
  let grace_period := grace_period_or_default grace_period in
  pods <- K8s.list_namespaced_pod namespace label_selector ;;
  deleted_pods <-
    for_each pods [] (delete_pod_resource namespace force grace_period) ;;
  _wait_for_pods_deletion namespace deleted_pods label_selector ;;
  ret deleted_pods.

(** *** Listing *)

(** A [RuntimeResource] is kept as the dictionary of its fields [name],
    [labels] and [status]; a [RuntimeResources] as the dictionary of its
    fields [crd_resources] and [pod_resources]. *)
Definition RuntimeResource (name labels status : value) : value :=
  VDict [(VStr "name", name); (VStr "labels", labels); (VStr "status", status)].

Definition RuntimeResources (crd_resources pod_resources : list value) : value :=
  VDict [(VStr "crd_resources", VList crd_resources);
         (VStr "pod_resources", VList pod_resources)].

Definition _build_pod_resources (pods : list value) : result (list value) :=
  traverse (fun pod =>
              let? metadata := Py.getitem pod (VStr "metadata") in
              let? name := Py.getitem metadata (VStr "name") in
              let? labels := Py.getitem metadata (VStr "labels") in
              let? status := Py.getitem pod (VStr "status") in
              Ok (RuntimeResource name labels status))%result pods.

Definition _build_crd_resources (custom_objects : list value)
  : result (list value) :=
  traverse (fun custom_object =>
              let? metadata := Py.getitem custom_object (VStr "metadata") in
              let? name := Py.getitem metadata (VStr "name") in
              let? labels := Py.getitem metadata (VStr "labels") in
              let? status := Py.get custom_object (VStr "status") (VDict []) in
              Ok (RuntimeResource name labels status))%result custom_objects.

Definition _add_resource_to_grouped_by_field_resources_response
  (first_field_value second_field_value resources : value)
  (resource_field_name : string) (resource : value) : result value :=
  (let? present := Py.contains resources first_field_value in
   let? resources :=
     if negb present then Py.setitem resources first_field_value (VDict [])
     else Ok resources in
   let? group := Py.getitem resources first_field_value in
   let? present := Py.contains group second_field_value in
   let? group :=
     if negb present
     then Py.setitem group second_field_value (RuntimeResources [] [])
     else Ok group in
   let? entry := Py.getitem group second_field_value in
   let? field := Py.getitem entry (VStr resource_field_name) in
   let? items := Py.iter field in
   let? entry :=
     Py.setitem entry (VStr resource_field_name) (VList (items ++ [resource])) in
   let? group := Py.setitem group second_field_value entry in
   Py.setitem resources first_field_value group)%result.

Definition _resolve_kind_from_class (mlrun_class : value) : result value :=
  Py.getitem (VDict class_to_kind_map) mlrun_class.

Definition _add_resource_to_grouped_by_project_resources_response
  (resources : value) (resource_field_name : string) (resource : value)
  : result value :=
  (let? labels := Py.getitem resource (VStr "labels") in
   let? has_class := Py.contains labels (VStr "mlrun/class") in
   if has_class then
     let? project := Py.get labels (VStr "mlrun/project") (VStr "") in
     let? mlrun_class := Py.getitem labels (VStr "mlrun/class") in
     let? kind := _resolve_kind_from_class mlrun_class in
     _add_resource_to_grouped_by_field_resources_response
       project kind resources resource_field_name resource
   else Ok resources)%result.

Definition _add_resource_to_grouped_by_job_resources_response
  (resources : value) (resource_field_name : string) (resource : value)
  : result value :=
  (let? labels := Py.getitem resource (VStr "labels") in
   let? has_uid := Py.contains labels (VStr "mlrun/uid") in
   if has_uid then
     let? project := Py.get labels (VStr "mlrun/project") (VStr default_project) in
     let? uid := Py.getitem labels (VStr "mlrun/uid") in
     _add_resource_to_grouped_by_field_resources_response
       project uid resources resource_field_name resource
   else Ok resources)%result.

Fixpoint fold_result {A B} (f : B -> A -> result B) (xs : list A) (acc : B)
  : result B :=
  match xs with
  | [] => Ok acc
  | x :: xs' => (let? acc' := f acc x in fold_result f xs' acc')%result
  end.

Definition _build_grouped_by_project_list_resources_response
  (pod_resources crd_resources : list value) : result value :=
  (let? resources :=
     fold_result (fun resources pod_resource =>
                    _add_resource_to_grouped_by_project_resources_response
                      resources "pod_resources" pod_resource)
       pod_resources (VDict []) in
   fold_result (fun resources crd_resource =>
                  _add_resource_to_grouped_by_project_resources_response
                    resources "crd_resources" crd_resource)
     crd_resources resources)%result.

Definition _build_grouped_by_job_list_resources_response
  (pod_resources crd_resources : list value) : result value :=
  (let? resources :=
     fold_result (fun resources pod_resource =>
                    _add_resource_to_grouped_by_job_resources_response
                      resources "pod_resources" pod_resource)
       pod_resources (VDict []) in
   fold_result (fun resources crd_resource =>
                  _add_resource_to_grouped_by_job_resources_response
                    resources "crd_resources" crd_resource)
     crd_resources resources)%result.

Inductive ListRuntimeResourcesGroupByField : Type :=
| group_by_job
| group_by_project.

Definition _build_list_resources_response
  (pod_resources crd_resources : list value)
  (group_by : option ListRuntimeResourcesGroupByField) : result value :=
  match group_by with
  | None => Ok (RuntimeResources crd_resources pod_resources)
  | Some group_by_job =>
      _build_grouped_by_job_list_resources_response pod_resources crd_resources
  | Some group_by_project =>
      _build_grouped_by_project_list_resources_response pod_resources crd_resources
  end.

Definition list_resources (project : string)
  (object_id label_selector : option string)
  (group_by : option ListRuntimeResourcesGroupByField) : M value :=
  if negb is_running_inside_kubernetes_cluster then ret (VDict [])
  else
    let namespace := resolve_namespace in
    let label_selector :=
      resolve_label_selector project object_id label_selector None false in
    pods <- _list_pods namespace label_selector ;;
    pod_resources <- lift (_build_pod_resources pods) ;;
    crd_objects <- _list_crd_objects namespace label_selector ;;
    crd_objects <- lift (Py.iter crd_objects) ;;
    crd_resources <- lift (_build_crd_resources crd_objects) ;;
    lift (_build_list_resources_response pod_resources crd_resources group_by).

(** *** Deletion of custom objects *)

Definition project_uid_crd_entry (project_uid_crd_map crd : value)
  : M value :=
  '(project, uid, _) <- lift (_resolve_runtime_resource_run crd) ;;
  if negb (Py.truthy uid) || negb (Py.truthy project) then
    logger warning
      "Could not resolve run uid from crd. Skipping waiting for pods deletion" ;;
    ret project_uid_crd_map
  else
    lift (let? metadata := Py.getitem crd (VStr "metadata") in
          let? name := Py.getitem metadata (VStr "name") in
          let? (_, project_uid_crd_map) :=
            Py.setdefault project_uid_crd_map project (VDict []) in
          let? uids := Py.getitem project_uid_crd_map project in
          let? uids := Py.setitem uids uid name in
          Py.setitem project_uid_crd_map project uids)%result.

Definition items (d : value) : result (list (value * value)) :=
  match d with
  | VDict d => Ok d
  | _ => Raise AttributeError
  end.

(** The pods still listed under one job of a deleted custom object. *)
Definition still_in_deletion_job (project_uid_crd_map project still : value)
  (job : value * value) : result value :=
  let '(job_uid, job_runtime_resources) := job in
  (let? uids := Py.getitem project_uid_crd_map project in
   let? known := Py.contains uids job_uid in
   if negb known then Ok still
   else
     let? pod_resources :=
       Py.getitem job_runtime_resources (VStr "pod_resources") in
     if Py.truthy pod_resources then
       let? pod_resources := Py.iter pod_resources in
       let? names :=
         traverse (fun pod_resource => Py.getitem pod_resource (VStr "name"))
           pod_resources in
       let? crd_name := Py.getitem uids job_uid in
       Py.setitem still crd_name (VList names)
     else Ok still)%result.

Definition still_in_deletion_project (project_uid_crd_map still : value)
  (entry : value * value) : result value :=
  let '(project, project_jobs) := entry in
  (let? known := Py.contains project_uid_crd_map project in
   if negb known then Ok still
   else
     let? jobs := items project_jobs in
     fold_result (still_in_deletion_job project_uid_crd_map project) jobs still)%result.

Definition _verify_crds_underlying_pods_removed (deleted_crds : list value)
  (label_selector : string) : M unit :=
  project_uid_crd_map <-
    for_each deleted_crds (VDict [])
      (fun crd project_uid_crd_map => project_uid_crd_entry project_uid_crd_map crd) ;;
  jobs_runtime_resources <-
    list_resources "*" None (Some label_selector) (Some group_by_job) ;;
  still_in_deletion_crds_to_pod_names <-
    lift (let? projects := items jobs_runtime_resources in
          fold_result (still_in_deletion_project project_uid_crd_map)
            projects (VDict []))%result ;;
  if Py.truthy still_in_deletion_crds_to_pod_names then
    raise (RuntimeError "CRD underlying pods are still in deletion process")
  else ret tt.

Definition _wait_for_crds_underlying_pods_deletion (deleted_crds : list value)
  (label_selector : string) : M unit :=
  if negb (_are_resources_coupled_to_run_object self) then ret tt
  else
    match deleted_crds with
    | [] => ret tt
    | _ =>
        let timeout := 180 in
        logger debug "Waiting for CRDs underlying pods deletion" ;;
        retry_until_successful wait_for_deletion_interval timeout
          (_verify_crds_underlying_pods_removed deleted_crds label_selector)
    end.

Definition crd_object_name (crd_object : value) : result value :=
  (let? metadata := Py.getitem crd_object (VStr "metadata") in
   Py.getitem metadata (VStr "name"))%result.

(** The body of the loop of [_delete_crd_resources]. *)
Definition delete_crd_resource (namespace : string) (force : bool)
  (grace_period : Z) (crd_object : value) (deleted_crds : list value)
  : M (list value) :=
  let '(crd_group, crd_version, crd_plural) := _get_crd_info self in
  try_except
    ('(in_terminal_state, last_update, desired_run_state) <-
       lift (_resolve_crd_object_status_info self crd_object) ;;
     continue <- lift (passed_over force in_terminal_state last_update grace_period) ;;
     if continue then ret deleted_crds
     else
       (if _are_resources_coupled_to_run_object self then
          try_except
            (_pre_deletion_runtime_resource_run_actions crd_object desired_run_state)
            (fun exc =>
               crd_object_name <- lift (crd_object_name crd_object) ;;
               logger warning
                 "Failure in crd object run pre-deletion actions. Continuing")
        else ret tt) ;;
       name <- lift (crd_object_name crd_object) ;;
       K8s.delete_crd name crd_group crd_version crd_plural namespace ;;
       ret (deleted_crds ++ [crd_object])%list)
    (fun exc =>
       crd_object_name <- lift (crd_object_name crd_object) ;;
       logger warning "Cleanup failed processing CRD object. Continuing" ;;
       ret deleted_crds).

Definition _delete_crd_resources (namespace label_selector : string)
  (force : bool) (grace_period : option Z) : M (list value) :=
  let grace_period := grace_period_or_default grace_period in
  let '(crd_group, crd_version, crd_plural) := _get_crd_info self in
  listed <-
    try_except
      (crd_objects <- K8s.list_namespaced_custom_object
                        crd_group crd_version namespace crd_plural label_selector ;;
       ret (Some crd_objects))
      (fun exc =>
         match exc with
         | ApiException status =>
             if negb (status =? 404) then raise exc else ret None
         | _ => raise exc
         end) ;;
  deleted_crds <-
    match listed with
    | None => ret []
    | Some crd_objects =>
        crd_objects <- lift (let? l := Py.getitem crd_objects (VStr "items") in
                             Py.iter l)%result ;;
        for_each crd_objects []
          (delete_crd_resource namespace force grace_period)
    end ;;
  _wait_for_crds_underlying_pods_deletion deleted_crds label_selector ;;
  ret deleted_crds.

(** [_delete_extra_resources] does nothing in the base class. *)
Definition delete_resources (label_selector : option string) (force : bool)
  (grace_period : option Z) : M unit :=
  let grace_period := grace_period_or_default grace_period in
  if negb is_running_inside_kubernetes_cluster then ret tt
  else
    let namespace := resolve_namespace in
    let label_selector :=
      resolve_label_selector "*" None label_selector None false in
    deleted_resources <-
      (if crd_info_given then
         _delete_crd_resources namespace label_selector force (Some grace_period)
       else
         _delete_pod_resources namespace label_selector force (Some grace_period)) ;;
    ret tt.

Definition delete_runtime_object_resources (object_id : string)
  (label_selector : option string) (force : bool) (grace_period : option Z)
  : M unit :=
  let grace_period := grace_period_or_default grace_period in
  let label_selector :=
    _add_object_label_selector_if_needed (Some object_id) label_selector in
  delete_resources label_selector force (Some grace_period).

(** *** Monitoring *)

(** The body of the loop of [_list_runs_for_monitoring]; the accumulator
    holds [project_run_uid_map], [run_with_missing_data] and
    [duplicated_runs]. *)
Definition list_run_for_monitoring (run : value)
  (acc : value * list value * value) : result (value * list value * value) :=
  let '(project_run_uid_map, run_with_missing_data, duplicated_runs) := acc in
  (let? project := Py.get_in run (VStr "metadata") (VStr "project") VNone in
   let? uid := Py.get_in run (VStr "metadata") (VStr "uid") VNone in
   if negb (Py.truthy uid) || negb (Py.truthy project) then
     let? metadata := Py.get run (VStr "metadata") (VDict []) in
     Ok (project_run_uid_map, (run_with_missing_data ++ [metadata])%list,
         duplicated_runs)
   else
     let? (uids, project_run_uid_map) :=
       Py.setdefault project_run_uid_map project (VDict []) in
     let? current_run := Py.get uids uid VNone in
     if Py.truthy current_run then
       let? monitored_run := Py.get current_run (VList [VStr "metadata"]) VNone in
       let? duplicated_run := Py.get run (VList [VStr "metadata"]) VNone in
       let duplicated_runs :=
         VDict [(VStr "monitored_run", monitored_run);
                (VStr "duplicated_run", duplicated_run)] in
       Ok (project_run_uid_map, run_with_missing_data, duplicated_runs)
     else
       let? uids := Py.getitem project_run_uid_map project in
       let? uids := Py.setitem uids uid run in
       let? project_run_uid_map := Py.setitem project_run_uid_map project uids in
       Ok (project_run_uid_map, run_with_missing_data, duplicated_runs))%result.

Definition _list_runs_for_monitoring (states : option (list string)) : M value :=
  runs <- RunStore.list_runs states ;;
  '(project_run_uid_map, run_with_missing_data, duplicated_runs) <-
    lift (fold_result (fun acc run => list_run_for_monitoring run acc)
            runs (VDict [], [], VList [])) ;;
  (if Py.truthy duplicated_runs then
     logger warning
       "Found duplicated runs (same uid). Heuristically monitoring the first one found"
   else ret tt) ;;
  (if Py.truthy (VList run_with_missing_data) then
     logger warning "Found runs with missing data. They will not be monitored"
   else ret tt) ;;
  ret project_run_uid_map.

(** [_update_ui_url] does nothing in the base class.  The run handed to the
    reconciler is the object held by [project_run_uid_map]: what the
    reconciler assigns into it shows in the map, which is returned. *)
Definition _monitor_runtime_resource (project_run_uid_map runtime_resource : value)
  (runtime_resource_is_crd : bool) (namespace : string)
  (project uid name : value) : M value :=
  '(project, uid, name) <-
    (if negb (Py.truthy project) && negb (Py.truthy uid) && negb (Py.truthy name)
     then lift (_resolve_runtime_resource_run runtime_resource)
     else ret (project, uid, name)) ;;
  if negb (Py.truthy project) || negb (Py.truthy uid) then ret project_run_uid_map
  else
    run <- lift (let? uids := Py.get project_run_uid_map project (VDict []) in
                 Py.get uids uid VNone)%result ;;
    '(_, _, run_state) <-
      lift (if runtime_resource_is_crd
            then _resolve_crd_object_status_info self runtime_resource
            else _resolve_pod_status_info runtime_resource) ;;
    '(_, updated_run_state, run') <-
      _ensure_run_state project uid name run_state run false ;;
    let project_run_uid_map :=
      if Py.truthy run then
        match (let? uids := Py.getitem project_run_uid_map project in
               let? uids := Py.setitem uids uid run' in
               Py.setitem project_run_uid_map project uids)%result with
        | Ok m => m
        | Raise _ => project_run_uid_map
        end
      else project_run_uid_map in
    (if Py.in_strings (of_option updated_run_state) RunStates_terminal_states
     then _ensure_run_logs_collected project uid
     else ret tt) ;;
    ret project_run_uid_map.

(** The [try] statement of the first loop of [monitor_runs]. *)
Definition try_monitor_runtime_resource
  (project_run_uid_map runtime_resource : value)
  (runtime_resource_is_crd : bool) (namespace : string)
  (project uid name : value) : M value :=
  try_except
    (_monitor_runtime_resource project_run_uid_map runtime_resource
       runtime_resource_is_crd namespace project uid name)
    (fun exc =>
       runtime_resource_name <-
         lift (let? metadata := Py.getitem runtime_resource (VStr "metadata") in
               Py.getitem metadata (VStr "name"))%result ;;
       logger warning "Failed monitoring runtime resource. Continuing" ;;
       ret project_run_uid_map).

(** The body of the first loop of [monitor_runs]. *)
Definition monitor_runtime_resource_step (runtime_resource_is_crd : bool)
  (namespace : string) (runtime_resource : value) (acc : value * value)
  : M (value * value) :=
  let '(project_run_uid_map, run_runtime_resources_map) := acc in
  '(project, uid, name) <- lift (_resolve_runtime_resource_run runtime_resource) ;;
  run_runtime_resources_map <-
    lift (let? (_, resources_map) :=
            Py.setdefault run_runtime_resources_map project (VDict []) in
          let? resources := Py.getitem resources_map project in
          let? resources := Py.setitem resources uid (VDict [(VStr "name", name)]) in
          Py.setitem resources_map project resources)%result ;;
  project_run_uid_map <-
    try_monitor_runtime_resource project_run_uid_map runtime_resource
      runtime_resource_is_crd namespace project uid name ;;
  ret (project_run_uid_map, run_runtime_resources_map).

(** The body of the second loop of [monitor_runs], for one run. *)
Definition ensure_run_not_stuck_step (run_runtime_resources_map project : value)
  (entry : value * value) : M unit :=
  let '(run_uid, run) := entry in
  try_except
    (run <- (if negb (Py.truthy run) then RunStore.read_run run_uid project
             else ret run) ;;
     run_kind <-
       lift (let? metadata := Py.get run (VStr "metadata") (VDict []) in
             let? labels := Py.get metadata (VStr "labels") (VDict []) in
             Py.get labels (VStr "kind") (VStr ""))%result ;;
     if Py.eqb (VStr (kind self)) run_kind then
       _ensure_run_not_stuck_on_non_terminal_state
         project run_uid run run_runtime_resources_map
     else ret tt)
    (fun exc => logger warning "Failed ensuring run not stuck. Continuing").

Definition monitor_runs : M unit :=
  let namespace := resolve_namespace in
  let label_selector := _get_default_label_selector None in
  let runtime_resource_is_crd := crd_info_given in
  runtime_resources <-
    (if runtime_resource_is_crd
     then _list_crd_objects namespace label_selector
     else pods <- _list_pods namespace label_selector ;; ret (VList pods)) ;;
  project_run_uid_map <- _list_runs_for_monitoring None ;;
  runtime_resources <- lift (Py.iter runtime_resources) ;;
  '(project_run_uid_map, run_runtime_resources_map) <-
    for_each runtime_resources (project_run_uid_map, VDict [])
      (monitor_runtime_resource_step runtime_resource_is_crd namespace) ;;
  projects <- lift (items project_run_uid_map) ;;
  for_each projects tt
    (fun entry _ =>
       let '(project, runs) := entry in
       if Py.truthy runs then
         runs <- lift (items runs) ;;
         for_each runs tt
           (fun entry _ =>
              ensure_run_not_stuck_step run_runtime_resources_map project entry)
       else ret tt).

(** Whether the run of a runtime resource is in a terminal state, and its
    last update when it has one. *)
Definition _is_runtime_resource_run_in_terminal_state (runtime_resource : value)
  : M (bool * option Z) :=
  '(project, uid, _) <- lift (_resolve_runtime_resource_run runtime_resource) ;;
  if negb (Py.truthy uid) then ret (true, None)
  else
    run <- RunStore.read_run uid project ;;
    last_update_str <-
      lift (Py.get_in run (VStr "status") (VStr "last_update") VNone) ;;
    last_update <-
      (if negb (Py.is_none last_update_str) then
         last_update <- lift (fromisoformat last_update_str) ;;
         ret (Some last_update)
       else ret None) ;;
    state <- lift (Py.get_in run (VStr "status") (VStr "state") VNone) ;;
    if negb (Py.in_strings state RunStates_terminal_states)
    then ret (false, last_update)
    else ret (true, last_update).

End BaseRuntimeHandler.

(** ** An environment to run the model in *)

(** Modelled from the spec: the tables of mlrun/runtimes/constants.py, with
    the states that the specification names (terminal: completed, error,
    aborted) and the phases a cluster reports for a pod.  The theorems
    below hold for every table; this one serves the examples. *)
Module Sample.

Definition pod_phase_to_run_state (pod_phase : value) : result string :=
  match pod_phase with
  | VStr "Failed" => Ok "error"
  | VStr "Pending" => Ok "pending"
  | VStr "Running" => Ok "running"
  | VStr "Succeeded" => Ok "completed"
  | VStr "Unknown" => Ok "unknown"
  | _ => Raise (ValueError "Given pod phase is not a valid pod phase")
  end.

#[export] Instance constants : Constants := {|
  RunStates_error := "error";
  RunStates_terminal_states := ["completed"; "error"; "aborted"];
  RunStates_non_terminal_states := ["pending"; "running"; "created"; "unknown"];
  PodPhases_terminal_phases := ["Succeeded"; "Failed"];
  PodPhases_pod_phase_to_run_state := pod_phase_to_run_state
|}.

#[export] Instance config : Config := {|
  runs_monitoring_interval := 30;
  resolve_runs_monitoring_missing_runtime_resources_debouncing_interval := 600;
  runtime_resources_deletion_grace_period := 60;
  default_project := "default"
|}.

(** Timestamps of the form [YYYY-MM-DDTHH:MM:SS+00:00], which is how
    [isoformat] prints a whole second in UTC. *)
Definition days_from_civil (y m d : Z) : Z :=
  let y := if m <=? 2 then y - 1 else y in
  let era := y / 400 in
  let yoe := y - era * 400 in
  let doy := (153 * (if m >? 2 then m - 3 else m + 9) + 2) / 5 + d - 1 in
  let doe := yoe * 365 + yoe / 4 - yoe / 100 + doy in
  era * 146097 + doe - 719468.

Definition civil_from_days (z : Z) : Z * Z * Z :=
  let z := z + 719468 in
  let era := z / 146097 in
  let doe := z - era * 146097 in
  let yoe := (doe - doe / 1460 + doe / 36524 - doe / 146096) / 365 in
  let doy := doe - (365 * yoe + yoe / 4 - yoe / 100) in
  let mp := (5 * doy + 2) / 153 in
  let d := doy - (153 * mp + 2) / 5 + 1 in
  let m := if mp <? 10 then mp + 3 else mp - 9 in
  (yoe + era * 400 + (if m <=? 2 then 1 else 0), m, d).

Definition digit (n : Z) : string :=
  String (ascii_of_nat (Z.to_nat (48 + n mod 10))) EmptyString.

Definition digits2 (n : Z) : string := digit (n / 10) ++ digit n.

Definition digits4 (n : Z) : string := digits2 (n / 100) ++ digits2 n.

Definition print_iso (t : Z) : string :=
  let seconds := t / 1000000 in
  let '(y, m, d) := civil_from_days (seconds / 86400) in
  let s := seconds mod 86400 in
  digits4 y ++ "-" ++ digits2 m ++ "-" ++ digits2 d ++ "T"
  ++ digits2 (s / 3600) ++ ":" ++ digits2 (s mod 3600 / 60) ++ ":"
  ++ digits2 (s mod 60) ++ "+00:00".

Definition digit_at (s : string) (i : nat) : option Z :=
  match String.get i s with
  | Some c =>
      let n := Z.of_nat (nat_of_ascii c) - 48 in
      if (0 <=? n) && (n <=? 9) then Some n else None
  | None => None
  end.

Fixpoint number_at (s : string) (i len : nat) (acc : Z) : option Z :=
  match len with
  | O => Some acc
  | S len' =>
      match digit_at s i with
      | Some n => number_at s (S i) len' (acc * 10 + n)
      | None => None
      end
  end.

Definition parse_iso (v : value) : result Z :=
  match v with
  | VStr s =>
      match number_at s 0 4 0, number_at s 5 2 0, number_at s 8 2 0,
            number_at s 11 2 0, number_at s 14 2 0, number_at s 17 2 0 with
      | Some y, Some m, Some d, Some hh, Some mm, Some ss =>
          if String.eqb (String.substring 19 6 s) "+00:00"
             && Nat.eqb (String.length s) 25
          then Ok ((((days_from_civil y m d * 24 + hh) * 60 + mm) * 60 + ss) * 1000000)
          else Raise (ValueError "Invalid isoformat string")
      | _, _, _, _, _, _ => Raise (ValueError "Invalid isoformat string")
      end
  | _ => Raise TypeError
  end.

#[export] Instance datetime : Datetime := {|
  isoformat := print_iso;
  fromisoformat := parse_iso
|}.

(** A cluster seen at instant [now], in which every selector selects
    every resource and no logs are left to fetch. *)
Definition platform (now : Z) (in_cluster : bool) : Platform := {|
  now_date := now;
  is_running_inside_kubernetes_cluster := in_cluster;
  resolve_namespace := "default-tenant";
  selects := fun _ _ => true;
  crd_defined := true;
  _get_logs_legacy_method := fun _ _ => "";
  class_to_kind_map := [(VStr "job", VStr "job")]
|}.

(** The handler of a kind whose pods are coupled to runs. *)
Definition job_handler : RuntimeHandler := {|
  kind := "job";
  class_modes := [(RuntimeClassMode.run, "job")];
  _get_object_label_selector := fun object_id => "mlrun/uid=" ++ object_id;
  _get_main_runtime_resource_label_selector := "";
  _get_crd_info := ("", "", "");
  _are_resources_coupled_to_run_object := true;
  _expect_pods_without_uid := false;
  _resolve_crd_object_status_info := fun _ => Ok (false, VNone, None)
|}.

Definition empty_world : world :=
  {| pods := []; crds := []; runs := []; log_files := []; trace := [] |}.

End Sample.

(** ** Vocabulary of the statements *)

(** The run the reconciler is given: the one of the run store when it is
    asked to search, its argument otherwise. *)
Definition run_given (project uid run : value) (search_run : bool) (w : world)
  (r : value) : Prop :=
  if search_run then RunStore.find project uid (runs w) = Some r else run = r.

(** The world once the reconciler has looked for the run. *)
Definition after_read (project uid : value) (search_run : bool) (w : world)
  : world :=
  if search_run then record (ReadRun uid project) w else w.

(** The world once [r] is stored for (project, uid). *)
Definition after_store (r uid project : value) (w : world) : world :=
  set_runs (RunStore.upsert project uid r (runs w))
    (record (StoreRun r uid project) w).

(** The world after further calls, latest first. *)
Definition push (evs : list event) (w : world) : world :=
  {| pods := pods w; crds := crds w; runs := runs w;
     log_files := log_files w; trace := evs ++ trace w |}.

Definition is_store (e : event) : bool :=
  match e with
  | StoreRun _ _ _ => true
  | _ => false
  end.

(** The number of writes to the run store so far. *)
Definition writes (w : world) : nat := List.length (filter is_store (trace w)).

Definition no_store (evs : list event) : bool :=
  forallb (fun e => negb (is_store e)) evs.

Definition status_field (r : value) (field : string) : result value :=
  Py.get_in r (VStr "status") (VStr field) VNone.

(** The listing of the pass holds no resource for the run: the map of
    the resources is empty, or its entry for the project lacks the uid. *)
Definition no_matching_resource (run_runtime_resources_map project run_uid : value)
  : Prop :=
  Py.truthy run_runtime_resources_map = false
  \/ exists resources,
       Py.get run_runtime_resources_map project (VDict []) = Ok resources
       /\ Py.contains resources run_uid = Ok false.

(** A dictionary with string keys. *)
Definition dict (items : list (string * value)) : value :=
  VDict (map (fun kv => (VStr (fst kv), snd kv)) items).

(** The status of a container as the cluster reports it: terminated at an
    instant, or not terminated. *)
Definition container_status (finished_at : option Z) : value :=
  dict [("state",
         dict [("terminated",
                match finished_at with
                | Some t => dict [("finished_at", VTime t)]
                | None => VNone
                end)])].

(** A pod whose container statuses are reported: name, labels, phase and,
    for each container, the instant it terminated when it has. *)
Definition mk_pod (name : string) (labels : list (value * value))
  (phase : string) (containers : list (option Z)) : value :=
  dict [("metadata", dict [("name", VStr name); ("labels", VDict labels)]);
        ("status", dict [("phase", VStr phase);
                         ("container_statuses",
                          VList (map container_status containers))])].

Definition later (since finished_at : option Z) : option Z :=
  match finished_at, since with
  | Some t, Some a => Some (Z.max a t)
  | Some t, None => Some t
  | None, _ => since
  end.

(** The instant a pod became terminal, from its containers. *)
Definition terminal_since (containers : list (option Z)) : option Z :=
  fold_left later containers None.

Definition time_value (t : option Z) : value :=
  match t with
  | Some t => VTime t
  | None => VNone
  end.


(** A computation that only adds to the calls made so far. *)
Definition extending {A} (c : M A) : Prop :=
  forall w, exists evs, trace (snd (c w)) = (evs ++ trace w)%list.

(** The listing that a pass of the monitoring asks of the cluster: the
    custom objects of the kind when it has a custom resource definition,
    the pods otherwise, of the namespace and under the default selector. *)
Definition monitoring_listing {platform : Platform} (self : RuntimeHandler)
  : event :=
  let '(crd_group, crd_version, crd_plural) := _get_crd_info self in
  if crd_info_given self then
    ListCustomObjects crd_group crd_version resolve_namespace crd_plural
      (_get_default_label_selector self None)
  else ListPods resolve_namespace (_get_default_label_selector self None).

(** The metadata of the run [r] name it as the run [uid] of [project]. *)
Definition names_run (r project uid : value) : Prop :=
  Py.get_in r (VStr "metadata") (VStr "project") VNone = Ok project
  /\ Py.get_in r (VStr "metadata") (VStr "uid") VNone = Ok uid
  /\ Py.truthy project = true
  /\ Py.truthy uid = true.

(** The map of the monitoring holds a run for [uid] of [project]. *)
Definition monitors (project uid : value) (acc : value * list value * value)
  : Prop :=
  exists m inner current,
    fst (fst acc) = VDict m
    /\ Py.assoc project m = Some (VDict inner)
    /\ Py.assoc uid inner = Some current
    /\ Py.truthy current = true.

(** The label [key] of a resource, or a default. *)
Definition label_or (labels : list (value * value)) (key : string)
  (default : value) : value :=
  match Py.assoc (VStr key) labels with
  | Some v => v
  | None => default
  end.

(** The project that the labels of a resource give to its run. *)
Definition project_of_labels {config : Config} (labels : list (value * value))
  : value :=
  if Py.truthy (label_or labels "mlrun/project" VNone)
  then label_or labels "mlrun/project" VNone
  else VStr default_project.

(** The log archive holds a log for the run. *)
Definition has_log (project uid : value) (w : world) : bool :=
  existsb (fun pu => Py.eqb (fst pu) project && Py.eqb (snd pu) uid) (log_files w).

(** A computation that leaves a part of the world as it finds it. *)
Definition preserves {X A} (part : world -> X) (c : M A) : Prop :=
  forall w, part (snd (c w)) = part w.

(** A part of the world that the record of the calls is no part of. *)
Definition apart_from_trace {X} (part : world -> X) : Prop :=
  forall e w, part (record e w) = part w.

(** What a pod is described by: name, labels, phase, containers. *)
Definition pod_description : Type :=
  string * list (value * value) * string * list (option Z).

Definition pod_of (d : pod_description) : value :=
  let '(name, labels, phase, containers) := d in
  mk_pod name labels phase containers.

Definition phase_of (d : pod_description) : string :=
  let '(_, _, phase, _) := d in phase.


(** The resources of the cluster, and the content of the run store and of
    the log archive. *)
Definition cluster (w : world) : list value * list value := (pods w, crds w).

Definition stores (w : world) : list (value * value * value) * list (value * value) :=
  (runs w, log_files w).

(** The run that the run store holds for [uid] of [project]. *)
Definition stored_run (project uid : value) (w : world) : option value :=
  RunStore.find project uid (runs w).

(** A row of the run store whose run names, in its metadata, the project
    and the uid that the row is stored under. *)
Definition keyed_by_metadata (row : value * value * value) : Prop :=
  let '(project, uid, r) := row in
  names_run r project uid
  /\ Py.hashable project = true /\ Py.hashable uid = true.

Definition name_of (d : pod_description) : string :=
  let '(name, _, _, _) := d in name.

Definition labels_of (d : pod_description) : list (value * value) :=
  let '(_, labels, _, _) := d in labels.

(** The project and the uid of the run of a pod, by its labels. *)
Definition run_key_of {config : Config} (d : pod_description) : value * value :=
  (project_of_labels (labels_of d), label_or (labels_of d) "mlrun/uid" VNone).

(** The map of the monitoring holds the runs of the rows, each under its
    project and uid, and nothing else. *)
Definition holds_runs (m : value) (rows : list (value * value * value)) : Prop :=
  forall project uid,
    Py.hashable project = true -> Py.hashable uid = true ->
    Py.get_in m project uid VNone
    = Ok (match RunStore.find project uid rows with
          | Some r => r
          | None => VNone
          end).

(** The status of a pod whose container statuses are reported, and the
    resource that the listing makes of the pod. *)
Definition status_of (d : pod_description) : value :=
  let '(_, _, phase, containers) := d in
  dict [("phase", VStr phase);
        ("container_statuses", VList (map container_status containers))].

Definition pod_resource_of (d : pod_description) : value :=
  RuntimeResource (VStr (name_of d)) (VDict (labels_of d)) (status_of d).

(** The resources that a grouped listing holds under two keys, in one of
    its two fields: [response.get(first, {}).get(second, RuntimeResources())],
    then the field. *)
Definition grouped (response first second : value) (field : string)
  : result (list value) :=
  (let? group := Py.get response first (VDict []) in
   let? entry := Py.get group second (RuntimeResources [] []) in
   let? l := Py.getitem entry (VStr field) in
   Py.iter l)%result.

(** The project and the uid that the grouping by job files a pod under:
    none when the pod has no uid label; the default project when it has no
    project label. *)
Definition job_key_of {config : Config} (d : pod_description)
  : option (value * value) :=
  match Py.assoc (VStr "mlrun/uid") (labels_of d) with
  | Some uid => Some (label_or (labels_of d) "mlrun/project" (VStr default_project), uid)
  | None => None
  end.

Definition in_job {config : Config} (project uid : value) (d : pod_description)
  : bool :=
  match job_key_of d with
  | Some (p, u) => Py.eqb p project && Py.eqb u uid
  | None => false
  end.

Definition hashable_job_key {config : Config} (d : pod_description) : Prop :=
  match job_key_of d with
  | Some (p, u) => Py.hashable p = true /\ Py.hashable u = true
  | None => True
  end.

(** Every run that the map of the monitoring holds, under any project and
    uid, satisfies [P]. *)
Definition holds_only (m : value) (P : value -> Prop) : Prop :=
  exists items,
    m = VDict items
    /\ Forall (fun entry =>
                 exists inner,
                   snd entry = VDict inner
                   /\ Forall (fun e => P (snd e)) inner)
         items.

(** The kind of a run: [run.get("metadata", {}).get("labels", {}).get("kind", "")]. *)
Definition kind_of_run (run : value) : result value :=
  (let? metadata := Py.get run (VStr "metadata") (VDict []) in
   let? labels := Py.get metadata (VStr "labels") (VDict []) in
   Py.get labels (VStr "kind") (VStr ""))%result.

(** A run that is settled: its state is set and is not a non-terminal one. *)
Definition settled {constants : Constants} (run : value) : Prop :=
  exists st,
    status_field run "state" = Ok (VStr st)
    /\ st <> "" /\ ~ In st RunStates_non_terminal_states.

(** A run that is of another kind than the handler's, or settled. *)
Definition settled_or_foreign {constants : Constants} (self : RuntimeHandler)
  (run : value) : Prop :=
  kind_of_run run = Ok (VStr (kind self)) -> settled run.

(** A computation that succeeds and does no more than call and log,
    writing to no store. *)
Definition quiet (c : M unit) : Prop :=
  forall w, exists evs, c w = (Ok tt, push evs w) /\ no_store evs = true.

(** The same surroundings, reporting to be inside a cluster or not. *)
Definition reporting (inside : bool) (platform : Platform) : Platform := {|
  now_date := @now_date platform;
  is_running_inside_kubernetes_cluster := inside;
  resolve_namespace := @resolve_namespace platform;
  selects := @selects platform;
  crd_defined := @crd_defined platform;
  _get_logs_legacy_method := @_get_logs_legacy_method platform;
  class_to_kind_map := @class_to_kind_map platform
|}.

(** The observation of the state [s] on the run [r], whose stored state
    is [db], is accepted: it is not put off by the debounce of a terminal
    state, and the last update of the run can be read. *)
Definition accepted {constants : Constants} {config : Config}
  {datetime : Datetime} {platform : Platform} (db : value) (s : string)
  (r : value) : Prop :=
  Py.truthy db = false
  \/ Py.in_strings db RunStates_terminal_states = false
  \/ In s RunStates_terminal_states
  \/ status_field r "last_update" = Ok VNone
  \/ exists lu t,
       status_field r "last_update" = Ok lu /\ Py.is_none lu = false
       /\ fromisoformat lu = Ok t
       /\ t <= now_date - timedelta runs_monitoring_interval.

(** A pod as [pod.to_dict()] gives it: name, labels, phase, and the
    statuses of its containers, which are [None] for a pod that has none
    (one that never started a container). *)
Definition reported_pod (name : string) (labels : list (value * value))
  (phase : string) (containers : option (list (option Z))) : value :=
  dict [("metadata", dict [("name", VStr name); ("labels", VDict labels)]);
        ("status", dict [("phase", VStr phase);
                         ("container_statuses",
                          match containers with
                          | Some cs => VList (map container_status cs)
                          | None => VNone
                          end)])].








(** ** Scenarios *)

(** The scenarios of the specification and a few more, run in the sample
    environment.  Instants are written with the clock of 2023-01-01. *)
Module Scenario.

Import Sample.

(** The instant hh:mm:ss of 2023-01-01, in microseconds. *)
Definition at_ (hh mm ss : Z) : Z :=
  (1672531200 + (hh * 60 + mm) * 60 + ss) * 1000000.

Definition run_of (state : string) (last_update : option string) : value :=
  dict [("metadata",
         dict [("project", VStr "p"); ("uid", VStr "u1"); ("name", VStr "train");
               ("labels", dict [("kind", VStr "job")])]);
        ("status",
         dict (("state", VStr state)
               :: match last_update with
                  | Some t => [("last_update", VStr t)]
                  | None => []
                  end))].

Definition store_of (runs : list value) : world :=
  {| pods := []; crds := [];
     runs := map (fun r => (VStr "p", VStr "u1", r)) runs;
     log_files := []; trace := [] |}.

Definition labels_of_run : list (value * value) :=
  [(VStr "mlrun/project", VStr "p"); (VStr "mlrun/uid", VStr "u1");
   (VStr "mlrun/name", VStr "train"); (VStr "mlrun/class", VStr "job")].

(** A run completed at 08:00:00. *)
Definition completed_run : value :=
  run_of "completed" (Some "2023-01-01T08:00:00+00:00").

(** A run last seen running at 08:00:00. *)
Definition running_run : value :=
  run_of "running" (Some "2023-01-01T08:00:00+00:00").

(** A pod whose containers completed at 10:00:00 and at 10:00:05. *)
Definition finished_pod : value :=
  mk_pod "pod-1" labels_of_run "Succeeded"
    [Some (at_ 10 0 0); Some (at_ 10 0 5)].

(** A pod that completed at 09:00:00 and carries no uid label. *)
Definition pod_without_uid : value :=
  mk_pod "builder-1" [(VStr "mlrun/class", VStr "job")] "Succeeded"
    [Some (at_ 9 0 0)].

(** A pod whose dictionary has no status. *)
Definition pod_without_status : value :=
  dict [("metadata",
         dict [("name", VStr "pod-2"); ("labels", VDict labels_of_run)])].

(** A pod that is running. *)
Definition running_pod : value :=
  mk_pod "pod-3" labels_of_run "Running" [None].

(** A run that waits for its pod. *)
Definition pending_run : value := run_of "pending" None.

Definition cluster_of (pods : list value) (runs : list value) : world :=
  {| pods := pods; crds := [];
     runs := map (fun r => (VStr "p", VStr "u1", r)) runs;
     log_files := []; trace := [] |}.

(** The platform at an instant, inside and outside a cluster. *)
Definition indoors (now : Z) : Platform := Sample.platform now true.
Definition outdoors (now : Z) : Platform := Sample.platform now false.

(** The state that the run store holds for the run p/u1. *)
Definition stored_state (w : world) : result value :=
  match RunStore.find (VStr "p") (VStr "u1") (runs w) with
  | Some r => status_field r "state"
  | None => Raise MLRunNotFoundError
  end.

Definition stored_field (field : string) (w : world) : result value :=
  match RunStore.find (VStr "p") (VStr "u1") (runs w) with
  | Some r => status_field r field
  | None => Raise MLRunNotFoundError
  end.

(** A pod that failed before any of its containers started. *)
Definition evicted_pod : value :=
  reported_pod "pod-4" labels_of_run "Failed" None.


(** A run that has no state yet. *)
Definition stateless_run : value :=
  dict [("metadata",
         dict [("project", VStr "p"); ("uid", VStr "u1"); ("name", VStr "train");
               ("labels", dict [("kind", VStr "job")])]);
        ("status", dict [("state", VNone)])].


(** The handler of a kind of custom objects that keeps the status
    resolver of the base class. *)
Definition mpijob_handler : RuntimeHandler := {|
  kind := "mpijob";
  class_modes := [(RuntimeClassMode.run, "mpijob")];
  _get_object_label_selector := fun object_id => "mlrun/uid=" ++ object_id;
  _get_main_runtime_resource_label_selector := "";
  _get_crd_info := ("kubeflow.org", "v1", "mpijobs");
  _are_resources_coupled_to_run_object := true;
  _expect_pods_without_uid := false;
  _resolve_crd_object_status_info := fun _ => Ok (false, VNone, None)
|}.

(** A handler of the base class, whose resources are not coupled to runs. *)
Definition plain_handler : RuntimeHandler :=
  base_handler (fun object_id => "mlrun/uid=" ++ object_id).

(** The platform at an instant, in a cluster that still holds the logs of
    every run. *)
Definition with_logs (now : Z) : Platform := {|
  now_date := now;
  is_running_inside_kubernetes_cluster := true;
  resolve_namespace := "default-tenant";
  selects := fun _ _ => true;
  crd_defined := true;
  _get_logs_legacy_method := fun _ _ => "epoch 1 done";
  class_to_kind_map := [(VStr "job", VStr "job")]
|}.

(** The platform at an instant, in a cluster where the custom resource
    definitions are not registered. *)
Definition without_crds (now : Z) : Platform := {|
  now_date := now;
  is_running_inside_kubernetes_cluster := true;
  resolve_namespace := "default-tenant";
  selects := fun _ _ => true;
  crd_defined := false;
  _get_logs_legacy_method := fun _ _ => "";
  class_to_kind_map := [(VStr "mpijob", VStr "mpijob")]
|}.

(** A custom object of the run p/u1. *)
Definition mpijob_object : value :=
  dict [("metadata", dict [("name", VStr "mpijob-1"); ("labels", VDict labels_of_run)]);
        ("status", dict [("phase", VStr "Succeeded")])].

(** The pod that finished and the pod that runs, described. *)
Definition two_pods : list pod_description :=
  [("pod-1", labels_of_run, "Succeeded", [Some (at_ 10 0 0); Some (at_ 10 0 5)]);
   ("pod-3", labels_of_run, "Running", [None])].

End Scenario.

(** ** Facts on Python values *)

Section ValueInduction.

Variable P : value -> Prop.
Hypothesis HNone : P VNone.
Hypothesis HStr : forall s, P (VStr s).
Hypothesis HTime : forall t, P (VTime t).
Hypothesis HList : forall l, Forall P l -> P (VList l).
Hypothesis HDict :
  forall d, Forall (fun kv => P (fst kv) /\ P (snd kv)) d -> P (VDict d).

Fixpoint value_ind (v : value) : P v :=
  match v with
  | VNone => HNone
  | VStr s => HStr s
  | VTime t => HTime t
  | VList l =>
      HList l
        ((fix all (l : list value) : Forall P l :=
            match l with
            | [] => Forall_nil P
            | x :: l' => Forall_cons x (value_ind x) (all l')
            end) l)
  | VDict d =>
      HDict d
        ((fix all (d : list (value * value))
            : Forall (fun kv => P (fst kv) /\ P (snd kv)) d :=
            match d with
            | [] => Forall_nil _
            | (k, x) :: d' =>
                Forall_cons (k, x) (conj (value_ind k) (value_ind x)) (all d')
            end) d)
  end.

End ValueInduction.

Lemma Py_eqb_eq (a b : value) : Py.eqb a b = true <-> a = b.
Proof.
  revert b. induction a using value_ind; intros b; destruct b; simpl;
    try (split; [discriminate | discriminate]); try tauto.
  - rewrite String.eqb_eq. split; congruence.
  - rewrite Z.eqb_eq. split; congruence.
  - revert l0. induction H as [|x l Hx Hl IH]; intros [|y l']; simpl;
      try (split; [discriminate | discriminate]); try tauto.
    rewrite andb_true_iff, Hx, IH. split.
    + intros [-> E]. congruence.
    + intros E. injection E as -> ->. auto.
  - revert d0. induction H as [|[k x] d [Hk Hx] Hd IH]; intros [|[k' y] d'];
      simpl in *; try (split; [discriminate | discriminate]); try tauto.
    rewrite !andb_true_iff, Hk, Hx, IH. split.
    + intros [[-> ->] E]. congruence.
    + intros E. injection E as -> -> ->. auto.
Qed.

Lemma Py_eqb_refl (a : value) : Py.eqb a a = true.
Proof. now apply Py_eqb_eq. Qed.

Lemma Py_eqb_neq (a b : value) : Py.eqb a b = false <-> a <> b.
Proof.
  rewrite <- Py_eqb_eq. destruct (Py.eqb a b); split; congruence.
Qed.

Lemma assoc_update_same (k v : value) (d : list (value * value)) :
  Py.assoc k (Py.update k v d) = Some v.
Proof.
  induction d as [|[k' v'] d IH]; simpl.
  - now rewrite Py_eqb_refl.
  - destruct (Py.eqb k' k) eqn:E; simpl; rewrite E; auto.
Qed.

Lemma assoc_update_other (k k' v : value) (d : list (value * value)) :
  k' <> k -> Py.assoc k (Py.update k' v d) = Py.assoc k d.
Proof.
  intros N. induction d as [|[k0 v0] d IH]; simpl.
  - apply Py_eqb_neq in N. now rewrite N.
  - destruct (Py.eqb k0 k') eqn:E; simpl.
    + apply Py_eqb_eq in E. subst k0.
      apply Py_eqb_neq in N. now rewrite N.
    + now rewrite IH.
Qed.

Lemma assoc_app_found (k x : value) (d l : list (value * value)) :
  Py.assoc k d = Some x -> Py.assoc k (d ++ l) = Some x.
Proof.
  induction d as [|[k0 v0] d IH]; simpl; try discriminate.
  destruct (Py.eqb k0 k); auto.
Qed.

Lemma assoc_app_fresh (k k' v : value) (d : list (value * value)) :
  Py.assoc k d = None ->
  Py.assoc k (d ++ [(k', v)]) = if Py.eqb k' k then Some v else None.
Proof.
  induction d as [|[k0 v0] d IH]; simpl; auto.
  destruct (Py.eqb k0 k); [discriminate | auto].
Qed.

Lemma get_in_found_truthy (d k1 k2 x : value) :
  Py.get_in d k1 k2 VNone = Ok x -> x <> VNone -> Py.truthy d = true.
Proof.
  unfold Py.get_in, Py.get. destruct d as [| | | |items]; simpl; try discriminate.
  destruct items as [|kv items]; simpl; auto.
  destruct (Py.hashable k1); simpl; try discriminate.
  destruct (Py.hashable k2); simpl; try discriminate.
  intros E N. congruence.
Qed.

Lemma get_in_found_not_none (d k1 k2 x : value) :
  Py.get_in d k1 k2 VNone = Ok x -> x <> VNone -> Py.is_none d = false.
Proof.
  intros E N. destruct d; simpl; auto; discriminate.
Qed.

(** Once [d.get(k1, {}).get(k, ...)] has answered, [d.setdefault(k1, {})[k2] = v]
    goes through. *)
Lemma setdefault_setitem_ok (d k1 k k2 dflt x v : value) :
  Py.get_in d k1 k dflt = Ok x -> Py.hashable k2 = true ->
  exists d', Py.setdefault_setitem d k1 k2 v = Ok d'.
Proof.
  unfold Py.get_in, Py.get, Py.setdefault_setitem, Py.setdefault, Py.setitem.
  destruct d as [| | | |items]; simpl; try discriminate.
  destruct (Py.hashable k1) eqn:H1; simpl; try discriminate.
  intros E H2.
  destruct (Py.assoc k1 items) as [inner|] eqn:A; simpl.
  - destruct inner; simpl in *; try discriminate.
    rewrite H2. simpl. eauto.
  - rewrite H2. simpl. eauto.
Qed.

Lemma get_in_set_same (d k1 k2 v d' dflt : value) :
  Py.setdefault_setitem d k1 k2 v = Ok d' ->
  Py.get_in d' k1 k2 dflt = Ok v.
Proof.
  unfold Py.get_in, Py.get, Py.setdefault_setitem, Py.setdefault, Py.setitem.
  destruct d as [| | | |items]; simpl; try discriminate.
  destruct (Py.hashable k1) eqn:H1; simpl; try discriminate.
  destruct (Py.assoc k1 items) as [inner|] eqn:A; simpl.
  - destruct inner as [| | | |inner]; simpl; try discriminate.
    destruct (Py.hashable k2) eqn:H2; simpl; try discriminate.
    intros E. injection E as <-.
    rewrite assoc_update_same. simpl.
    now rewrite assoc_update_same.
  - destruct (Py.hashable k2) eqn:H2; simpl; try discriminate.
    intros E. injection E as <-.
    rewrite assoc_update_same. simpl.
    simpl. now rewrite Py_eqb_refl.
Qed.

Lemma get_in_set_other (d k1 k2 k3 v d' dflt : value) :
  Py.setdefault_setitem d k1 k2 v = Ok d' -> k2 <> k3 ->
  Py.get_in d' k1 k3 dflt = Py.get_in d k1 k3 dflt.
Proof.
  unfold Py.get_in, Py.get, Py.setdefault_setitem, Py.setdefault, Py.setitem.
  destruct d as [| | | |items]; simpl; try discriminate.
  destruct (Py.hashable k1) eqn:H1; simpl; try discriminate.
  destruct (Py.assoc k1 items) as [inner|] eqn:A; simpl.
  - destruct inner as [| | | |inner]; simpl; try discriminate.
    destruct (Py.hashable k2) eqn:H2; simpl; try discriminate.
    intros E N. injection E as <-.
    rewrite assoc_update_same. simpl.
    destruct (Py.hashable k3); auto.
    now rewrite assoc_update_other.
  - destruct (Py.hashable k2) eqn:H2; simpl; try discriminate.
    intros E N. injection E as <-.
    rewrite assoc_update_same. simpl.
    destruct (Py.hashable k3); auto.
    simpl. apply Py_eqb_neq in N. now rewrite N.
Qed.

Lemma update_truthy (k v : value) (d : list (value * value)) :
  Py.truthy (VDict (Py.update k v d)) = true.
Proof.
  destruct d as [|[k' v'] d]; simpl; auto. destruct (Py.eqb k' k); auto.
Qed.

Lemma setdefault_setitem_truthy (d k1 k2 v d' : value) :
  Py.setdefault_setitem d k1 k2 v = Ok d' -> Py.truthy d' = true.
Proof.
  unfold Py.setdefault_setitem, Py.setdefault, Py.setitem.
  destruct d as [| | | |items]; simpl; try discriminate.
  destruct (Py.hashable k1) eqn:H1; simpl; try discriminate.
  destruct (Py.assoc k1 items) as [inner|] eqn:A; simpl.
  - destruct inner as [| | | |inner]; simpl; try discriminate.
    destruct (Py.hashable k2) eqn:H2; simpl; try discriminate.
    intros E. injection E as <-. apply update_truthy.
  - destruct (Py.hashable k2) eqn:H2; simpl; try discriminate.
    intros E. injection E as <-. apply update_truthy.
Qed.

(** A top-level entry other than [k1] is untouched. *)
Lemma get_set_elsewhere (d k1 k2 k v d' dflt : value) :
  Py.setdefault_setitem d k1 k2 v = Ok d' -> k1 <> k ->
  Py.get d' k dflt = Py.get d k dflt.
Proof.
  unfold Py.get, Py.setdefault_setitem, Py.setdefault, Py.setitem.
  destruct d as [| | | |items]; simpl; try discriminate.
  destruct (Py.hashable k1) eqn:H1; simpl; try discriminate.
  destruct (Py.assoc k1 items) as [inner|] eqn:A; simpl.
  - destruct inner as [| | | |inner]; simpl; try discriminate.
    destruct (Py.hashable k2) eqn:H2; simpl; try discriminate.
    intros E N. injection E as <-.
    destruct (Py.hashable k); auto.
    now rewrite assoc_update_other.
  - destruct (Py.hashable k2) eqn:H2; simpl; try discriminate.
    intros E N. injection E as <-.
    destruct (Py.hashable k); auto.
    rewrite assoc_update_other by auto.
    destruct (Py.assoc k items) eqn:B.
    + now rewrite (assoc_app_found _ _ _ _ B).
    + rewrite assoc_app_fresh by auto.
      apply Py_eqb_neq in N. now rewrite N.
Qed.

(** ** The run-state reconciler *)

Section Reconciler.

Context {constants : Constants} {config : Config} {datetime : Datetime}
        {platform : Platform}.

Lemma in_strings_In (s : string) (l : list string) :
  Py.in_strings (VStr s) l = true <-> In s l.
Proof.
  simpl. rewrite existsb_exists. split.
  - intros [x [I E]]. apply String.eqb_eq in E. now subst.
  - intros I. exists s. split; auto. apply String.eqb_refl.
Qed.

Lemma truthy_state (s : string) : s <> "" -> Py.truthy (VStr s) = true.
Proof.
  intros N. simpl. now destruct (String.eqb_spec s "").
Qed.

Lemma find_or_new_given (project uid name run : value) (search_run : bool)
  (w : world) (r : value) :
  run_given project uid run search_run w r -> Py.truthy r = true ->
  find_or_new_run project uid name run search_run w
  = (Ok r, after_read project uid search_run w).
Proof.
  unfold run_given, find_or_new_run, after_read. intros G T.
  destruct search_run.
  - unfold bind, try_except, RunStore.read_run, bind, emit. simpl.
    rewrite G. now rewrite T.
  - subst run. unfold bind, ret.
    destruct r; simpl in *; try discriminate; now rewrite ?T.
Qed.

Lemma find_or_new_missing (project uid name run : value) (w : world) :
  match RunStore.find project uid (runs w) with
  | Some r => Py.truthy r = false
  | None => True
  end ->
  find_or_new_run project uid name run true w
  = (Ok (VDict [(VStr "metadata",
                 VDict [(VStr "project", project); (VStr "name", name);
                        (VStr "uid", uid)])]),
     record (Log warning "Run not found. A new run will be created")
       (record (ReadRun uid project) w)).
Proof.
  unfold find_or_new_run. intros G.
  unfold bind, try_except, RunStore.read_run, bind, emit. simpl.
  destruct (RunStore.find project uid (runs w)) as [r|]; simpl.
  - now rewrite G.
  - reflexivity.
Qed.

Lemma store_run_eq (r uid project : value) (w : world) :
  RunStore.store_run r uid project w = (Ok tt, after_store r uid project w).
Proof. reflexivity. Qed.

(** What the write of an accepted state does. *)
Lemma update_run_state_spec (project uid : value) (run_state : option string)
  (r x : value) (k : string) (w : world) :
  status_field r k = Ok x ->
  exists r',
    update_run_state project uid run_state r w
    = (Ok (true, run_state, r'),
       after_store r' uid project (record (Log info "Updating run state") w))
    /\ status_field r' "state" = Ok (of_option run_state)
    /\ status_field r' "last_update" = Ok (VStr (isoformat now_date))
    /\ (forall f, f <> "state" -> f <> "last_update" ->
        status_field r' f = status_field r f)
    /\ (forall key dflt, key <> VStr "status" -> Py.get r' key dflt = Py.get r key dflt)
    /\ Py.truthy r' = true.
Proof.
  unfold status_field. intros S.
  destruct (setdefault_setitem_ok r (VStr "status") (VStr k) (VStr "state")
              VNone x (of_option run_state) S eq_refl) as [r1 E1].
  pose proof (get_in_set_same _ _ _ _ _ VNone E1) as G1.
  destruct (setdefault_setitem_ok r1 (VStr "status") (VStr "state")
              (VStr "last_update") VNone _ (VStr (isoformat now_date)) G1 eq_refl)
    as [r2 E2].
  exists r2. repeat split.
  - unfold update_run_state, bind, logger, emit, lift, ret.
    rewrite E1, E2. reflexivity.
  - rewrite (get_in_set_other _ _ _ _ _ _ VNone E2) by discriminate. exact G1.
  - exact (get_in_set_same _ _ _ _ _ VNone E2).
  - intros f N1 N2.
    rewrite (get_in_set_other _ _ _ _ _ _ VNone E2) by congruence.
    now rewrite (get_in_set_other _ _ _ _ _ _ VNone E1) by congruence.
  - intros key dflt N.
    rewrite (get_set_elsewhere _ _ _ _ _ _ dflt E2) by congruence.
    now rewrite (get_set_elsewhere _ _ _ _ _ _ dflt E1) by congruence.
  - exact (setdefault_setitem_truthy _ _ _ _ _ E2).
Qed.

Lemma find_upsert (project uid r : value) (rows : list (value * value * value)) :
  RunStore.find project uid (RunStore.upsert project uid r rows) = Some r.
Proof.
  induction rows as [|[[p u] r0] rows IH]; simpl.
  - now rewrite !Py_eqb_refl.
  - destruct (Py.eqb p project && Py.eqb u uid) eqn:E; simpl; rewrite E; auto.
Qed.

Lemma find_after_store (project uid r : value) (w : world) :
  RunStore.find project uid (runs (after_store r uid project w)) = Some r.
Proof. apply find_upsert. Qed.

Lemma writes_after_store (r uid project : value) (w : world) :
  writes (after_store r uid project w) = S (writes w).
Proof. reflexivity. Qed.

Lemma reconcile_same (project uid : value) (s : string) (r : value) (w : world) :
  status_field r "state" = Ok (VStr s) -> s <> "" ->
  reconcile_run_state project uid (Some s) r w = (Ok (false, Some s, r), w).
Proof.
  unfold status_field, reconcile_run_state, bind, lift, ret.
  intros S N. rewrite S, (truthy_state s N). simpl.
  now rewrite String.eqb_refl.
Qed.

Lemma writes_push (evs : list event) (w : world) :
  no_store evs = true -> writes (push evs w) = writes w.
Proof.
  unfold writes, no_store. simpl. intros N. rewrite filter_app, length_app.
  replace (filter is_store evs) with (@nil event); auto.
  induction evs as [|e evs IH]; simpl in *; auto.
  apply andb_true_iff in N. destruct N as [N1 N2].
  destruct (is_store e); try discriminate. auto.
Qed.

Lemma update_run_state_inv (project uid : value) (run_state : option string)
  (r : value) (w : world) res (w1 : world) :
  update_run_state project uid run_state r w = (Ok res, w1) ->
  exists r',
    res = (true, run_state, r')
    /\ w1 = after_store r' uid project (record (Log info "Updating run state") w)
    /\ status_field r' "state" = Ok (of_option run_state)
    /\ Py.truthy r' = true.
Proof.
  unfold update_run_state, bind, logger, emit, lift, ret.
  destruct (Py.setdefault_setitem r (VStr "status") (VStr "state")
              (of_option run_state)) as [r1|] eqn:E1; try discriminate.
  destruct (Py.setdefault_setitem r1 (VStr "status") (VStr "last_update")
              (VStr (isoformat now_date))) as [r2|] eqn:E2; try discriminate.
  simpl. intros E. injection E as <- <-. exists r2. repeat split.
  - unfold status_field.
    rewrite (get_in_set_other _ _ _ _ _ _ VNone E2) by discriminate.
    exact (get_in_set_same _ _ _ _ _ VNone E1).
  - exact (setdefault_setitem_truthy _ _ _ _ _ E2).
Qed.

(** The reconciler either leaves the run as it is, whatever was called
    before, or stores it with the observed state. *)
Lemma reconcile_inv (project uid : value) (run_state : option string)
  (r : value) (w : world) (changed : bool) (st : option string) (r1 : value)
  (w1 : world) :
  reconcile_run_state project uid run_state r w = (Ok (changed, st, r1), w1) ->
  st = run_state /\
  ((changed = false /\ r1 = r /\
    exists evs, no_store evs = true /\ w1 = push evs w /\
      forall w', reconcile_run_state project uid run_state r w'
                 = (Ok (false, run_state, r), push evs w'))
   \/
   (changed = true /\ status_field r1 "state" = Ok (of_option run_state) /\
    Py.truthy r1 = true /\
    exists evs, no_store evs = true /\ w1 = after_store r1 uid project (push evs w))).
Proof.
  unfold reconcile_run_state, bind, lift, logger, emit, ret.
  destruct (Py.get_in r (VStr "status") (VStr "state") VNone) as [db|];
    try discriminate.
  assert (U : forall (Q : Prop) evs, no_store evs = true ->
            update_run_state project uid run_state r (push evs w)
            = (Ok (changed, st, r1), w1) ->
            st = run_state /\
            (Q \/
             (changed = true /\ status_field r1 "state" = Ok (of_option run_state) /\
              Py.truthy r1 = true /\
              exists evs, no_store evs = true /\
                w1 = after_store r1 uid project (push evs w)))).
  { intros Q evs N E. apply update_run_state_inv in E.
    destruct E as [r' [E [-> [S T]]]]. injection E as -> -> ->.
    split; auto. right. repeat split; auto.
    exists (Log info "Updating run state" :: evs). split; auto. }
  destruct (Py.truthy db).
  - destruct (Py.eqb db (of_option run_state)).
    + intros E. injection E as <- <- <- <-. split; auto. left.
      repeat split; auto. exists []. repeat split; auto.
      * destruct w; reflexivity.
      * intros w'. destruct w'; reflexivity.
    + destruct (Py.in_strings db RunStates_terminal_states).
      * destruct (negb (Py.in_strings (of_option run_state) RunStates_terminal_states)).
        -- destruct (Py.get_in r (VStr "status") (VStr "last_update") VNone)
             as [lu|]; try discriminate.
           destruct (negb (Py.is_none lu)).
           ++ destruct (fromisoformat lu) as [t|]; try discriminate. simpl.
              destruct (t >? now_date - timedelta runs_monitoring_interval).
              ** intros E. injection E as <- <- <- <-. split; auto. left.
                 repeat split; auto.
                 eexists [_]. repeat split; auto.
              ** intros E. eapply (U _ [_]); [|exact E]; reflexivity.
           ++ simpl. intros E. eapply (U _ [_]); [|exact E]; reflexivity.
        -- simpl. intros E. eapply (U _ [_]); [|exact E]; reflexivity.
      * intros E. eapply (U _ []); [reflexivity|]. destruct w; exact E.
  - intros E. eapply (U _ []); [reflexivity|]. destruct w; exact E.
Qed.

(** A search in the run store never fails, and its outcome depends on the
    rows of the store alone. *)
Lemma find_or_new_search (project uid name run : value) (w : world) :
  exists r evs,
    no_store evs = true /\
    forall w', runs w' = runs w ->
      find_or_new_run project uid name run true w' = (Ok r, push evs w').
Proof.
  destruct (RunStore.find project uid (runs w)) as [r|] eqn:F.
  - destruct (Py.truthy r) eqn:T.
    + exists r, [ReadRun uid project]. split; auto. intros w' R.
      rewrite (find_or_new_given project uid name run true w' r); auto.
      unfold run_given. now rewrite R.
    + eexists _, [Log warning "Run not found. A new run will be created";
                  ReadRun uid project].
      split; [reflexivity|]. intros w' R.
      rewrite find_or_new_missing; [reflexivity|]. now rewrite R, F.
  - eexists _, [Log warning "Run not found. A new run will be created";
                ReadRun uid project].
    split; [reflexivity|]. intros w' R.
    rewrite find_or_new_missing; [reflexivity|]. now rewrite R, F.
Qed.

Lemma push_nil (w : world) : push [] w = w.
Proof. now destruct w. Qed.

Lemma writes_record (e : event) (w : world) :
  is_store e = false -> writes (record e w) = writes w.
Proof. intros E. unfold writes. cbn. now rewrite E. Qed.

(** An observation that is accepted ends in the write of the observed
    state, after calls that write nothing. *)
Lemma reconcile_accepted (project uid : value) (s : string) (r db : value) :
  status_field r "state" = Ok db -> db <> VStr s -> accepted db s r ->
  exists evs,
    no_store evs = true
    /\ forall w,
         reconcile_run_state project uid (Some s) r w
         = update_run_state project uid (Some s) r (push evs w).
Proof.
  intros S D A.
  assert (U0 : exists evs,
            no_store evs = true
            /\ forall w,
                 update_run_state project uid (Some s) r w
                 = update_run_state project uid (Some s) r (push evs w)).
  { exists []. split; auto. }
  assert (U1 : exists evs,
            no_store evs = true
            /\ forall w,
                 update_run_state project uid (Some s) r
                   (record (Log warning
                      "Run record has terminal state but monitoring found different state on runtime resource. Changing") w)
                 = update_run_state project uid (Some s) r (push evs w)).
  { exists [Log warning
              "Run record has terminal state but monitoring found different state on runtime resource. Changing"].
    split; reflexivity. }
  unfold reconcile_run_state, bind, lift, logger, emit, ret.
  unfold status_field in S. rewrite S.
  destruct (Py.truthy db) eqn:T; [|exact U0].
  cbn [of_option]. apply Py_eqb_neq in D. rewrite D.
  destruct (Py.in_strings db RunStates_terminal_states) eqn:I; [|exact U0].
  destruct (Py.in_strings (VStr s) RunStates_terminal_states) eqn:Is;
    cbn [negb]; [exact U1|].
  destruct A as [A|[A|[A|[A|[lu [t [L [Nn [F Le]]]]]]]]]; try congruence.
  - apply in_strings_In in A. congruence.
  - unfold status_field in A. rewrite A. cbn [Py.is_none negb]. exact U1.
  - unfold status_field in L. rewrite L, Nn. cbn [negb]. rewrite F.
    replace (t >? now_date - timedelta runs_monitoring_interval) with false
      by (symmetry; rewrite Z.gtb_ltb; apply Z.ltb_ge; exact Le).
    exact U1.
Qed.

(** C7, as the code has it.  For an observed state that is a state name:
    when the state of the run equals it, the reconciler writes nothing and
    answers (unchanged, that state); when the state of the run differs and
    the observation is accepted, the first application writes exactly
    once, storing the run in the observed state, and a second application
    of the same state writes nothing, so that two applications make
    exactly one write.  For an observed state that is [None] or empty, a
    run without state is written at every application. *)
Theorem ensure_run_state_idempotent (project uid name : value) :
  (forall s, s <> "" ->
     (forall run search_run w r,
        run_given project uid run search_run w r ->
        status_field r "state" = Ok (VStr s) ->
        _ensure_run_state project uid name (Some s) run search_run w
        = (Ok (false, Some s, r), after_read project uid search_run w)
        /\ runs (after_read project uid search_run w) = runs w
        /\ writes (after_read project uid search_run w) = writes w)
     /\
     (forall run search_run w r db,
        run_given project uid run search_run w r ->
        Py.truthy r = true ->
        status_field r "state" = Ok db ->
        db <> VStr s ->
        accepted db s r ->
        exists r1 w1,
          _ensure_run_state project uid name (Some s) run search_run w
          = (Ok (true, Some s, r1), w1)
          /\ writes w1 = S (writes w)
          /\ stored_run project uid w1 = Some r1
          /\ status_field r1 "state" = Ok (VStr s)
          /\ (forall run',
                _ensure_run_state project uid name (Some s) run' true w1
                = (Ok (false, Some s, r1), record (ReadRun uid project) w1))
          /\ _ensure_run_state project uid name (Some s) r1 false w1
             = (Ok (false, Some s, r1), w1)
          /\ writes (record (ReadRun uid project) w1) = S (writes w)))
  /\
  (forall run_state run search_run w r db,
     Py.truthy (of_option run_state) = false ->
     run_given project uid run search_run w r ->
     Py.truthy r = true ->
     status_field r "state" = Ok db ->
     Py.truthy db = false ->
     exists r1 w1 r2 w2,
       _ensure_run_state project uid name run_state run search_run w
       = (Ok (true, run_state, r1), w1)
       /\ writes w1 = S (writes w)
       /\ (forall run',
             _ensure_run_state project uid name run_state run' true w1
             = (Ok (true, run_state, r2), w2))
       /\ writes w2 = S (S (writes w))).
Proof.
  assert (Same : forall s, s <> "" ->
            forall run search_run w r,
              run_given project uid run search_run w r ->
              status_field r "state" = Ok (VStr s) ->
              _ensure_run_state project uid name (Some s) run search_run w
              = (Ok (false, Some s, r), after_read project uid search_run w)).
  { intros s N run search_run w r G S.
    assert (T : Py.truthy r = true).
    { eapply get_in_found_truthy; [exact S | discriminate]. }
    unfold _ensure_run_state, bind.
    rewrite (find_or_new_given _ _ _ _ _ _ _ G T).
    now rewrite (reconcile_same _ _ _ _ _ S N). }
  assert (W : forall search_run w,
            writes (after_read project uid search_run w) = writes w)
    by (intros [] w; reflexivity).
  split.
  - intros s N. split.
    + intros run search_run w r G S. split; [now apply Same|].
      split; [now destruct search_run | apply W].
    + intros run search_run w r db G T S D A.
      destruct (reconcile_accepted project uid s r db S D A) as [evs [Ne R]].
      destruct (update_run_state_spec project uid (Some s) r db "state"
                  (push evs (after_read project uid search_run w)) S)
        as [r1 [E [S1 [_ [_ [_ T1]]]]]].
      exists r1. eexists. split; [|split; [|split; [|split; [|split; [|split]]]]].
      * unfold _ensure_run_state, bind.
        rewrite (find_or_new_given _ _ _ _ _ _ _ G T), R. exact E.
      * rewrite writes_after_store, writes_record by reflexivity.
        now rewrite writes_push, W.
      * apply find_after_store.
      * exact S1.
      * intros run'. apply (Same s N run' true _ r1); auto.
        apply find_after_store.
      * apply (Same s N r1 false _ r1); auto. reflexivity.
      * rewrite writes_record by reflexivity.
        rewrite writes_after_store, writes_record by reflexivity.
        now rewrite writes_push, W.
  - intros run_state run search_run w r db F G T S D.
    assert (U : forall r0 db0 w0,
              status_field r0 "state" = Ok db0 -> Py.truthy db0 = false ->
              reconcile_run_state project uid run_state r0 w0
              = update_run_state project uid run_state r0 w0).
    { intros r0 db0 w0 S0 D0.
      unfold reconcile_run_state, bind, lift. unfold status_field in S0.
      now rewrite S0, D0. }
    destruct (update_run_state_spec project uid run_state r db "state"
                (after_read project uid search_run w) S)
      as [r1 [E1 [S1 [_ [_ [_ T1]]]]]].
    destruct (update_run_state_spec project uid run_state r1 _ "state"
                (record (ReadRun uid project)
                   (after_store r1 uid project
                      (record (Log info "Updating run state")
                         (after_read project uid search_run w)))) S1)
      as [r2 [E2 _]].
    exists r1. eexists. exists r2. eexists.
    split; [|split; [|split]].
    + unfold _ensure_run_state, bind.
      rewrite (find_or_new_given _ _ _ _ _ _ _ G T), (U r db _ S D). exact E1.
    + rewrite writes_after_store, writes_record by reflexivity.
      now rewrite W.
    + intros run'. unfold _ensure_run_state, bind.
      rewrite (find_or_new_given project uid name run' true _ r1);
        [| apply find_after_store | exact T1].
      rewrite (U r1 _ _ S1 F). exact E2.
    + rewrite writes_after_store, writes_record by reflexivity.
      rewrite writes_record by reflexivity.
      rewrite writes_after_store, writes_record by reflexivity.
      now rewrite W.
Qed.

Lemma reconcile_terminal_differs (project uid : value) (st : string)
  (rs : option string) (r : value) (w : world) (debounced : bool) :
  status_field r "state" = Ok (VStr st) -> st <> "" ->
  In st RunStates_terminal_states -> of_option rs <> VStr st ->
  (if negb (Py.in_strings (of_option rs) RunStates_terminal_states) then
     match status_field r "last_update" with
     | Ok lu =>
         if negb (Py.is_none lu) then
           match fromisoformat lu with
           | Ok t => Some (t >? now_date - timedelta runs_monitoring_interval)
           | Raise _ => None
           end
         else Some false
     | Raise _ => None
     end
   else Some false) = Some debounced ->
  reconcile_run_state project uid rs r w
  = if debounced then
      (Ok (false, rs, r),
       record (Log warning
         "Monitoring found non-terminal state on runtime resource but record has recently updated to terminal state. Debouncing") w)
    else
      update_run_state project uid rs r
        (record (Log warning
           "Run record has terminal state but monitoring found different state on runtime resource. Changing") w).
Proof.
  unfold status_field, reconcile_run_state, bind, lift, logger, emit, ret.
  intros S N I D. rewrite S, (truthy_state st N).
  apply in_strings_In in I. rewrite I.
  assert (E : Py.eqb (VStr st) (of_option rs) = false).
  { apply Py_eqb_neq. congruence. }
  rewrite E.
  destruct (negb (Py.in_strings (of_option rs) RunStates_terminal_states)).
  - destruct (Py.get_in r (VStr "status") (VStr "last_update") VNone) as [lu|];
      try discriminate.
    destruct (negb (Py.is_none lu)).
    + destruct (fromisoformat lu) as [t|]; try discriminate.
      intros H. injection H as <-. simpl.
      destruct (t >? now_date - timedelta runs_monitoring_interval); reflexivity.
    + intros H. injection H as <-. reflexivity.
  - intros H. injection H as <-. reflexivity.
Qed.

(** C6.  Terminal override: a run whose state is terminal and which is
    observed in another terminal state is stored with the observed state
    and the time of the pass as its last update, after a warning. *)
Theorem terminal_override (project uid name run : value) (search_run : bool)
  (w : world) (r : value) (st s : string) :
  run_given project uid run search_run w r ->
  status_field r "state" = Ok (VStr st) ->
  st <> "" ->
  In st RunStates_terminal_states ->
  In s RunStates_terminal_states ->
  st <> s ->
  exists r' w',
    _ensure_run_state project uid name (Some s) run search_run w
    = (Ok (true, Some s, r'), w')
    /\ w' = after_store r' uid project
              (record (Log info "Updating run state")
                 (record (Log warning
                    "Run record has terminal state but monitoring found different state on runtime resource. Changing")
                    (after_read project uid search_run w)))
    /\ RunStore.find project uid (runs w') = Some r'
    /\ status_field r' "state" = Ok (VStr s)
    /\ status_field r' "last_update" = Ok (VStr (isoformat now_date)).
Proof.
  intros G S N I1 I2 D.
  assert (T : Py.truthy r = true).
  { eapply get_in_found_truthy; [exact S | discriminate]. }
  destruct (update_run_state_spec project uid (Some s) r _ "state"
              (record (Log warning
                 "Run record has terminal state but monitoring found different state on runtime resource. Changing")
                 (after_read project uid search_run w)) S)
    as [r' [U [S1 [S2 _]]]].
  exists r'. eexists. split; [|split; [reflexivity|]].
  - unfold _ensure_run_state, bind.
    rewrite (find_or_new_given _ _ _ _ _ _ _ G T).
    rewrite (reconcile_terminal_differs project uid st (Some s) r _ false S N I1).
    + exact U.
    + simpl. congruence.
    + apply in_strings_In in I2. simpl in I2. simpl. now rewrite I2.
  - split; [apply find_after_store|]. split; assumption.
Qed.

(** C1, as the code has it.  A non-terminal state observed for a run
    whose state is terminal is ignored, with a warning, when the last
    update of the run is set and later than the time of the pass less
    [runs_monitoring_interval]; when the last update is unset or not later
    than that, the run is stored with the observed state. *)
Theorem terminal_lock_debounced (project uid name run : value)
  (search_run : bool) (w : world) (r : value) (st : string)
  (rs : option string) (lu : value) :
  run_given project uid run search_run w r ->
  status_field r "state" = Ok (VStr st) ->
  st <> "" ->
  In st RunStates_terminal_states ->
  Py.in_strings (of_option rs) RunStates_terminal_states = false ->
  status_field r "last_update" = Ok lu ->
  (forall t, lu <> VNone -> fromisoformat lu = Ok t ->
     t > now_date - timedelta runs_monitoring_interval ->
     _ensure_run_state project uid name rs run search_run w
     = (Ok (false, rs, r),
        record (Log warning
          "Monitoring found non-terminal state on runtime resource but record has recently updated to terminal state. Debouncing")
          (after_read project uid search_run w)))
  /\
  (lu = VNone \/
   (exists t, fromisoformat lu = Ok t
              /\ t <= now_date - timedelta runs_monitoring_interval) ->
   exists r' w',
     _ensure_run_state project uid name rs run search_run w
     = (Ok (true, rs, r'), w')
     /\ RunStore.find project uid (runs w') = Some r'
     /\ status_field r' "state" = Ok (of_option rs)).
Proof.
  intros G S N I NT L.
  assert (T : Py.truthy r = true).
  { eapply get_in_found_truthy; [exact S | discriminate]. }
  assert (D : of_option rs <> VStr st).
  { intros E. rewrite E in NT. apply in_strings_In in I. congruence. }
  split.
  - intros t NN F Gt.
    unfold _ensure_run_state, bind.
    rewrite (find_or_new_given _ _ _ _ _ _ _ G T).
    rewrite (reconcile_terminal_differs project uid st rs r _ true S N I D); auto.
    rewrite NT, L. simpl.
    destruct lu; try congruence; simpl; rewrite F; f_equal; lia.
  - intros C.
    destruct (update_run_state_spec project uid rs r _ "state"
                (record (Log warning
                   "Run record has terminal state but monitoring found different state on runtime resource. Changing")
                   (after_read project uid search_run w)) S)
      as [r' [U [S1 _]]].
    exists r'. eexists. split; [|split; [apply find_after_store | exact S1]].
    unfold _ensure_run_state, bind.
    rewrite (find_or_new_given _ _ _ _ _ _ _ G T).
    rewrite (reconcile_terminal_differs project uid st rs r _ false S N I D).
    + exact U.
    + rewrite NT, L. simpl. destruct C as [-> | [t [F Le]]]; auto.
      destruct (negb (Py.is_none lu)); auto.
      rewrite F. f_equal. lia.
Qed.

(** C10.  A run that the run store does not hold, or holds empty, is
    created: the reconciler stores a new record made of the metadata
    project, name and uid, the observed state and the time of the pass,
    and answers (changed, the observed state). *)
Theorem ensure_run_state_creates_run (project uid name run : value)
  (rs : option string) (w : world) :
  match RunStore.find project uid (runs w) with
  | Some r => Py.truthy r = false
  | None => True
  end ->
  let new_run :=
    VDict [(VStr "metadata",
            VDict [(VStr "project", project); (VStr "name", name);
                   (VStr "uid", uid)]);
           (VStr "status",
            VDict [(VStr "state", of_option rs);
                   (VStr "last_update", VStr (isoformat now_date))])] in
  let w' :=
    after_store new_run uid project
      (record (Log info "Updating run state")
         (record (Log warning "Run not found. A new run will be created")
            (record (ReadRun uid project) w))) in
  _ensure_run_state project uid name rs run true w = (Ok (true, rs, new_run), w')
  /\ RunStore.find project uid (runs w') = Some new_run
  /\ writes w' = S (writes w).
Proof.
  intros M new_run w'. split; [|split].
  - unfold _ensure_run_state, bind. rewrite (find_or_new_missing _ _ _ _ _ M).
    reflexivity.
  - apply find_after_store.
  - reflexivity.
Qed.

End Reconciler.

(** ** Runs without a resource *)

Section Orphans.

Context {constants : Constants} {config : Config} {datetime : Datetime}
        {platform : Platform}.

Lemma not_stuck_unmatched (project run_uid run resources_map : value)
  (st : string) (w : world) :
  status_field run "state" = Ok (VStr st) -> st <> "" ->
  In st RunStates_non_terminal_states ->
  no_matching_resource resources_map project run_uid ->
  _ensure_run_not_stuck_on_non_terminal_state project run_uid run resources_map w
  = (last_update_str <- lift (status_field run "last_update") ;;
     if Py.is_none last_update_str then
       logger info
         "Runs monitoring found run in non-terminal state without last update time set, updating last update time to now, to be able to evaluate next time if something changed" ;;
       run <- lift (Py.setdefault_setitem run (VStr "status") (VStr "last_update")
                      (VStr (isoformat now_date))) ;;
       RunStore.store_run run run_uid project
     else
       last_update <- lift (fromisoformat last_update_str) ;;
       if last_update >? now_date
                         - timedelta resolve_runs_monitoring_missing_runtime_resources_debouncing_interval
       then
         logger warning
           "Monitoring did not discover a runtime resource that corresponded to a run in a non-terminal state. but record has recently updated. Debouncing"
       else
         logger info "Updating run state" ;;
         run <- lift (Py.setdefault_setitem run (VStr "status") (VStr "state")
                        (VStr RunStates_error)) ;;
         run <- lift (Py.setdefault_setitem run (VStr "status") (VStr "reason")
                        (VStr orphan_reason)) ;;
         run <- lift (Py.setdefault_setitem run (VStr "status") (VStr "last_update")
                        (VStr (isoformat now_date))) ;;
         RunStore.store_run run run_uid project)%monad w.
Proof.
  unfold status_field. intros S N I M.
  unfold _ensure_run_not_stuck_on_non_terminal_state.
  unfold bind at 1. unfold lift at 1. rewrite S.
  rewrite (truthy_state st N). simpl negb. cbv iota.
  apply in_strings_In in I. rewrite I.
  unfold bind at 1. unfold lift at 1.
  destruct M as [M | [resources [M1 M2]]].
  - rewrite M. reflexivity.
  - destruct (Py.truthy resources_map); [|reflexivity].
    rewrite M1. simpl. rewrite M2. reflexivity.
Qed.

(** C4, as the code has it.  Orphan debounce: for a run in a non-terminal
    state with no resource in the listing of the pass.  When its last
    update is not later than the time of the pass less the debouncing
    interval, the run is stored with the state error, the reason
    [orphan_reason] and the time of the pass as last update.  When its
    last update is later than that, nothing is stored.  When it has no
    last update, it is stored with the time of the pass as last update and
    its state as it was. *)
Theorem orphan_debounce (project run_uid run resources_map : value)
  (st : string) (lu : value) (w : world) :
  status_field run "state" = Ok (VStr st) ->
  st <> "" ->
  In st RunStates_non_terminal_states ->
  no_matching_resource resources_map project run_uid ->
  status_field run "last_update" = Ok lu ->
  let debounce_period :=
    resolve_runs_monitoring_missing_runtime_resources_debouncing_interval in
  (forall t, lu <> VNone -> fromisoformat lu = Ok t ->
     t <= now_date - timedelta debounce_period ->
     exists run',
       _ensure_run_not_stuck_on_non_terminal_state project run_uid run resources_map w
       = (Ok tt, after_store run' run_uid project
                   (record (Log info "Updating run state") w))
       /\ status_field run' "state" = Ok (VStr RunStates_error)
       /\ status_field run' "reason" = Ok (VStr orphan_reason)
       /\ status_field run' "last_update" = Ok (VStr (isoformat now_date)))
  /\
  (forall t, lu <> VNone -> fromisoformat lu = Ok t ->
     t > now_date - timedelta debounce_period ->
     _ensure_run_not_stuck_on_non_terminal_state project run_uid run resources_map w
     = (Ok tt,
        record (Log warning
          "Monitoring did not discover a runtime resource that corresponded to a run in a non-terminal state. but record has recently updated. Debouncing") w))
  /\
  (lu = VNone ->
   exists run',
     _ensure_run_not_stuck_on_non_terminal_state project run_uid run resources_map w
     = (Ok tt, after_store run' run_uid project
                 (record (Log info
                    "Runs monitoring found run in non-terminal state without last update time set, updating last update time to now, to be able to evaluate next time if something changed") w))
     /\ status_field run' "last_update" = Ok (VStr (isoformat now_date))
     /\ (forall f, f <> "last_update" -> status_field run' f = status_field run f)
     /\ (forall key dflt, key <> VStr "status" ->
         Py.get run' key dflt = Py.get run key dflt)).
Proof.
  intros S N I M L debounce_period. unfold debounce_period.
  rewrite (not_stuck_unmatched project run_uid run resources_map st w S N I M).
  rewrite L. unfold bind at 1. unfold lift at 1.
  split; [|split].
  - intros t NN F Le.
    destruct (setdefault_setitem_ok run (VStr "status") (VStr "state") (VStr "state")
                VNone _ (VStr RunStates_error) S eq_refl) as [r1 E1].
    pose proof (get_in_set_same _ _ _ _ _ VNone E1) as G1.
    destruct (setdefault_setitem_ok r1 (VStr "status") (VStr "state") (VStr "reason")
                VNone _ (VStr orphan_reason) G1 eq_refl) as [r2 E2].
    pose proof (get_in_set_same _ _ _ _ _ VNone E2) as G2.
    destruct (setdefault_setitem_ok r2 (VStr "status") (VStr "reason")
                (VStr "last_update") VNone _ (VStr (isoformat now_date)) G2 eq_refl)
      as [r3 E3].
    exists r3. split; [|split; [|split]].
    + destruct lu; try congruence; simpl; unfold bind, lift, logger, emit;
        rewrite F;
        (replace (t >? _) with false by lia);
        rewrite E1, E2, E3; reflexivity.
    + unfold status_field.
      rewrite (get_in_set_other _ _ _ _ _ _ VNone E3) by discriminate.
      rewrite (get_in_set_other _ _ _ _ _ _ VNone E2) by discriminate.
      exact G1.
    + unfold status_field.
      rewrite (get_in_set_other _ _ _ _ _ _ VNone E3) by discriminate.
      exact G2.
    + exact (get_in_set_same _ _ _ _ _ VNone E3).
  - intros t NN F Gt.
    destruct lu; try congruence; simpl; unfold bind, lift, logger, emit;
      rewrite F; (replace (t >? _) with true by lia); reflexivity.
  - intros ->. simpl.
    destruct (setdefault_setitem_ok run (VStr "status") (VStr "state")
                (VStr "last_update") VNone _ (VStr (isoformat now_date)) S eq_refl)
      as [r1 E1].
    exists r1. split; [|split; [|split]].
    + unfold bind, lift, logger, emit. rewrite E1. reflexivity.
    + exact (get_in_set_same _ _ _ _ _ VNone E1).
    + intros f NF. unfold status_field.
      apply (get_in_set_other _ _ _ _ _ _ VNone E1). congruence.
    + intros key dflt NK.
      apply (get_set_elsewhere _ _ _ _ _ _ dflt E1). congruence.
Qed.

End Orphans.

(** ** The status resolver and the deletion *)

Section Deletion.

Context {constants : Constants} {config : Config} {datetime : Datetime}
        {platform : Platform}.
Variable self : RuntimeHandler.

Lemma latest_completion_containers (containers : list (option Z))
  (since : option Z) :
  latest_completion (map container_status containers) (time_value since)
  = Ok (time_value (fold_left later containers since)).
Proof.
  revert since. induction containers as [|c cs IH]; intros since; simpl; auto.
  destruct c as [t|]; simpl.
  - destruct since as [a|]; simpl.
    + replace (if a <? t then VTime t else VTime a)
        with (time_value (Some (Z.max a t))).
      * now rewrite IH.
      * simpl. destruct (Z.ltb_spec a t); f_equal; lia.
    + change (VTime t) with (time_value (Some t)). now rewrite IH.
  - destruct since as [a|]; simpl.
    + change (VTime a) with (time_value (Some a)). now rewrite IH.
    + change VNone with (time_value None). now rewrite IH.
Qed.



Lemma resolve_pod_status_info_pod (name : string) (labels : list (value * value))
  (phase : string) (containers : list (option Z)) (st : string) :
  PodPhases_pod_phase_to_run_state (VStr phase) = Ok st ->
  _resolve_pod_status_info (mk_pod name labels phase containers)
  = Ok (Py.in_strings (VStr phase) PodPhases_terminal_phases,
        if Py.in_strings (VStr phase) PodPhases_terminal_phases
        then time_value (terminal_since containers) else VNone,
        Some st).
Proof.
  intros P. unfold _resolve_pod_status_info. cbn -[Py.in_strings].
  rewrite P. cbn -[Py.in_strings].
  destruct (Py.in_strings (VStr phase) PodPhases_terminal_phases); auto.
  cbn -[Py.in_strings].
  change VNone with (time_value None).
  rewrite latest_completion_containers. reflexivity.
Qed.

(** The world once the pod [name] is deleted. *)
Lemma delete_pod_eq (name : value) (namespace : string) (w : world) :
  K8s.delete_pod name namespace w
  = (Ok tt, set_pods (filter (fun r => negb (K8s.named name r)) (pods w))
              (record (DeletePod name namespace) w)).
Proof. reflexivity. Qed.





Lemma resolve_pod_status_info_unreported (name : string)
  (labels : list (value * value)) (phase st : string) :
  PodPhases_pod_phase_to_run_state (VStr phase) = Ok st ->
  In phase PodPhases_terminal_phases ->
  _resolve_pod_status_info (reported_pod name labels phase None) = Raise TypeError.
Proof.
  intros P I. apply in_strings_In in I.
  unfold _resolve_pod_status_info. cbn -[Py.in_strings].
  rewrite P. cbn -[Py.in_strings]. now rewrite I.
Qed.

(** C5, where the code fails it.  A pod in a terminal phase for which no
    container statuses are reported: the instant it became terminal is
    unknown, which is the case in which the filter selects the pod.  The
    status resolver reads the statuses with a default for the absent key,
    finds [None] and raises [TypeError] when it iterates; the loop of the
    deletion logs a warning and does not delete the pod, forced or not. *)
Theorem terminal_pod_without_container_statuses_is_kept (namespace name : string)
  (labels : list (value * value)) (phase st : string) (force : bool)
  (grace_period : Z) (deleted_pods : list value) (w : world) :
  PodPhases_pod_phase_to_run_state (VStr phase) = Ok st ->
  In phase PodPhases_terminal_phases ->
  let pod_dict := reported_pod name labels phase None in
  _resolve_pod_status_info pod_dict = Raise TypeError
  /\ delete_pod_resource self namespace force grace_period pod_dict deleted_pods w
     = (Ok deleted_pods,
        record (Log warning "Cleanup failed processing pod. Continuing") w).
Proof.
  intros P I pod_dict.
  pose proof (resolve_pod_status_info_unreported name labels phase st P I) as R.
  fold pod_dict in R. split; [exact R|].
  unfold delete_pod_resource, try_except, bind, lift. now rewrite R.
Qed.

Lemma resolve_pod_status_info_malformed (items : list (value * value)) :
  Py.assoc (VStr "status") items = None
  \/ (exists status,
        Py.assoc (VStr "status") items = Some (VDict status)
        /\ Py.assoc (VStr "phase") status = None) ->
  _resolve_pod_status_info (VDict items) = Raise KeyError.
Proof.
  unfold _resolve_pod_status_info. simpl.
  intros [-> | [status [-> P]]]; simpl; auto. now rewrite P.
Qed.

(** C8, as the code has it.  For a pod whose dictionary lacks the status,
    or whose status lacks the phase, the status resolver raises [KeyError].
    The exception does not end the pass: the deletion logs a warning and
    leaves the pod in place, and the monitoring logs a warning, when it
    asks for the status at all, and leaves the runs as they are. *)
Theorem malformed_pod_status_is_skipped (namespace : string)
  (items : list (value * value)) (metadata name : value) :
  Py.assoc (VStr "status") items = None
  \/ (exists status,
        Py.assoc (VStr "status") items = Some (VDict status)
        /\ Py.assoc (VStr "phase") status = None) ->
  Py.getitem (VDict items) (VStr "metadata") = Ok metadata ->
  Py.getitem metadata (VStr "name") = Ok name ->
  let pod_dict := VDict items in
  _resolve_pod_status_info pod_dict = Raise KeyError
  /\
  (forall force grace_period deleted_pods w,
     delete_pod_resource self namespace force grace_period pod_dict deleted_pods w
     = (Ok deleted_pods,
        record (Log warning "Cleanup failed processing pod. Continuing") w))
  /\
  (forall project_run_uid_map project uid run_name w,
     let monitored :=
       try_monitor_runtime_resource self project_run_uid_map pod_dict false
         namespace project uid run_name w in
     monitored = (Ok project_run_uid_map, w)
     \/ monitored
        = (Ok project_run_uid_map,
           record (Log warning "Failed monitoring runtime resource. Continuing") w)).
Proof.
  intros Mal GM GN pod_dict.
  pose proof (resolve_pod_status_info_malformed items Mal) as R.
  fold pod_dict in R.
  assert (N : K8s.metadata_name pod_dict = Ok name).
  { unfold pod_dict, K8s.metadata_name. simpl in GM.
    destruct (Py.assoc (VStr "metadata") items) as [md|]; try discriminate.
    injection GM as ->. destruct metadata as [| | | |md]; try discriminate.
    simpl in GN. destruct (Py.assoc (VStr "name") md); try discriminate.
    now injection GN as ->. }
  split; [exact R | split].
  - intros force grace_period deleted_pods w.
    unfold delete_pod_resource, try_except, bind, lift, logger, emit, ret.
    rewrite R, N. reflexivity.
  - intros map project uid run_name w monitored.
    cut (exists b : bool,
           monitored
           = (Ok map,
              if b then
                record (Log warning
                  "Failed monitoring runtime resource. Continuing") w
              else w)).
    { intros [[|] E]; auto. }
    unfold monitored, try_monitor_runtime_resource, try_except.
    assert (H : (runtime_resource_name <-
                   lift (let? metadata := Py.getitem pod_dict (VStr "metadata") in
                         Py.getitem metadata (VStr "name"))%result ;;
                 logger warning "Failed monitoring runtime resource. Continuing" ;;
                 ret map)%monad w
                = (Ok map,
                   record (Log warning
                     "Failed monitoring runtime resource. Continuing") w)).
    { unfold bind, lift, logger, emit, ret.
      fold pod_dict in GM. rewrite GM. simpl. rewrite GN. auto. }
    unfold _monitor_runtime_resource.
    unfold bind at 1.
    destruct (negb (Py.truthy project) && negb (Py.truthy uid)
              && negb (Py.truthy run_name)).
    + unfold lift at 1.
      destruct (_resolve_runtime_resource_run pod_dict) as [[[p u] n]|e];
        cbv beta iota.
      * destruct (negb (Py.truthy p) || negb (Py.truthy u)); [now exists false|].
        exists true. unfold bind at 1. unfold lift at 1.
        destruct (let? uids := Py.get map p (VDict []) in Py.get uids u VNone)%result;
          cbv beta iota.
        -- unfold bind at 1. unfold lift at 1. rewrite R. exact H.
        -- exact H.
      * exists true. exact H.
    + unfold ret at 1. cbv beta iota.
      destruct (negb (Py.truthy project) || negb (Py.truthy uid));
        [now exists false|].
      exists true. unfold bind at 1. unfold lift at 1.
      destruct (let? uids := Py.get map project (VDict []) in
                Py.get uids uid VNone)%result; cbv beta iota.
      * unfold bind at 1. unfold lift at 1. rewrite R. exact H.
      * exact H.
Qed.



End Deletion.

(** ** The calls of a pass are never forgotten *)

Section Extending.

Context {constants : Constants} {config : Config} {datetime : Datetime}
        {platform : Platform}.

Lemma extending_ret {A} (a : A) : extending (ret a).
Proof. intros w. now exists []. Qed.

Lemma extending_raise {A} (e : exn) : extending (@raise A e).
Proof. intros w. now exists []. Qed.

Lemma extending_lift {A} (r : result A) : extending (lift r).
Proof. intros w. now exists []. Qed.

Lemma extending_emit (e : event) : extending (emit e).
Proof. intros w. now exists [e]. Qed.

Lemma extending_logger (lvl : level) (msg : string) : extending (logger lvl msg).
Proof. apply extending_emit. Qed.

Lemma extending_bind {A B} (c : M A) (f : A -> M B) :
  extending c -> (forall a, extending (f a)) -> extending (bind c f).
Proof.
  intros Hc Hf w. unfold bind. destruct (Hc w) as [evs E].
  destruct (c w) as [[a|e] w1]; simpl in E.
  - destruct (Hf a w1) as [evs' E']. exists (evs' ++ evs)%list.
    now rewrite E', E, app_assoc.
  - now exists evs.
Qed.

Lemma extending_try_except {A} (c : M A) (h : exn -> M A) :
  extending c -> (forall e, extending (h e)) -> extending (try_except c h).
Proof.
  intros Hc Hh w. unfold try_except. destruct (Hc w) as [evs E].
  destruct (c w) as [[a|e] w1]; simpl in E.
  - now exists evs.
  - destruct (Hh e w1) as [evs' E']. exists (evs' ++ evs)%list.
    now rewrite E', E, app_assoc.
Qed.

Lemma extending_for_each {A B} (xs : list A) (acc : B) (body : A -> B -> M B) :
  (forall x b, extending (body x b)) -> extending (for_each xs acc body).
Proof.
  intros Hb. revert acc. induction xs as [|x xs IH]; intros acc; simpl.
  - apply extending_ret.
  - apply extending_bind; auto.
Qed.

Lemma extending_same_trace {A} (f : world -> result A * world) :
  (forall w, trace (snd (f w)) = trace w) -> extending f.
Proof. intros H w. exists []. apply H. Qed.

Lemma extending_read_run (uid project : value) :
  extending (RunStore.read_run uid project).
Proof.
  apply extending_bind; [apply extending_emit|]. intros _.
  apply extending_same_trace. intros w.
  now destruct (RunStore.find project uid (runs w)).
Qed.

Lemma extending_store_run (r uid project : value) :
  extending (RunStore.store_run r uid project).
Proof.
  apply extending_bind; [apply extending_emit|]. intros _.
  now apply extending_same_trace.
Qed.

Lemma extending_list_runs (states : option (list string)) :
  extending (RunStore.list_runs states).
Proof.
  apply extending_bind; [apply extending_emit|]. intros _.
  now apply extending_same_trace.
Qed.

Lemma extending_store_log (project uid : value) :
  extending (Logs.store_log project uid).
Proof.
  apply extending_bind; [apply extending_emit|]. intros _.
  now apply extending_same_trace.
Qed.

Lemma extending_log_file_exists (project uid : value) :
  extending (Logs.log_file_exists_for_run_uid project uid).
Proof. now apply extending_same_trace. Qed.

Lemma extending_list_namespaced_pod (namespace selector : string) :
  extending (K8s.list_namespaced_pod namespace selector).
Proof.
  apply extending_bind; [apply extending_emit|]. intros _.
  now apply extending_same_trace.
Qed.

Lemma extending_list_namespaced_custom_object
  (group version namespace plural selector : string) :
  extending (K8s.list_namespaced_custom_object group version namespace plural
               selector).
Proof.
  apply extending_bind; [apply extending_emit|]. intros _.
  apply extending_same_trace. intros w. now destruct crd_defined.
Qed.

End Extending.

Create HintDb extending.

#[local] Hint Resolve extending_ret extending_raise extending_lift
  extending_emit extending_logger extending_read_run extending_store_run
  extending_list_runs extending_store_log extending_log_file_exists
  extending_list_namespaced_pod extending_list_namespaced_custom_object
  : extending.

(** Splits a computation along its binds, handlers, loops and tests. *)
Ltac extending_step :=
  match goal with
  | |- extending (bind _ _) => apply extending_bind; [|intros]
  | |- extending (try_except _ _) => apply extending_try_except; [|intros]
  | |- extending (for_each _ _ _) => apply extending_for_each; intros
  | |- extending (if ?b then _ else _) => destruct b
  | |- extending (match ?x with _ => _ end) => destruct x
  | |- extending _ => solve [auto with extending]
  end.

Ltac extending_auto := repeat extending_step.

(** ** The monitoring *)

Section Monitoring.

Context {constants : Constants} {config : Config} {datetime : Datetime}
        {platform : Platform}.
Variable self : RuntimeHandler.

Lemma extending_ensure_run_logs_collected (project uid : value) :
  extending (_ensure_run_logs_collected project uid).
Proof. unfold _ensure_run_logs_collected. extending_auto. Qed.

Lemma extending_ensure_run_state (project uid name : value)
  (run_state : option string) (run : value) (search_run : bool) :
  extending (_ensure_run_state project uid name run_state run search_run).
Proof.
  unfold _ensure_run_state, find_or_new_run, reconcile_run_state,
    update_run_state.
  extending_auto.
Qed.

Lemma extending_ensure_run_not_stuck (project run_uid run resources_map : value) :
  extending (_ensure_run_not_stuck_on_non_terminal_state
               project run_uid run resources_map).
Proof.
  unfold _ensure_run_not_stuck_on_non_terminal_state. extending_auto.
Qed.

Lemma extending_list_runs_for_monitoring (states : option (list string)) :
  extending (_list_runs_for_monitoring states).
Proof. unfold _list_runs_for_monitoring. extending_auto. Qed.

Lemma extending_try_monitor_runtime_resource
  (project_run_uid_map runtime_resource : value) (is_crd : bool)
  (namespace : string) (project uid name : value) :
  extending (try_monitor_runtime_resource self project_run_uid_map
               runtime_resource is_crd namespace project uid name).
Proof.
  unfold try_monitor_runtime_resource, _monitor_runtime_resource.
  pose proof extending_ensure_run_state.
  pose proof extending_ensure_run_logs_collected.
  extending_auto.
Qed.

Lemma extending_ensure_run_not_stuck_step (resources_map project : value)
  (entry : value * value) :
  extending (ensure_run_not_stuck_step self resources_map project entry).
Proof.
  unfold ensure_run_not_stuck_step.
  pose proof extending_ensure_run_not_stuck.
  extending_auto.
Qed.

Lemma extending_list_crd_objects (namespace label_selector : string) :
  extending (_list_crd_objects self namespace label_selector).
Proof. unfold _list_crd_objects. extending_auto. Qed.

(** What [monitor_runs] does once the resources are listed. *)
Lemma extending_monitor_runs_rest (is_crd : bool) (runtime_resources : value) :
  extending
    (project_run_uid_map <- _list_runs_for_monitoring None ;;
     runtime_resources <- lift (Py.iter runtime_resources) ;;
     '(project_run_uid_map, run_runtime_resources_map) <-
       for_each runtime_resources (project_run_uid_map, VDict [])
         (monitor_runtime_resource_step self is_crd resolve_namespace) ;;
     projects <- lift (items project_run_uid_map) ;;
     for_each projects tt
       (fun entry _ =>
          let '(project, runs) := entry in
          if Py.truthy runs then
            runs <- lift (items runs) ;;
            for_each runs tt
              (fun entry _ =>
                 ensure_run_not_stuck_step self run_runtime_resources_map
                   project entry)
          else ret tt))%monad.
Proof.
  pose proof extending_list_runs_for_monitoring.
  pose proof extending_try_monitor_runtime_resource.
  pose proof extending_ensure_run_not_stuck_step.
  unfold monitor_runtime_resource_step.
  extending_auto.
Qed.

Lemma get_list_key_raises (d dflt : value) (l : list value) :
  exists e, Py.get d (VList l) dflt = Raise e.
Proof. destruct d; simpl; eauto. Qed.

Lemma fold_result_app {A B} (f : B -> A -> result B) (xs ys : list A) (acc : B) :
  fold_result f (xs ++ ys) acc
  = (let? acc' := fold_result f xs acc in fold_result f ys acc')%result.
Proof.
  revert acc. induction xs as [|x xs IH]; intros acc; simpl; auto.
  destruct (f acc x); simpl; auto.
Qed.

(** A run that is monitored stays monitored. *)
Lemma monitors_step (project uid x : value) (acc acc' : value * list value * value) :
  monitors project uid acc ->
  list_run_for_monitoring x acc = Ok acc' ->
  monitors project uid acc'.
Proof.
  intros [m [inner [cur [Hm [Hp [Hu Ht]]]]]].
  destruct acc as [[map missing] dup]. simpl in Hm. subst map.
  unfold list_run_for_monitoring.
  destruct (Py.get_in x (VStr "metadata") (VStr "project") VNone) as [px|];
    [|discriminate].
  destruct (Py.get_in x (VStr "metadata") (VStr "uid") VNone) as [ux|];
    [|discriminate].
  cbn [rbind].
  destruct (negb (Py.truthy ux) || negb (Py.truthy px)).
  { destruct (Py.get x (VStr "metadata") (VDict [])); [|discriminate].
    cbn [rbind]. intros E. injection E as <-. exists m, inner, cur. auto. }
  unfold Py.setdefault.
  destruct (Py.hashable px) eqn:Hpx; [|discriminate].
  destruct (Py.assoc px m) as [v|] eqn:A; cbn [rbind].
  - destruct v as [| | | |inner_x]; try discriminate.
    cbn [Py.get]. destruct (Py.hashable ux) eqn:Hux; [|discriminate].
    cbn [rbind].
    destruct (Py.truthy match Py.assoc ux inner_x with
                        | Some v => v
                        | None => VNone
                        end) eqn:T.
    + destruct (get_list_key_raises
                  match Py.assoc ux inner_x with Some v => v | None => VNone end
                  VNone [VStr "metadata"]) as [e ->].
      discriminate.
    + cbn [Py.getitem]. rewrite Hpx, A. cbn [rbind Py.setitem].
      rewrite Hux. cbn [rbind]. rewrite Hpx.
      intros E. injection E as <-.
      destruct (Py.eqb px project) eqn:Ep.
      * apply Py_eqb_eq in Ep. subst px. rewrite Hp in A. injection A as <-.
        exists (Py.update project (VDict (Py.update ux x inner)) m),
          (Py.update ux x inner), cur.
        split; [reflexivity|]. split; [apply assoc_update_same|]. split; auto.
        rewrite assoc_update_other; auto.
        intros ->. rewrite Hu in T. congruence.
      * apply Py_eqb_neq in Ep.
        exists (Py.update px (VDict (Py.update ux x inner_x)) m), inner, cur.
        split; [reflexivity|]. split; auto.
        now rewrite assoc_update_other.
  - cbn [Py.get]. destruct (Py.hashable ux) eqn:Hux; [|discriminate].
    cbn [rbind Py.assoc Py.truthy Py.getitem]. rewrite Hpx.
    rewrite (assoc_app_fresh _ _ _ _ A), Py_eqb_refl.
    cbn [rbind Py.setitem]. rewrite Hux. cbn [rbind]. rewrite Hpx.
    intros E. injection E as <-.
    assert (Ep : px <> project) by (intros ->; congruence).
    eexists _, inner, cur. split; [reflexivity|]. split; auto.
    rewrite assoc_update_other by auto.
    now apply assoc_app_found.
Qed.

Lemma monitors_fold (project uid : value) (xs : list value)
  (acc acc' : value * list value * value) :
  monitors project uid acc ->
  fold_result (fun acc run => list_run_for_monitoring run acc) xs acc = Ok acc' ->
  monitors project uid acc'.
Proof.
  revert acc. induction xs as [|x xs IH]; intros acc Mo; simpl.
  - intros E. now injection E as <-.
  - destruct (list_run_for_monitoring x acc) as [acc1|] eqn:S; [|discriminate].
    simpl. apply IH. eapply monitors_step; eauto.
Qed.

(** A run that is listed, and taken, is monitored. *)
Lemma monitors_taken (project uid r : value) (acc acc' : value * list value * value) :
  names_run r project uid ->
  list_run_for_monitoring r acc = Ok acc' ->
  monitors project uid acc'.
Proof.
  intros [Np [Nu [Tp Tu]]].
  assert (Tr : Py.truthy r = true).
  { eapply get_in_found_truthy; [exact Np|]. intros ->. discriminate. }
  destruct acc as [[map missing] dup].
  unfold list_run_for_monitoring. rewrite Np, Nu. cbn [rbind].
  rewrite Tp, Tu. cbn [negb orb].
  unfold Py.setdefault. destruct map as [| | | |m]; try discriminate.
  destruct (Py.hashable project) eqn:Hp; [|discriminate].
  destruct (Py.assoc project m) as [v|] eqn:A; cbn [rbind].
  - destruct v as [| | | |inner]; try discriminate.
    cbn [Py.get]. destruct (Py.hashable uid) eqn:Hu; [|discriminate].
    cbn [rbind].
    destruct (Py.truthy match Py.assoc uid inner with
                        | Some v => v
                        | None => VNone
                        end) eqn:T.
    + destruct (get_list_key_raises
                  match Py.assoc uid inner with Some v => v | None => VNone end
                  VNone [VStr "metadata"]) as [e ->].
      discriminate.
    + cbn [Py.getitem]. rewrite Hp, A. cbn [rbind Py.setitem].
      rewrite Hu. cbn [rbind]. rewrite Hp.
      intros E. injection E as <-.
      eexists _, _, r. split; [reflexivity|].
      split; [apply assoc_update_same|]. split; auto. apply assoc_update_same.
  - cbn [Py.get]. destruct (Py.hashable uid) eqn:Hu; [|discriminate].
    cbn [rbind Py.assoc Py.truthy Py.getitem]. rewrite Hp.
    rewrite (assoc_app_fresh _ _ _ _ A), Py_eqb_refl.
    cbn [rbind Py.setitem]. rewrite Hu. cbn [rbind]. rewrite Hp.
    intros E. injection E as <-.
    eexists _, _, r. split; [reflexivity|].
    split; [apply assoc_update_same|]. split; auto.
    simpl. now rewrite Py_eqb_refl.
Qed.

(** A second run of the same project and uid makes the listing fail. *)
Lemma monitors_duplicate (project uid r : value) (acc : value * list value * value) :
  monitors project uid acc ->
  names_run r project uid ->
  exists e, list_run_for_monitoring r acc = Raise e.
Proof.
  intros [m [inner [cur [Hm [Hp [Hu Ht]]]]]] [Np [Nu [Tp Tu]]].
  destruct acc as [[map missing] dup]. simpl in Hm. subst map.
  unfold list_run_for_monitoring. rewrite Np, Nu. cbn [rbind].
  rewrite Tp, Tu. cbn [negb orb].
  unfold Py.setdefault. destruct (Py.hashable project); [|simpl; eauto].
  rewrite Hp. cbn [rbind Py.get].
  destruct (Py.hashable uid); [|simpl; eauto].
  rewrite Hu. cbn [rbind]. rewrite Ht.
  destruct (get_list_key_raises cur VNone [VStr "metadata"]) as [e ->].
  simpl. eauto.
Qed.

(** Outside a cluster the deletion and the listing of resources return at
    once: they call neither the cluster nor the run store. *)
Lemma delete_resources_outside_cluster (label_selector : option string)
  (force : bool) (grace_period : option Z) (w : world) :
  is_running_inside_kubernetes_cluster = false ->
  delete_resources self label_selector force grace_period w = (Ok tt, w).
Proof. intros E. unfold delete_resources. now rewrite E. Qed.

Lemma list_resources_outside_cluster (project : string)
  (object_id label_selector : option string)
  (group_by : option ListRuntimeResourcesGroupByField) (w : world) :
  is_running_inside_kubernetes_cluster = false ->
  list_resources self project object_id label_selector group_by w
  = (Ok (VDict []), w).
Proof. intros E. unfold list_resources. now rewrite E. Qed.

Lemma monitor_runs_listing_recorded (w : world) :
  exists res,
    (if crd_info_given self
     then _list_crd_objects self resolve_namespace
            (_get_default_label_selector self None)
     else pods <- _list_pods resolve_namespace
                    (_get_default_label_selector self None) ;;
          ret (VList pods))%monad w
    = (res, record (monitoring_listing self) w).
Proof.
  unfold monitoring_listing, _list_crd_objects.
  destruct (_get_crd_info self) as [[crd_group crd_version] crd_plural].
  destruct (crd_info_given self).
  - unfold try_except, bind, K8s.list_namespaced_custom_object, bind, emit, lift,
      ret.
    destruct crd_defined; simpl; eauto.
  - unfold _list_pods, K8s.list_namespaced_pod, bind, emit, ret. simpl. eauto.
Qed.

(** C2, as the code has it.  On a platform that says it is not inside a
    cluster the deletion and the listing of resources are no-ops: they
    return at once, with no call on the cluster and no write.  The
    monitoring has no such test: a pass does the same whatever the
    platform says, result and world alike, and in every case it asks the
    cluster for the resources of the kind. *)
Theorem cluster_test_guards_deletion_only (w : world) :
  (is_running_inside_kubernetes_cluster = false ->
   (forall label_selector force grace_period,
      delete_resources self label_selector force grace_period w = (Ok tt, w))
   /\
   (forall project object_id label_selector group_by,
      list_resources self project object_id label_selector group_by w
      = (Ok (VDict []), w)))
  /\ (forall inside,
        monitor_runs (platform := reporting inside platform) self w
        = monitor_runs self w)
  /\ In (monitoring_listing self) (trace (snd (monitor_runs self w))).
Proof.
  split; [|split].
  - intros E. split; intros.
    + now apply delete_resources_outside_cluster.
    + now apply list_resources_outside_cluster.
  - intros inside. reflexivity.
  - unfold monitor_runs.
    destruct (monitor_runs_listing_recorded w) as [res L].
    unfold bind at 1. rewrite L. destruct res as [runtime_resources|e].
    + destruct (extending_monitor_runs_rest (crd_info_given self)
                  runtime_resources (record (monitoring_listing self) w))
        as [evs E].
      rewrite E. apply in_or_app. right. simpl. auto.
    + simpl. auto.
Qed.

Lemma filter_all {A} (l : list A) : filter (fun _ => true) l = l.
Proof. induction l as [|x l IH]; simpl; congruence. Qed.

(** C9.  When two runs of the listing have the same project and uid,
    [_list_runs_for_monitoring] does not build the map: it raises (at the
    [get] whose key is a list, when nothing fails before), and the pass of
    the monitoring ends with the exception. *)
Theorem duplicated_runs_listing_raises (before between rest : list value)
  (r r' project uid : value) (w : world) :
  names_run r project uid ->
  names_run r' project uid ->
  map snd (runs w) = (before ++ r :: between ++ r' :: rest)%list ->
  (exists e, _list_runs_for_monitoring None w = (Raise e, record ListRuns w))
  /\ (exists e w', monitor_runs self w = (Raise e, w')).
Proof.
  intros N N' L.
  assert (F : exists e,
             fold_result (fun acc run => list_run_for_monitoring run acc)
               (before ++ r :: between ++ r' :: rest) (VDict [], [], VList [])
             = Raise e).
  { rewrite fold_result_app.
    destruct (fold_result _ before _) as [a1|e1]; simpl; eauto.
    destruct (list_run_for_monitoring r a1) as [a2|e2] eqn:S; simpl; eauto.
    pose proof (monitors_taken _ _ _ _ _ N S) as Mo.
    rewrite fold_result_app.
    destruct (fold_result _ between a2) as [a3|e3] eqn:S3; simpl; eauto.
    pose proof (monitors_fold _ _ _ _ _ Mo S3) as Mo3.
    destruct (monitors_duplicate _ _ _ _ Mo3 N') as [e E]. rewrite E.
    simpl. eauto. }
  destruct F as [e F].
  assert (R : forall w0, runs w0 = runs w ->
            _list_runs_for_monitoring None w0 = (Raise e, record ListRuns w0)).
  { intros w0 E0.
    unfold _list_runs_for_monitoring, RunStore.list_runs, bind, emit, lift.
    simpl. rewrite filter_all, E0, L, F. reflexivity. }
  split.
  - exists e. now apply R.
  - unfold monitor_runs.
    destruct (monitor_runs_listing_recorded w) as [res Li].
    unfold bind at 1. rewrite Li. destruct res as [runtime_resources|e0].
    + exists e. eexists. unfold bind at 1. rewrite R; reflexivity.
    + eauto.
Qed.

End Monitoring.

(** ** The scenarios, run *)

Import Sample Scenario.

(** The claim C2 fails here: on a platform that says it is not inside a
    cluster, a pass of the monitoring lists the pods and stores the state
    it derives for the run of a listed pod. *)
Lemma monitor_runs_outside_cluster_counterexample :
  let platform := outdoors (at_ 10 0 0) in
  let w := cluster_of [running_pod] [pending_run] in
  is_running_inside_kubernetes_cluster = false
  /\ exists w',
      monitor_runs job_handler w = (Ok tt, w')
      /\ In (ListPods "default-tenant" "mlrun/class=job") (trace w')
      /\ writes w' = 1%nat
      /\ stored_state w = Ok (VStr "pending")
      /\ stored_state w' = Ok (VStr "running").
Proof.
  split; [reflexivity|]. eexists. split; [vm_compute; reflexivity|].
  split; [|split; [|split]]; vm_compute; auto.
Qed.

Lemma cluster_test_guards_deletion_only_witness :
  let platform := outdoors (at_ 10 0 0) in
  let w := cluster_of [running_pod] [pending_run] in
  delete_resources job_handler None false None w = (Ok tt, w)
  /\ monitor_runs (platform := reporting true platform) job_handler w
     = monitor_runs job_handler w
  /\ In (ListPods "default-tenant" "mlrun/class=job")
       (trace (snd (monitor_runs job_handler w))).
Proof.
  intros platform w.
  destruct (cluster_test_guards_deletion_only (platform := platform)
              job_handler w) as [G [I L]].
  split; [|split].
  - exact (proj1 (G eq_refl) None false None).
  - exact (I true).
  - exact L.
Defined.

(** Two runs of the project p with the uid u1: the listing raises
    [TypeError], and so does the pass. *)
Example duplicated_runs_scenario :
  let platform := indoors (at_ 10 0 0) in
  let w := store_of [running_run; completed_run] in
  _list_runs_for_monitoring None w = (Raise TypeError, record ListRuns w)
  /\ monitor_runs job_handler w
     = (Raise TypeError,
        record ListRuns (record (ListPods "default-tenant" "mlrun/class=job") w)).
Proof. split; vm_compute; reflexivity. Qed.

Lemma duplicated_runs_listing_raises_witness :
  let platform := indoors (at_ 10 0 0) in
  let w := store_of [running_run; completed_run] in
  (exists e, _list_runs_for_monitoring None w = (Raise e, record ListRuns w))
  /\ (exists e w', monitor_runs job_handler w = (Raise e, w')).
Proof.
  intros platform w.
  refine (duplicated_runs_listing_raises (platform := platform) job_handler
            [] [] [] running_run completed_run (VStr "p") (VStr "u1") w
            _ _ eq_refl); repeat split.
Defined.

(** The claim C1 fails here: a run completed two hours ago, observed
    running, is stored as running. *)
Lemma terminal_lock_counterexample :
  let platform := indoors (at_ 10 0 0) in
  let w := store_of [completed_run] in
  In "completed" RunStates_terminal_states
  /\ ~ In "running" RunStates_terminal_states
  /\ stored_state w = Ok (VStr "completed")
  /\ exists r' w',
      _ensure_run_state (VStr "p") (VStr "u1") (VStr "train") (Some "running")
        VNone true w = (Ok (true, Some "running", r'), w')
      /\ stored_state w' = Ok (VStr "running").
Proof.
  split; [simpl; auto|]. split.
  - simpl. intros [H|[H|[H|[]]]]; discriminate.
  - split; [reflexivity|]. eexists. eexists. split; vm_compute; reflexivity.
Qed.

Lemma terminal_lock_debounced_witness :
  let platform := indoors (at_ 10 0 0) in
  let w := store_of [completed_run] in
  exists r' w',
    _ensure_run_state (VStr "p") (VStr "u1") (VStr "train") (Some "running")
      VNone true w = (Ok (true, Some "running", r'), w')
    /\ RunStore.find (VStr "p") (VStr "u1") (runs w') = Some r'
    /\ status_field r' "state" = Ok (VStr "running").
Proof.
  intros platform w.
  refine (proj2 (terminal_lock_debounced (platform := platform)
                   (VStr "p") (VStr "u1") (VStr "train") VNone true w
                   completed_run "completed" (Some "running")
                   (VStr "2023-01-01T08:00:00+00:00")
                   eq_refl eq_refl _ _ eq_refl eq_refl) _).
  - discriminate.
  - simpl. auto.
  - right. exists (at_ 8 0 0). split; [reflexivity|]. vm_compute. discriminate.
Defined.

Lemma terminal_override_witness :
  let platform := indoors (at_ 10 0 0) in
  let w := store_of [completed_run] in
  exists r' w',
    _ensure_run_state (VStr "p") (VStr "u1") (VStr "train") (Some "error")
      VNone true w = (Ok (true, Some "error", r'), w')
    /\ w' = after_store r' (VStr "u1") (VStr "p")
              (record (Log info "Updating run state")
                 (record (Log warning
                    "Run record has terminal state but monitoring found different state on runtime resource. Changing")
                    (after_read (VStr "p") (VStr "u1") true w)))
    /\ RunStore.find (VStr "p") (VStr "u1") (runs w') = Some r'
    /\ status_field r' "state" = Ok (VStr "error")
    /\ status_field r' "last_update" = Ok (VStr (isoformat now_date)).
Proof.
  intros platform w.
  refine (terminal_override (platform := platform)
            (VStr "p") (VStr "u1") (VStr "train") VNone true w
            completed_run "completed" "error" eq_refl eq_refl _ _ _ _).
  - discriminate.
  - simpl. auto.
  - simpl. auto.
  - discriminate.
Defined.

(** The claim C7 fails here: the run has no state and none is observed,
    so that the stored state equals the observed one; the reconciler says
    the run changed and writes it, at the first application and again at
    the second. *)
Lemma idempotence_counterexample :
  let platform := indoors (at_ 10 0 0) in
  let w := store_of [stateless_run] in
  let once :=
    _ensure_run_state (VStr "p") (VStr "u1") (VStr "train") None VNone true w in
  let twice :=
    _ensure_run_state (VStr "p") (VStr "u1") (VStr "train") None VNone true
      (snd once) in
  status_field stateless_run "state" = Ok (of_option None)
  /\ (exists r1, fst once = Ok (true, None, r1))
  /\ writes (snd once) = 1%nat
  /\ (exists r2, fst twice = Ok (true, None, r2))
  /\ writes (snd twice) = 2%nat.
Proof.
  split; [reflexivity|]. split; [eexists; vm_compute; reflexivity|].
  split; [vm_compute; reflexivity|]. split; [eexists; vm_compute; reflexivity|].
  vm_compute. reflexivity.
Qed.

Lemma ensure_run_state_idempotent_witness :
  let platform := indoors (at_ 10 0 0) in
  let w := store_of [running_run] in
  exists r1 w1,
    _ensure_run_state (VStr "p") (VStr "u1") (VStr "train") (Some "completed")
      VNone true w
    = (Ok (true, Some "completed", r1), w1)
    /\ writes w1 = 1%nat
    /\ _ensure_run_state (VStr "p") (VStr "u1") (VStr "train") (Some "completed")
         VNone true w1
       = (Ok (false, Some "completed", r1),
          record (ReadRun (VStr "u1") (VStr "p")) w1)
    /\ writes (record (ReadRun (VStr "u1") (VStr "p")) w1) = 1%nat.
Proof.
  intros platform w.
  assert (N : "completed" <> "") by discriminate.
  destruct (proj2 (proj1 (ensure_run_state_idempotent (platform := platform)
                            (VStr "p") (VStr "u1") (VStr "train"))
                     "completed" N)
              VNone true w running_run (VStr "running") eq_refl eq_refl eq_refl)
    as [r1 [w1 [E [W1 [_ [_ [Again [_ W2]]]]]]]].
  - discriminate.
  - right. left. reflexivity.
  - exists r1, w1. split; [exact E|]. split; [exact W1|].
    split; [exact (Again VNone) | exact W2].
Defined.

Lemma ensure_run_state_creates_run_witness :
  let platform := indoors (at_ 10 0 0) in
  exists r' w',
    _ensure_run_state (VStr "p") (VStr "u1") (VStr "train") (Some "running")
      VNone true empty_world = (Ok (true, Some "running", r'), w')
    /\ RunStore.find (VStr "p") (VStr "u1") (runs w') = Some r'
    /\ writes w' = 1%nat.
Proof.
  intros platform. eexists. eexists.
  exact (ensure_run_state_creates_run (platform := platform)
           (VStr "p") (VStr "u1") (VStr "train") VNone (Some "running")
           empty_world I).
Defined.

(** The claim C4 fails here, on the scenario of the specification: a run
    last seen running two hours ago, with no resource, ten minutes of
    debouncing.  The run is stored in error, and its reason is not the
    text that the claim gives. *)
Lemma orphan_reason_counterexample :
  let platform := indoors (at_ 10 0 0) in
  let w := store_of [running_run] in
  exists w',
    _ensure_run_not_stuck_on_non_terminal_state (VStr "p") (VStr "u1")
      running_run (VDict []) w = (Ok tt, w')
    /\ stored_state w' = Ok (VStr "error")
    /\ stored_field "reason" w'
       = Ok (VStr "A runtime resource related to this run could not be found")
    /\ stored_field "reason" w' <> Ok (VStr "no matching compute resource found").
Proof.
  eexists. split; [vm_compute; reflexivity|].
  split; [reflexivity|]. split; [reflexivity|]. vm_compute. discriminate.
Qed.

Lemma orphan_debounce_witness :
  let platform := indoors (at_ 10 0 0) in
  let w := store_of [running_run] in
  exists run',
    _ensure_run_not_stuck_on_non_terminal_state (VStr "p") (VStr "u1")
      running_run (VDict []) w
    = (Ok tt, after_store run' (VStr "u1") (VStr "p")
                (record (Log info "Updating run state") w))
    /\ status_field run' "state" = Ok (VStr RunStates_error)
    /\ status_field run' "reason" = Ok (VStr orphan_reason)
    /\ status_field run' "last_update" = Ok (VStr (isoformat now_date)).
Proof.
  intros platform w.
  refine (proj1 (orphan_debounce (platform := platform)
                   (VStr "p") (VStr "u1") running_run (VDict []) "running"
                   (VStr "2023-01-01T08:00:00+00:00") w
                   eq_refl _ _ _ eq_refl)
            (at_ 8 0 0) _ eq_refl _).
  - discriminate.
  - simpl. auto.
  - left. reflexivity.
  - discriminate.
  - vm_compute. discriminate.
Defined.

(** The scenario of the specification for the grace period: containers
    completed at 10:00:00 and 10:00:05, a grace period of 60 seconds.  At
    10:00:30 the pod is passed over, at 10:01:10 it is deleted. *)
Example grace_period_scenario :
  terminal_since [Some (at_ 10 0 0); Some (at_ 10 0 5)] = Some (at_ 10 0 5)
  /\ delete_pod_resource (platform := indoors (at_ 10 0 30)) job_handler
       "default-tenant" false 60 finished_pod [] (cluster_of [finished_pod] [])
     = (Ok [], cluster_of [finished_pod] [])
  /\ fst (delete_pod_resource (platform := indoors (at_ 10 1 10)) job_handler
            "default-tenant" false 60 finished_pod []
            (cluster_of [finished_pod] []))
     = Ok [finished_pod]
  /\ fst (delete_pod_resource (platform := indoors (at_ 10 1 5)) job_handler
            "default-tenant" false 60 finished_pod []
            (cluster_of [finished_pod] []))
     = Ok [finished_pod].
Proof. repeat split; vm_compute; reflexivity. Qed.


(** The claim C5 fails here: a pod that failed before any of its
    containers started, so that no container statuses are reported for
    it.  Its phase is terminal and the instant it became terminal is
    unknown, yet the deletion keeps it, at any time and even when forced. *)
Example evicted_pod_scenario :
  let platform := indoors (at_ 10 1 5) in
  let w := cluster_of [evicted_pod] [] in
  In "Failed" PodPhases_terminal_phases
  /\ _resolve_pod_status_info evicted_pod = Raise TypeError
  /\ _delete_pod_resources job_handler "default-tenant" "mlrun/class=job" false
       None w
     = (Ok [],
        record (Log warning "Cleanup failed processing pod. Continuing")
          (record (ListPods "default-tenant" "mlrun/class=job") w))
  /\ pods (snd (_delete_pod_resources job_handler "default-tenant"
                  "mlrun/class=job" true None w))
     = [evicted_pod].
Proof.
  split; [simpl; auto|]. split; [reflexivity|].
  split; vm_compute; reflexivity.
Qed.

Lemma terminal_pod_without_container_statuses_is_kept_witness :
  let platform := indoors (at_ 10 1 5) in
  let w := cluster_of [evicted_pod] [] in
  delete_pod_resource job_handler "default-tenant" true 60 evicted_pod [] w
  = (Ok [], record (Log warning "Cleanup failed processing pod. Continuing") w).
Proof.
  intros platform w.
  refine (proj2 (terminal_pod_without_container_statuses_is_kept
                   (platform := platform) job_handler "default-tenant" "pod-4"
                   labels_of_run "Failed" "error" true 60 [] w eq_refl _)).
  simpl. auto.
Defined.



(** The claim C8 fails here: for a pod without status the resolver raises,
    it does not answer (not terminal, no time, no state). *)
Lemma malformed_pod_status_counterexample :
  _resolve_pod_status_info pod_without_status = Raise KeyError
  /\ _resolve_pod_status_info pod_without_status <> Ok (false, VNone, None).
Proof. split; [reflexivity | discriminate]. Qed.

Lemma malformed_pod_status_is_skipped_witness :
  let platform := indoors (at_ 10 0 0) in
  let w := cluster_of [pod_without_status] [] in
  _resolve_pod_status_info pod_without_status = Raise KeyError
  /\ delete_pod_resource job_handler "default-tenant" true 60
       pod_without_status [] w
     = (Ok [], record (Log warning "Cleanup failed processing pod. Continuing") w).
Proof.
  intros platform w.
  destruct (malformed_pod_status_is_skipped (platform := platform) job_handler
              "default-tenant"
              [(VStr "metadata",
                dict [("name", VStr "pod-2"); ("labels", VDict labels_of_run)])]
              (dict [("name", VStr "pod-2"); ("labels", VDict labels_of_run)])
              (VStr "pod-2") (or_introl eq_refl) eq_refl eq_refl)
    as [R [D _]].
  split; [exact R | exact (D true 60 [] w)].
Defined.

(** ** More of the handler: runs without a resource *)

Section MoreOrphans.

Context {constants : Constants} {config : Config} {datetime : Datetime}
        {platform : Platform}.

(** X1.  A run that has no state, or an empty one, is stored in the state
    error with the time of the pass as last update, and no reason; whether
    the listing holds a resource for it does not matter. *)
Theorem run_without_state_is_failed (project run_uid run resources_map : value)
  (db_run_state : value) (w : world) :
  status_field run "state" = Ok db_run_state ->
  Py.truthy db_run_state = false ->
  exists run',
    _ensure_run_not_stuck_on_non_terminal_state project run_uid run resources_map w
    = (Ok tt,
       after_store run' run_uid project
         (record (Log info
            "Runs monitoring found a run without state, updating to a terminal state")
            w))
    /\ status_field run' "state" = Ok (VStr RunStates_error)
    /\ status_field run' "last_update" = Ok (VStr (isoformat now_date))
    /\ (forall f, f <> "state" -> f <> "last_update" ->
        status_field run' f = status_field run f).
Proof.
  intros S T.
  destruct (setdefault_setitem_ok run (VStr "status") (VStr "state") (VStr "state")
              VNone _ (VStr RunStates_error) S eq_refl) as [r1 E1].
  pose proof (get_in_set_same _ _ _ _ _ VNone E1) as G1.
  destruct (setdefault_setitem_ok r1 (VStr "status") (VStr "state")
              (VStr "last_update") VNone _ (VStr (isoformat now_date)) G1 eq_refl)
    as [r2 E2].
  exists r2. split; [|split; [|split]].
  - unfold _ensure_run_not_stuck_on_non_terminal_state, bind, lift, logger, emit.
    unfold status_field in S. rewrite S, T. simpl. rewrite E1, E2. reflexivity.
  - unfold status_field.
    rewrite (get_in_set_other _ _ _ _ _ _ VNone E2) by discriminate. exact G1.
  - exact (get_in_set_same _ _ _ _ _ VNone E2).
  - intros f N1 N2. unfold status_field.
    rewrite (get_in_set_other _ _ _ _ _ _ VNone E2) by congruence.
    now rewrite (get_in_set_other _ _ _ _ _ _ VNone E1) by congruence.
Qed.

(** X2.  A run is left as it is, with no call and no write, when its state
    is not among the non-terminal ones, or when the listing of the pass
    holds a resource for its project and uid. *)
Theorem settled_or_matched_run_is_left (project run_uid run resources_map : value)
  (st : string) (w : world) :
  status_field run "state" = Ok (VStr st) ->
  st <> "" ->
  ~ In st RunStates_non_terminal_states
  \/ (Py.truthy resources_map = true
      /\ exists resources,
          Py.get resources_map project (VDict []) = Ok resources
          /\ Py.contains resources run_uid = Ok true) ->
  _ensure_run_not_stuck_on_non_terminal_state project run_uid run resources_map w
  = (Ok tt, w).
Proof.
  unfold status_field. intros S N H.
  unfold _ensure_run_not_stuck_on_non_terminal_state, bind, lift.
  rewrite S, (truthy_state st N). simpl negb. cbv iota.
  destruct (Py.in_strings (VStr st) RunStates_non_terminal_states) eqn:I.
  - destruct H as [H | [T [resources [G C]]]].
    + apply in_strings_In in I. contradiction.
    + rewrite T, G. simpl. rewrite C. reflexivity.
  - reflexivity.
Qed.

End MoreOrphans.

Lemma run_without_state_is_failed_witness :
  let platform := indoors (at_ 10 0 0) in
  let run := dict [("metadata", dict [("project", VStr "p"); ("uid", VStr "u1")])] in
  exists run',
    _ensure_run_not_stuck_on_non_terminal_state (VStr "p") (VStr "u1") run
      (dict [("p", dict [("u1", dict [("name", VStr "train")])])]) empty_world
    = (Ok tt,
       after_store run' (VStr "u1") (VStr "p")
         (record (Log info
            "Runs monitoring found a run without state, updating to a terminal state")
            empty_world))
    /\ status_field run' "state" = Ok (VStr "error").
Proof.
  intros platform run.
  destruct (run_without_state_is_failed (platform := platform)
              (VStr "p") (VStr "u1") run
              (dict [("p", dict [("u1", dict [("name", VStr "train")])])])
              VNone empty_world eq_refl eq_refl) as [run' [E [S _]]].
  exists run'. split; [exact E | exact S].
Defined.

Lemma settled_or_matched_run_is_left_witness :
  let platform := indoors (at_ 10 0 0) in
  _ensure_run_not_stuck_on_non_terminal_state (VStr "p") (VStr "u1") running_run
    (dict [("p", dict [("u1", dict [("name", VStr "train")])])])
    (store_of [running_run])
  = (Ok tt, store_of [running_run]).
Proof.
  intros platform.
  refine (settled_or_matched_run_is_left (platform := platform)
            (VStr "p") (VStr "u1") running_run _ "running" _ eq_refl _ _).
  - discriminate.
  - right. split; [reflexivity|]. eexists. split; reflexivity.
Defined.

(** ** More of the handler: resources and their runs *)

Section MoreResources.

Context {constants : Constants} {config : Config} {datetime : Datetime}
        {platform : Platform}.
Variable self : RuntimeHandler.

(** X3.  The run of a resource is read off its labels: the project is the
    label mlrun/project, or the default project when the label is absent
    or empty; the uid is the label mlrun/uid, or [None]; the name is the
    label mlrun/name, or no-name when the label is absent (an empty name
    stays empty).  A resource without metadata, or whose metadata have no
    labels, gets the three defaults; labels that are [None] raise
    [AttributeError]. *)
Theorem resolve_runtime_resource_run_labels (items metadata labels : list (value * value)) :
  Py.assoc (VStr "metadata") items = Some (VDict metadata) ->
  (Py.assoc (VStr "labels") metadata = Some (VDict labels) ->
   _resolve_runtime_resource_run (VDict items)
   = Ok (if Py.truthy (label_or labels "mlrun/project" VNone)
         then label_or labels "mlrun/project" VNone
         else VStr default_project,
         label_or labels "mlrun/uid" VNone,
         label_or labels "mlrun/name" (VStr "no-name")))
  /\ (Py.assoc (VStr "labels") metadata = None ->
      _resolve_runtime_resource_run (VDict items)
      = Ok (VStr default_project, VNone, VStr "no-name"))
  /\ (Py.assoc (VStr "labels") metadata = Some VNone ->
      _resolve_runtime_resource_run (VDict items) = Raise AttributeError)
  /\ (forall rest,
        Py.assoc (VStr "metadata") rest = None ->
        _resolve_runtime_resource_run (VDict rest)
        = Ok (VStr default_project, VNone, VStr "no-name")).
Proof.
  intros M. unfold _resolve_runtime_resource_run, label_or.
  split; [|split; [|split]].
  - intros L. cbn -[Py.truthy]. rewrite M. cbn -[Py.truthy]. rewrite L.
    cbn -[Py.truthy].
    destruct (Py.truthy match Py.assoc (VStr "mlrun/project") labels with
                        | Some v => v
                        | None => VNone
                        end); reflexivity.
  - intros L. cbn. rewrite M. cbn. rewrite L. reflexivity.
  - intros L. cbn. rewrite M. cbn. rewrite L. reflexivity.
  - intros rest R. cbn. rewrite R. reflexivity.
Qed.

Lemma resolve_runtime_resource_run_pod (name : string)
  (labels : list (value * value)) (phase : string) (containers : list (option Z)) :
  _resolve_runtime_resource_run (mk_pod name labels phase containers)
  = Ok (project_of_labels labels, label_or labels "mlrun/uid" VNone,
        label_or labels "mlrun/name" (VStr "no-name")).
Proof.
  unfold _resolve_runtime_resource_run, project_of_labels, label_or.
  cbn -[Py.truthy].
  destruct (Py.truthy match Py.assoc (VStr "mlrun/project") labels with
                      | Some v => v
                      | None => VNone
                      end); reflexivity.
Qed.


(** The entry that the first loop of the monitoring makes for a resource
    is [run_runtime_resources_map.setdefault(project, {})[uid] = ...]. *)
Lemma resources_map_entry (resources_map project uid entry : value) :
  (let? (_, resources_map) := Py.setdefault resources_map project (VDict []) in
   let? resources := Py.getitem resources_map project in
   let? resources := Py.setitem resources uid entry in
   Py.setitem resources_map project resources)%result
  = Py.setdefault_setitem resources_map project uid entry.
Proof.
  unfold Py.setdefault_setitem, Py.setdefault.
  destruct resources_map as [| | | |m]; auto.
  destruct (Py.hashable project) eqn:H; auto.
  destruct (Py.assoc project m) as [v|] eqn:A; cbn [rbind Py.getitem].
  - now rewrite H, A.
  - now rewrite H, (assoc_app_fresh _ _ _ _ A), Py_eqb_refl.
Qed.

(** X5.  A pod whose labels give no uid is not monitored.  The first loop
    of the monitoring enters it in the map of the resources, under its
    project and the uid it has not; it resolves no status, reads and
    writes nothing, and the map of the runs stays as it was. *)
Theorem monitor_skips_pod_without_uid (namespace name : string)
  (labels : list (value * value)) (phase : string)
  (containers : list (option Z)) (is_crd : bool)
  (project_run_uid_map resources_map resources_map' : value) (w : world) :
  Py.truthy (label_or labels "mlrun/uid" VNone) = false ->
  Py.truthy (project_of_labels labels) = true ->
  Py.setdefault_setitem resources_map (project_of_labels labels)
    (label_or labels "mlrun/uid" VNone)
    (VDict [(VStr "name", label_or labels "mlrun/name" (VStr "no-name"))])
  = Ok resources_map' ->
  monitor_runtime_resource_step self is_crd namespace
    (mk_pod name labels phase containers) (project_run_uid_map, resources_map) w
  = (Ok (project_run_uid_map, resources_map'), w).
Proof.
  intros U P S. unfold monitor_runtime_resource_step.
  unfold bind at 1. unfold lift at 1.
  rewrite resolve_runtime_resource_run_pod.
  unfold bind at 1. unfold lift at 1.
  rewrite resources_map_entry, S.
  unfold bind, try_monitor_runtime_resource, try_except,
    _monitor_runtime_resource, bind, ret.
  rewrite P, U. simpl. rewrite P, U. reflexivity.
Qed.

(** X6.  The log of a run is collected once: it is stored when the log
    archive has none and the cluster still has logs for the run, and a
    second collection does nothing; a log that exists is never stored
    again. *)
Theorem ensure_run_logs_collected_once (project uid : value) (w : world) :
  (has_log project uid w = true ->
   _ensure_run_logs_collected project uid w = (Ok tt, w))
  /\ (has_log project uid w = false ->
      _get_logs_legacy_method project uid = "" ->
      _ensure_run_logs_collected project uid w = (Ok tt, w))
  /\ (has_log project uid w = false ->
      _get_logs_legacy_method project uid <> "" ->
      exists w1,
        _ensure_run_logs_collected project uid w = (Ok tt, w1)
        /\ trace w1 = StoreLog project uid :: Log info "Storing run logs" :: trace w
        /\ has_log project uid w1 = true
        /\ _ensure_run_logs_collected project uid w1 = (Ok tt, w1)).
Proof.
  unfold has_log.
  assert (Seen : forall w0, has_log project uid w0 = true ->
            _ensure_run_logs_collected project uid w0 = (Ok tt, w0)).
  { intros w0 H. unfold _ensure_run_logs_collected, bind,
      Logs.log_file_exists_for_run_uid. unfold has_log in H. now rewrite H. }
  split; [exact (Seen w)|]. split.
  - intros H L. unfold _ensure_run_logs_collected, bind,
      Logs.log_file_exists_for_run_uid. rewrite H, L. reflexivity.
  - intros H L. eexists. split; [|split; [|split]].
    + unfold _ensure_run_logs_collected, bind, Logs.log_file_exists_for_run_uid.
      rewrite H. simpl.
      destruct (String.eqb_spec (_get_logs_legacy_method project uid) "");
        [contradiction|]. reflexivity.
    + reflexivity.
    + unfold has_log. simpl. rewrite existsb_app. simpl.
      rewrite !Py_eqb_refl. simpl. apply orb_true_r.
    + apply Seen. unfold has_log. simpl. rewrite existsb_app. simpl.
      rewrite !Py_eqb_refl. simpl. apply orb_true_r.
Qed.

End MoreResources.

(** ** More of the handler: what a pass leaves alone *)

Section Preserving.

Context {X : Type} (part : world -> X).
Hypothesis apart : apart_from_trace part.

Lemma preserves_ret {A} (a : A) : preserves part (ret a).
Proof. now intros w. Qed.

Lemma preserves_raise {A} (e : exn) : preserves part (@raise A e).
Proof. now intros w. Qed.

Lemma preserves_lift {A} (r : result A) : preserves part (lift r).
Proof. now intros w. Qed.

Lemma preserves_emit (e : event) : preserves part (emit e).
Proof. intros w. apply apart. Qed.

Lemma preserves_logger (lvl : level) (msg : string) :
  preserves part (logger lvl msg).
Proof. apply preserves_emit. Qed.

Lemma preserves_bind {A B} (c : M A) (f : A -> M B) :
  preserves part c -> (forall a, preserves part (f a)) ->
  preserves part (bind c f).
Proof.
  intros Hc Hf w. unfold bind. specialize (Hc w).
  destruct (c w) as [[a|e] w1]; simpl in Hc.
  - now rewrite Hf.
  - exact Hc.
Qed.

Lemma preserves_try_except {A} (c : M A) (h : exn -> M A) :
  preserves part c -> (forall e, preserves part (h e)) ->
  preserves part (try_except c h).
Proof.
  intros Hc Hh w. unfold try_except. specialize (Hc w).
  destruct (c w) as [[a|e] w1]; simpl in Hc.
  - exact Hc.
  - now rewrite Hh.
Qed.

Lemma preserves_for_each {A B} (xs : list A) (acc : B) (body : A -> B -> M B) :
  (forall x b, preserves part (body x b)) ->
  preserves part (for_each xs acc body).
Proof.
  intros Hb. revert acc. induction xs as [|x xs IH]; intros acc; simpl.
  - apply preserves_ret.
  - apply preserves_bind; auto.
Qed.

Lemma preserves_retry {A} (attempts : nat) (c : M A) :
  preserves part c -> preserves part (retry attempts c).
Proof.
  intros Hc. induction attempts as [|n IH]; simpl.
  - apply preserves_raise.
  - apply preserves_try_except; auto.
Qed.

Lemma preserves_after_emit {A} (e : event) (f : world -> result A * world) :
  (forall w, part (snd (f w)) = part w) ->
  preserves part (bind (emit e) (fun _ => f)).
Proof.
  intros H. apply preserves_bind; [apply preserves_emit|]. intros _. exact H.
Qed.

End Preserving.

Create HintDb preserving.

#[local] Hint Resolve preserves_ret preserves_raise preserves_lift
  preserves_emit preserves_logger : preserving.

Ltac preserving_step :=
  match goal with
  | |- preserves _ (bind _ _) => apply preserves_bind; [|intros]
  | |- preserves _ (try_except _ _) => apply preserves_try_except; [|intros]
  | |- preserves _ (for_each _ _ _) => apply preserves_for_each; intros
  | |- preserves _ (retry_until_successful _ _ _) =>
      apply preserves_retry
  | |- preserves _ (if ?b then _ else _) => destruct b
  | |- preserves _ (match ?x with _ => _ end) => destruct x
  | |- preserves _ _ => solve [auto with preserving]
  end.

Ltac preserving_auto := repeat preserving_step.

Section LeftAlone.

Context {constants : Constants} {config : Config} {datetime : Datetime}
        {platform : Platform}.
Variable self : RuntimeHandler.

Lemma cluster_apart : apart_from_trace cluster.
Proof. now intros e w. Qed.

Lemma stores_apart : apart_from_trace stores.
Proof. now intros e w. Qed.

Lemma cluster_read_run (uid project : value) :
  preserves cluster (RunStore.read_run uid project).
Proof.
  apply preserves_after_emit; [apply cluster_apart|]. intros w.
  now destruct (RunStore.find project uid (runs w)).
Qed.

Lemma cluster_store_run (r uid project : value) :
  preserves cluster (RunStore.store_run r uid project).
Proof. apply preserves_after_emit; [apply cluster_apart|]. now intros w. Qed.

Lemma cluster_list_runs (states : option (list string)) :
  preserves cluster (RunStore.list_runs states).
Proof. apply preserves_after_emit; [apply cluster_apart|]. now intros w. Qed.

Lemma cluster_store_log (project uid : value) :
  preserves cluster (Logs.store_log project uid).
Proof. apply preserves_after_emit; [apply cluster_apart|]. now intros w. Qed.

Lemma cluster_log_file_exists (project uid : value) :
  preserves cluster (Logs.log_file_exists_for_run_uid project uid).
Proof. now intros w. Qed.

Lemma cluster_list_namespaced_pod (namespace selector : string) :
  preserves cluster (K8s.list_namespaced_pod namespace selector).
Proof. apply preserves_after_emit; [apply cluster_apart|]. now intros w. Qed.

Lemma cluster_list_namespaced_custom_object
  (group version namespace plural selector : string) :
  preserves cluster (K8s.list_namespaced_custom_object group version namespace
                       plural selector).
Proof.
  apply preserves_after_emit; [apply cluster_apart|]. intros w.
  now destruct crd_defined.
Qed.

Lemma stores_read_run (uid project : value) :
  preserves stores (RunStore.read_run uid project).
Proof.
  apply preserves_after_emit; [apply stores_apart|]. intros w.
  now destruct (RunStore.find project uid (runs w)).
Qed.

Lemma stores_list_namespaced_pod (namespace selector : string) :
  preserves stores (K8s.list_namespaced_pod namespace selector).
Proof. apply preserves_after_emit; [apply stores_apart|]. now intros w. Qed.

Lemma stores_list_namespaced_custom_object
  (group version namespace plural selector : string) :
  preserves stores (K8s.list_namespaced_custom_object group version namespace
                      plural selector).
Proof.
  apply preserves_after_emit; [apply stores_apart|]. intros w.
  now destruct crd_defined.
Qed.

Lemma stores_delete_pod (name : value) (namespace : string) :
  preserves stores (K8s.delete_pod name namespace).
Proof. apply preserves_after_emit; [apply stores_apart|]. now intros w. Qed.

Lemma stores_delete_crd (name : value) (group version plural namespace : string) :
  preserves stores (K8s.delete_crd name group version plural namespace).
Proof. apply preserves_after_emit; [apply stores_apart|]. now intros w. Qed.

End LeftAlone.

#[local] Hint Resolve cluster_read_run cluster_store_run cluster_list_runs
  cluster_store_log cluster_log_file_exists cluster_list_namespaced_pod
  cluster_list_namespaced_custom_object stores_read_run
  stores_list_namespaced_pod stores_list_namespaced_custom_object
  stores_delete_pod stores_delete_crd : preserving.

#[local] Hint Extern 1 (preserves cluster (emit _)) =>
  apply preserves_emit, cluster_apart : preserving.
#[local] Hint Extern 1 (preserves cluster (logger _ _)) =>
  apply preserves_logger, cluster_apart : preserving.
#[local] Hint Extern 1 (preserves stores (emit _)) =>
  apply preserves_emit, stores_apart : preserving.
#[local] Hint Extern 1 (preserves stores (logger _ _)) =>
  apply preserves_logger, stores_apart : preserving.

Section NeverDone.

Context {constants : Constants} {config : Config} {datetime : Datetime}
        {platform : Platform}.
Variable self : RuntimeHandler.

Lemma cluster_ensure_run_state (project uid name : value)
  (run_state : option string) (run : value) (search_run : bool) :
  preserves cluster (_ensure_run_state project uid name run_state run search_run).
Proof.
  unfold _ensure_run_state, find_or_new_run, reconcile_run_state,
    update_run_state.
  preserving_auto.
Qed.

Lemma cluster_ensure_run_logs_collected (project uid : value) :
  preserves cluster (_ensure_run_logs_collected project uid).
Proof. unfold _ensure_run_logs_collected. preserving_auto. Qed.

Lemma cluster_ensure_run_not_stuck (project run_uid run resources_map : value) :
  preserves cluster (_ensure_run_not_stuck_on_non_terminal_state
                       project run_uid run resources_map).
Proof.
  unfold _ensure_run_not_stuck_on_non_terminal_state. preserving_auto.
Qed.

(** X7.  A pass of the monitoring deletes nothing: whatever it finds and
    whatever fails, the pods and the custom objects of the cluster are
    after the pass what they were before. *)
Theorem monitor_runs_never_deletes (w : world) :
  pods (snd (monitor_runs self w)) = pods w
  /\ crds (snd (monitor_runs self w)) = crds w.
Proof.
  assert (P : preserves cluster (monitor_runs self)).
  { pose proof cluster_ensure_run_state.
    pose proof cluster_ensure_run_logs_collected.
    pose proof cluster_ensure_run_not_stuck.
    unfold monitor_runs, _list_crd_objects, _list_pods,
      _list_runs_for_monitoring, monitor_runtime_resource_step,
      try_monitor_runtime_resource, _monitor_runtime_resource,
      ensure_run_not_stuck_step.
    preserving_auto. }
  specialize (P w). unfold cluster in P. now injection P.
Qed.

(** X8.  For a kind whose resources are not coupled to runs, the deletion
    of resources leaves the run store and the log archive untouched,
    whatever it deletes and whatever fails. *)
Theorem uncoupled_deletion_leaves_runs (label_selector : option string)
  (force : bool) (grace_period : option Z) (w : world) :
  _are_resources_coupled_to_run_object self = false ->
  runs (snd (delete_resources self label_selector force grace_period w)) = runs w
  /\ log_files (snd (delete_resources self label_selector force grace_period w))
     = log_files w.
Proof.
  intros C.
  assert (P : preserves stores
                (delete_resources self label_selector force grace_period)).
  { unfold delete_resources, _delete_crd_resources, _delete_pod_resources,
      delete_crd_resource, delete_pod_resource,
      _wait_for_crds_underlying_pods_deletion, _wait_for_pods_deletion,
      _verify_pods_removed.
    rewrite C. simpl negb. cbv iota.
    preserving_auto. }
  specialize (P w). unfold stores in P. now injection P.
Qed.

End NeverDone.

(** ** More of the handler: the loops of the deletion *)

Section MoreDeletion.

Context {constants : Constants} {config : Config} {datetime : Datetime}
        {platform : Platform}.
Variable self : RuntimeHandler.


End MoreDeletion.

(** ** More of the handler, run *)

Lemma resolve_runtime_resource_run_labels_witness :
  let config := Sample.config in
  _resolve_runtime_resource_run finished_pod
  = Ok (VStr "p", VStr "u1", VStr "train").
Proof.
  intros config.
  exact (proj1 (resolve_runtime_resource_run_labels (config := config)
                  [(VStr "metadata",
                    dict [("name", VStr "pod-1"); ("labels", VDict labels_of_run)]);
                   (VStr "status",
                    dict [("phase", VStr "Succeeded");
                          ("container_statuses",
                           VList (map container_status
                                    [Some (at_ 10 0 0); Some (at_ 10 0 5)]))])]
                  [(VStr "name", VStr "pod-1"); (VStr "labels", VDict labels_of_run)]
                  labels_of_run eq_refl) eq_refl).
Defined.


Lemma monitor_skips_pod_without_uid_witness :
  let platform := indoors (at_ 10 0 0) in
  let w := cluster_of [pod_without_uid] [running_run] in
  monitor_runtime_resource_step job_handler false "default-tenant"
    pod_without_uid (VDict [], VDict []) w
  = (Ok (VDict [],
         VDict [(VStr "default",
                 VDict [(VNone, VDict [(VStr "name", VStr "no-name")])])]),
     w).
Proof.
  intros platform w.
  exact (monitor_skips_pod_without_uid (platform := platform) job_handler
           "default-tenant" "builder-1" [(VStr "mlrun/class", VStr "job")]
           "Succeeded" [Some (at_ 9 0 0)] false (VDict []) (VDict []) _ w
           eq_refl eq_refl eq_refl).
Defined.

Lemma ensure_run_logs_collected_once_witness :
  let platform := with_logs (at_ 10 0 0) in
  exists w1,
    _ensure_run_logs_collected (VStr "p") (VStr "u1") empty_world = (Ok tt, w1)
    /\ has_log (VStr "p") (VStr "u1") w1 = true
    /\ _ensure_run_logs_collected (VStr "p") (VStr "u1") w1 = (Ok tt, w1).
Proof.
  intros platform.
  assert (N : _get_logs_legacy_method (VStr "p") (VStr "u1") <> "")
    by discriminate.
  destruct (proj2 (proj2 (ensure_run_logs_collected_once (platform := platform)
                            (VStr "p") (VStr "u1") empty_world)) eq_refl N)
    as [w1 [E [_ [H I]]]].
  exists w1. split; [exact E|]. split; [exact H | exact I].
Defined.

Lemma uncoupled_deletion_leaves_runs_witness :
  let platform := indoors (at_ 10 1 5) in
  let w := cluster_of [finished_pod] [running_run] in
  runs (snd (delete_resources plain_handler None false None w)) = runs w
  /\ log_files (snd (delete_resources plain_handler None false None w))
     = log_files w.
Proof.
  intros platform w.
  exact (uncoupled_deletion_leaves_runs (platform := platform) plain_handler
           None false None w eq_refl).
Defined.

(** ** More of the handler: custom objects *)

Section MoreCustomObjects.

Context {constants : Constants} {config : Config} {datetime : Datetime}
        {platform : Platform}.
Variable self : RuntimeHandler.

Lemma wait_for_no_crd (label_selector : string) (w : world) :
  _wait_for_crds_underlying_pods_deletion self [] label_selector w = (Ok tt, w).
Proof.
  unfold _wait_for_crds_underlying_pods_deletion.
  now destruct (_are_resources_coupled_to_run_object self).
Qed.

(** X9.  A kind whose custom resource definition is not registered in the
    cluster has no resources: the provider's 404 is taken for an empty
    listing, so that the listing of custom objects answers the empty list,
    and the deletion deletes nothing, waits for nothing and does not
    raise. *)
Theorem unregistered_crd_is_no_resource (namespace : string)
  (label_selector : option string) (selector : string) (force : bool)
  (grace_period : option Z) (w : world) :
  crd_defined = false ->
  let '(crd_group, crd_version, crd_plural) := _get_crd_info self in
  let listed sel ns := record (ListCustomObjects crd_group crd_version ns crd_plural sel) w in
  (crd_info_given self = true ->
   _list_crd_objects self namespace selector w = (Ok (VList []), listed selector namespace))
  /\ _delete_crd_resources self namespace selector force grace_period w
     = (Ok [], listed selector namespace)
  /\ (crd_info_given self = true ->
      is_running_inside_kubernetes_cluster = true ->
      delete_resources self label_selector force grace_period w
      = (Ok tt,
         listed (resolve_label_selector self "*" None label_selector None false)
           resolve_namespace)).
Proof.
  intros D.
  assert (E : forall ns sel gp,
            _delete_crd_resources self ns sel force gp w
            = (Ok [],
               let '(crd_group, crd_version, crd_plural) := _get_crd_info self in
               record (ListCustomObjects crd_group crd_version ns crd_plural sel) w)).
  { intros ns sel gp. unfold _delete_crd_resources.
    destruct (_get_crd_info self) as [[crd_group crd_version] crd_plural].
    unfold bind at 1. unfold try_except, bind at 1.
    unfold K8s.list_namespaced_custom_object, bind at 1, emit. rewrite D.
    cbn -[_wait_for_crds_underlying_pods_deletion].
    unfold bind, ret. now rewrite wait_for_no_crd. }
  unfold _list_crd_objects, delete_resources.
  destruct (_get_crd_info self) as [[crd_group crd_version] crd_plural] eqn:I.
  split; [|split].
  - intros G. rewrite G. unfold try_except, bind at 1.
    unfold K8s.list_namespaced_custom_object, bind at 1, emit. rewrite D.
    reflexivity.
  - apply E.
  - intros G C. rewrite G, C. cbn [negb]. unfold bind. cbv beta. now rewrite E.
Qed.

Lemma base_resolver_passes_over (namespace : string) (grace_period : Z)
  (crd_objects deleted_crds : list value) (w : world) :
  (forall crd_object,
     _resolve_crd_object_status_info self crd_object = Ok (false, VNone, None)) ->
  for_each crd_objects deleted_crds
    (delete_crd_resource self namespace false grace_period) w
  = (Ok deleted_crds, w).
Proof.
  intros R. induction crd_objects as [|o objs IH]; simpl; auto.
  unfold bind at 1.
  replace (delete_crd_resource self namespace false grace_period o deleted_crds w)
    with (@Ok (list value) deleted_crds, w); auto.
  unfold delete_crd_resource.
  destruct (_get_crd_info self) as [[crd_group crd_version] crd_plural].
  unfold try_except, bind, lift. now rewrite R.
Qed.

(** X10.  The status resolver of the base class finds no custom object in
    a terminal state.  A kind that keeps it never has a custom object
    deleted unless the deletion is forced: the deletion lists the objects,
    passes over every one of them, reads and writes nothing and answers
    the empty list. *)
Theorem base_resolver_deletes_no_custom_object (namespace selector : string)
  (grace_period : option Z) (w : world) :
  (forall crd_object,
     _resolve_crd_object_status_info self crd_object = Ok (false, VNone, None)) ->
  let '(crd_group, crd_version, crd_plural) := _get_crd_info self in
  _delete_crd_resources self namespace selector false grace_period w
  = (Ok [],
     record (ListCustomObjects crd_group crd_version namespace crd_plural selector)
       w).
Proof.
  intros R. unfold _delete_crd_resources.
  destruct (_get_crd_info self) as [[crd_group crd_version] crd_plural] eqn:I.
  unfold bind at 1. unfold try_except, bind at 1.
  unfold K8s.list_namespaced_custom_object, bind at 1, emit.
  destruct crd_defined.
  - cbn -[_wait_for_crds_underlying_pods_deletion for_each].
    unfold bind at 1. unfold bind at 1. unfold lift.
    cbn -[_wait_for_crds_underlying_pods_deletion for_each].
    rewrite (base_resolver_passes_over _ _ _ _ _ R).
    unfold bind, ret. now rewrite wait_for_no_crd.
  - cbn -[_wait_for_crds_underlying_pods_deletion].
    unfold bind, ret. now rewrite wait_for_no_crd.
Qed.

End MoreCustomObjects.

Lemma unregistered_crd_is_no_resource_witness :
  let platform := without_crds (at_ 10 0 0) in
  let w := cluster_of [] [running_run] in
  delete_resources mpijob_handler None true None w
  = (Ok tt,
     record (ListCustomObjects "kubeflow.org" "v1" "default-tenant" "mpijobs"
               "mlrun/class=mpijob") w).
Proof.
  intros platform w.
  exact (proj2 (proj2 (unregistered_crd_is_no_resource (platform := platform)
                         mpijob_handler "default-tenant" None "" true None w
                         eq_refl)) eq_refl eq_refl).
Defined.

Lemma base_resolver_deletes_no_custom_object_witness :
  let platform := indoors (at_ 10 0 0) in
  let w := {| pods := []; crds := [mpijob_object]; runs := []; log_files := [];
              trace := [] |} in
  _delete_crd_resources mpijob_handler "default-tenant" "mlrun/class=mpijob"
    false None w
  = (Ok [],
     record (ListCustomObjects "kubeflow.org" "v1" "default-tenant" "mpijobs"
               "mlrun/class=mpijob") w).
Proof.
  intros platform w.
  exact (base_resolver_deletes_no_custom_object (platform := platform)
           mpijob_handler "default-tenant" "mlrun/class=mpijob" None w
           (fun _ => eq_refl)).
Defined.

(** ** More of the handler: what the reconciler answers and touches *)

Section MoreReconciler.

Context {constants : Constants} {config : Config} {datetime : Datetime}
        {platform : Platform}.

(** The head of the reconciler always finds or makes a run, and writes
    nothing. *)
Lemma find_or_new_total (project uid name run : value) (search_run : bool)
  (w : world) :
  exists r evs,
    no_store evs = true
    /\ find_or_new_run project uid name run search_run w = (Ok r, push evs w).
Proof.
  destruct search_run.
  - destruct (find_or_new_search project uid name run w) as [r [evs [N F]]].
    exists r, evs. split; auto.
  - unfold find_or_new_run, bind, ret, logger, emit.
    destruct (Py.truthy (if Py.is_none run then VDict [] else run)) eqn:T;
      cbn [negb].
    + exists (if Py.is_none run then VDict [] else run), [].
      split; auto. now rewrite push_nil.
    + eexists _, [Log warning "Run not found. A new run will be created"].
      split; reflexivity.
Qed.

Lemma update_run_state_raise (project uid : value) (run_state : option string)
  (r : value) (w w1 : world) (e : exn) :
  update_run_state project uid run_state r w = (Raise e, w1) ->
  w1 = push [Log info "Updating run state"] w.
Proof.
  unfold update_run_state, bind, logger, emit, lift, ret.
  destruct (Py.setdefault_setitem r (VStr "status") (VStr "state")
              (of_option run_state)) as [r1|]; cbn.
  - destruct (Py.setdefault_setitem r1 (VStr "status") (VStr "last_update")
                (VStr (isoformat now_date))) as [r2|]; cbn.
    + discriminate.
    + intros E. now injection E as _ <-.
  - intros E. now injection E as _ <-.
Qed.

(** A reconciliation that fails has written nothing. *)
Lemma reconcile_raise (project uid : value) (run_state : option string)
  (r : value) (w w1 : world) (e : exn) :
  reconcile_run_state project uid run_state r w = (Raise e, w1) ->
  exists evs, no_store evs = true /\ w1 = push evs w.
Proof.
  unfold reconcile_run_state, bind, lift, logger, emit, ret.
  assert (U : forall evs, no_store evs = true ->
            update_run_state project uid run_state r (push evs w) = (Raise e, w1) ->
            exists evs, no_store evs = true /\ w1 = push evs w).
  { intros evs N E. apply update_run_state_raise in E. subst w1.
    exists (Log info "Updating run state" :: evs). split; auto. }
  destruct (Py.get_in r (VStr "status") (VStr "state") VNone) as [db|].
  2:{ intros E. injection E as _ <-. exists []. split; auto.
      now rewrite push_nil. }
  destruct (Py.truthy db).
  - destruct (Py.eqb db (of_option run_state)); [discriminate|].
    destruct (Py.in_strings db RunStates_terminal_states).
    + destruct (negb (Py.in_strings (of_option run_state) RunStates_terminal_states)).
      * destruct (Py.get_in r (VStr "status") (VStr "last_update") VNone)
          as [lu|].
        2:{ intros E. injection E as _ <-. exists []. split; auto.
            now rewrite push_nil. }
        destruct (negb (Py.is_none lu)).
        -- destruct (fromisoformat lu) as [t|].
           2:{ intros E. injection E as _ <-. exists []. split; auto.
               now rewrite push_nil. }
           cbn. destruct (t >? now_date - timedelta runs_monitoring_interval).
           ++ discriminate.
           ++ intros E. eapply (U [_]); [|exact E]; reflexivity.
        -- cbn. intros E. eapply (U [_]); [|exact E]; reflexivity.
      * cbn. intros E. eapply (U [_]); [|exact E]; reflexivity.
    + intros E. apply (U []); [reflexivity|]. now rewrite push_nil.
  - intros E. apply (U []); [reflexivity|]. now rewrite push_nil.
Qed.

Lemma push_push (evs evs' : list event) (w : world) :
  push evs (push evs' w) = push (evs ++ evs') w.
Proof. unfold push. simpl. now rewrite app_assoc. Qed.

Lemma no_store_app (evs evs' : list event) :
  no_store evs = true -> no_store evs' = true -> no_store (evs ++ evs') = true.
Proof.
  unfold no_store. intros A B. rewrite forallb_app. now rewrite A, B.
Qed.

(** X11.  What a reconciliation comes to, whatever it is given.  When it
    answers, the state it answers is the observed one; it has written once
    when it says the run changed, and then the run store holds, for the
    project and uid, the run it worked on, in the observed state; it has
    written nothing when it says the run did not change.  When it raises,
    it has written nothing either. *)
Theorem ensure_run_state_outcome (project uid name : value)
  (run_state : option string) (run : value) (search_run : bool) (w : world) :
  match _ensure_run_state project uid name run_state run search_run w with
  | (Ok (changed, state, run'), w') =>
      state = run_state
      /\ if changed
         then writes w' = S (writes w)
              /\ runs w' = RunStore.upsert project uid run' (runs w)
              /\ stored_run project uid w' = Some run'
              /\ status_field run' "state" = Ok (of_option run_state)
         else writes w' = writes w /\ runs w' = runs w
  | (Raise _, w') => writes w' = writes w /\ runs w' = runs w
  end.
Proof.
  unfold _ensure_run_state.
  destruct (find_or_new_total project uid name run search_run w)
    as [r [evs [N F]]].
  unfold bind at 1. rewrite F.
  destruct (reconcile_run_state project uid run_state r (push evs w))
    as [[[[changed st] r1]|e] w1] eqn:R.
  - apply reconcile_inv in R. destruct R as [-> R]. split; auto.
    destruct R as [[-> [-> [evs' [N' [-> _]]]]] | [-> [S [_ [evs' [N' ->]]]]]].
    + rewrite push_push, writes_push; auto using no_store_app.
    + rewrite push_push, writes_after_store, writes_push;
        auto using no_store_app.
      repeat split; auto. unfold stored_run. apply find_after_store.
  - apply reconcile_raise in R. destruct R as [evs' [N' ->]].
    rewrite push_push, writes_push; auto using no_store_app.
Qed.

Lemma find_upsert_other (project uid project' uid' r : value)
  (rows : list (value * value * value)) :
  Py.eqb project' project && Py.eqb uid' uid = false ->
  RunStore.find project uid (RunStore.upsert project' uid' r rows)
  = RunStore.find project uid rows.
Proof.
  intros N. induction rows as [|[[p u] r0] rows IH]; simpl.
  - now rewrite N.
  - destruct (Py.eqb p project' && Py.eqb u uid') eqn:E; simpl.
    + apply andb_true_iff in E. destruct E as [E1 E2].
      apply Py_eqb_eq in E1, E2. subst p u. now rewrite N.
    + now rewrite IH.
Qed.

Lemma stored_run_apart (project uid : value) :
  apart_from_trace (stored_run project uid).
Proof. now intros e w. Qed.

Lemma stored_run_store_run (project uid project' uid' r : value) :
  Py.eqb project' project && Py.eqb uid' uid = false ->
  preserves (stored_run project uid) (RunStore.store_run r uid' project').
Proof.
  intros N. apply preserves_after_emit; [apply stored_run_apart|]. intros w.
  unfold stored_run. simpl. now apply find_upsert_other.
Qed.

Lemma stored_run_read_run (project uid project' uid' : value) :
  preserves (stored_run project uid) (RunStore.read_run uid' project').
Proof.
  apply preserves_after_emit; [apply stored_run_apart|]. intros w.
  now destruct (RunStore.find project' uid' (runs w)).
Qed.

Lemma stored_run_store_log (project uid project' uid' : value) :
  preserves (stored_run project uid) (Logs.store_log project' uid').
Proof. apply preserves_after_emit; [apply stored_run_apart|]. now intros w. Qed.

Lemma stored_run_log_file_exists (project uid project' uid' : value) :
  preserves (stored_run project uid)
    (Logs.log_file_exists_for_run_uid project' uid').
Proof. now intros w. Qed.

Lemma stored_run_delete_pod (project uid name : value) (namespace : string) :
  preserves (stored_run project uid) (K8s.delete_pod name namespace).
Proof. apply preserves_after_emit; [apply stored_run_apart|]. now intros w. Qed.

(** The reconciliation of one run leaves the other runs of the run store
    as they are. *)
Lemma stored_run_ensure_run_state (project uid project' uid' name : value)
  (run_state : option string) (run : value) (search_run : bool) :
  Py.eqb project' project && Py.eqb uid' uid = false ->
  preserves (stored_run project uid)
    (_ensure_run_state project' uid' name run_state run search_run).
Proof.
  intros N.
  pose proof (stored_run_store_run project uid project' uid') as H1.
  pose proof (stored_run_read_run project uid) as H2.
  pose proof (preserves_emit _ (stored_run_apart project uid)) as H3.
  pose proof (preserves_logger _ (stored_run_apart project uid)) as H4.
  unfold _ensure_run_state, find_or_new_run, reconcile_run_state,
    update_run_state.
  preserving_auto.
Qed.

Lemma stored_run_ensure_run_logs_collected (project uid project' uid' : value) :
  preserves (stored_run project uid) (_ensure_run_logs_collected project' uid').
Proof.
  pose proof (stored_run_store_log project uid) as H1.
  pose proof (stored_run_log_file_exists project uid) as H2.
  pose proof (preserves_logger _ (stored_run_apart project uid)) as H4.
  unfold _ensure_run_logs_collected. preserving_auto.
Qed.

End MoreReconciler.

Section MoreIsolation.

Context {constants : Constants} {config : Config} {datetime : Datetime}
        {platform : Platform}.
Variable self : RuntimeHandler.

Lemma preserves_for_each_in {X A B} (part : world -> X) (xs : list A) (acc : B)
  (body : A -> B -> M B) :
  (forall x b, In x xs -> preserves part (body x b)) ->
  preserves part (for_each xs acc body).
Proof.
  revert acc. induction xs as [|x xs IH]; intros acc Hb; simpl.
  - now intros w.
  - apply preserves_bind.
    + apply Hb. now left.
    + intros a. apply IH. intros y b I. apply Hb. now right.
Qed.

Lemma stored_run_pre_deletion (project uid : value) (d : pod_description)
  (run_state : option string) :
  run_key_of d <> (project, uid) ->
  preserves (stored_run project uid)
    (_pre_deletion_runtime_resource_run_actions self (pod_of d) run_state).
Proof.
  destruct d as [[[name labels] phase] containers].
  unfold run_key_of, labels_of, pod_of. intros K w.
  assert (N : Py.eqb (project_of_labels labels) project
              && Py.eqb (label_or labels "mlrun/uid" VNone) uid = false).
  { apply andb_false_iff.
    destruct (Py.eqb (project_of_labels labels) project) eqn:E1; auto.
    destruct (Py.eqb (label_or labels "mlrun/uid" VNone) uid) eqn:E2; auto.
    apply Py_eqb_eq in E1, E2. subst. now elim K. }
  unfold _pre_deletion_runtime_resource_run_actions.
  unfold bind at 1. unfold lift at 1. rewrite resolve_runtime_resource_run_pod.
  pose proof (stored_run_ensure_run_state project uid _ _
                (label_or labels "mlrun/name" (VStr "no-name")) run_state VNone
                true N) as H1.
  pose proof (stored_run_ensure_run_logs_collected project uid
                (project_of_labels labels) (label_or labels "mlrun/uid" VNone))
    as H2.
  pose proof (preserves_logger _ (stored_run_apart project uid)) as H3.
  match goal with
  | |- stored_run _ _ (snd (?c w)) = _ =>
      cut (preserves (stored_run project uid) c); [intros P; apply P|]
  end.
  preserving_auto.
Qed.

Lemma stored_run_delete_pod_resource (project uid : value) (namespace : string)
  (force : bool) (grace_period : Z) (d : pod_description)
  (deleted_pods : list value) :
  run_key_of d <> (project, uid) ->
  preserves (stored_run project uid)
    (delete_pod_resource self namespace force grace_period (pod_of d) deleted_pods).
Proof.
  intros K.
  pose proof (fun rs => stored_run_pre_deletion project uid d rs K) as H1.
  pose proof (stored_run_delete_pod project uid) as H2.
  pose proof (preserves_logger _ (stored_run_apart project uid)) as H3.
  unfold delete_pod_resource. preserving_auto.
Qed.

Lemma stored_run_list_namespaced_pod (project uid : value)
  (namespace selector : string) :
  preserves (stored_run project uid) (K8s.list_namespaced_pod namespace selector).
Proof. apply preserves_after_emit; [apply stored_run_apart|]. now intros w. Qed.

Lemma stored_run_wait_for_pods_deletion (project uid : value)
  (namespace : string) (deleted_pods : list value) (label_selector : string) :
  preserves (stored_run project uid)
    (_wait_for_pods_deletion namespace deleted_pods label_selector).
Proof.
  pose proof (stored_run_list_namespaced_pod project uid) as H1.
  pose proof (preserves_logger _ (stored_run_apart project uid)) as H3.
  unfold _wait_for_pods_deletion, _verify_pods_removed. preserving_auto.
Qed.

(** X12.  The deletion of pods touches no run but those of the pods it
    lists: a run of the run store that no listed pod names by its labels
    is, after the deletion, what it was before, whatever was deleted and
    whatever failed. *)
Theorem deletion_touches_listed_runs_only (namespace selector : string)
  (force : bool) (grace_period : option Z) (ds : list pod_description)
  (project uid : value) (w : world) :
  filter (selects selector) (pods w) = map pod_of ds ->
  Forall (fun d => run_key_of d <> (project, uid)) ds ->
  stored_run project uid
    (snd (_delete_pod_resources self namespace selector force grace_period w))
  = stored_run project uid w.
Proof.
  intros L K. unfold _delete_pod_resources.
  unfold bind at 1. unfold K8s.list_namespaced_pod, bind at 1, emit.
  cbn [pods record]. rewrite L.
  change (stored_run project uid w)
    with (stored_run project uid (record (ListPods namespace selector) w)).
  generalize (record (ListPods namespace selector) w). intros w1.
  match goal with
  | |- stored_run _ _ (snd (?c w1)) = _ =>
      cut (preserves (stored_run project uid) c); [intros P; apply P|]
  end.
  apply preserves_bind.
  - apply preserves_for_each_in. intros x b I.
    apply in_map_iff in I. destruct I as [d [<- I]].
    apply stored_run_delete_pod_resource.
    rewrite Forall_forall in K. now apply K.
  - intros deleted. apply preserves_bind.
    + apply stored_run_wait_for_pods_deletion.
    + intros _. now intros w2.
Qed.

End MoreIsolation.

Lemma deletion_touches_listed_runs_only_witness :
  let platform := indoors (at_ 10 1 5) in
  let w := {| pods := [finished_pod]; crds := [];
              runs := [(VStr "p", VStr "u1", running_run);
                       (VStr "p", VStr "u2", pending_run)];
              log_files := []; trace := [] |} in
  stored_run (VStr "p") (VStr "u2")
    (snd (_delete_pod_resources job_handler "default-tenant" "mlrun/class=job"
            false None w))
  = Some pending_run.
Proof.
  intros platform w.
  refine (deletion_touches_listed_runs_only (platform := platform) job_handler
            "default-tenant" "mlrun/class=job" false None
            [("pod-1", labels_of_run, "Succeeded",
              [Some (at_ 10 0 0); Some (at_ 10 0 5)])]
            (VStr "p") (VStr "u2") w eq_refl _).
  repeat constructor. discriminate.
Defined.

(** ** More of the handler: the runs of a pass *)

Section MoreListing.

Context {constants : Constants} {config : Config} {datetime : Datetime}
        {platform : Platform}.

Lemma find_app (project uid : value) (rows rows' : list (value * value * value)) :
  RunStore.find project uid (rows ++ rows')
  = match RunStore.find project uid rows with
    | Some r => Some r
    | None => RunStore.find project uid rows'
    end.
Proof.
  induction rows as [|[[p u] r] rows IH]; simpl; auto.
  now destruct (Py.eqb p project && Py.eqb u uid).
Qed.

Lemma find_absent (project uid : value) (rows : list (value * value * value)) :
  ~ In (project, uid) (map fst rows) -> RunStore.find project uid rows = None.
Proof.
  induction rows as [|[[p u] r] rows IH]; simpl; auto. intros N.
  destruct (Py.eqb p project && Py.eqb u uid) eqn:E.
  - apply andb_true_iff in E. destruct E as [E1 E2].
    apply Py_eqb_eq in E1, E2. subst. elim N. now left.
  - apply IH. intros I. apply N. now right.
Qed.

(** A run whose project and uid the map does not hold yet is entered as
    [project_run_uid_map.setdefault(project, {})[uid] = run]. *)
Lemma list_run_for_monitoring_fresh (r project uid m : value)
  (run_with_missing_data : list value) (duplicated_runs : value) :
  names_run r project uid ->
  Py.hashable uid = true ->
  Py.get_in m project uid VNone = Ok VNone ->
  list_run_for_monitoring r (m, run_with_missing_data, duplicated_runs)
  = (let? m' := Py.setdefault_setitem m project uid r in
     Ok (m', run_with_missing_data, duplicated_runs))%result.
Proof.
  intros [N1 [N2 [T1 T2]]] Hu G. unfold list_run_for_monitoring.
  rewrite N1, N2. cbn [rbind]. rewrite T1, T2. cbn [negb orb].
  unfold Py.setdefault_setitem, Py.setdefault.
  unfold Py.get_in, Py.get in G.
  destruct m as [| | | |items]; try discriminate.
  destruct (Py.hashable project) eqn:Hp; try discriminate.
  destruct (Py.assoc project items) as [inner|] eqn:A; cbn [rbind] in *.
  - unfold Py.get. destruct inner as [| | | |uids]; try discriminate.
    rewrite Hu in *. injection G as G. rewrite G. cbn.
    rewrite Hp, A. cbn. now rewrite ?Hu, ?Hp.
  - cbn. rewrite Hu. cbn.
    rewrite Hp, (assoc_app_fresh _ _ _ _ A), Py_eqb_refl. cbn.
    now rewrite ?Hu, ?Hp.
Qed.

Lemma list_runs_fold (rows : list (value * value * value)) :
  forall (seen : list (value * value * value)) (m : value),
    holds_runs m seen ->
    Forall keyed_by_metadata rows ->
    NoDup (map fst (seen ++ rows)) ->
    exists m',
      fold_result (fun acc run => list_run_for_monitoring run acc)
        (map snd rows) (m, [], VList [])
      = Ok (m', [], VList [])
      /\ holds_runs m' (seen ++ rows).
Proof.
  induction rows as [|[[p u] r] rows IH]; intros seen m H K D.
  - exists m. rewrite app_nil_r. now split.
  - inversion K as [|? ? KM K']; subst. destruct KM as [N [Hp Hu]].
    assert (F : RunStore.find p u seen = None).
    { apply find_absent. intros I. rewrite map_app in D.
      apply NoDup_remove_2 in D. apply D. apply in_or_app. now left. }
    pose proof (H p u Hp Hu) as G. rewrite F in G.
    destruct (setdefault_setitem_ok m p u u VNone VNone r G Hu) as [m1 E].
    cbn [map snd fold_result].
    rewrite (list_run_for_monitoring_fresh r p u m [] (VList []) N Hu G), E.
    cbn [rbind].
    destruct (IH (seen ++ [(p, u, r)])%list m1) as [m' [E' H']]; auto.
    + intros p' u' Hp' Hu'. rewrite find_app. cbn [RunStore.find].
      destruct (Py.eqb p p') eqn:E1.
      * apply Py_eqb_eq in E1. subst p'.
        destruct (Py.eqb u u') eqn:E2; cbn [andb].
        -- apply Py_eqb_eq in E2. subst u'. rewrite F.
           exact (get_in_set_same _ _ _ _ _ VNone E).
        -- apply Py_eqb_neq in E2.
           rewrite (get_in_set_other _ _ _ _ _ _ VNone E E2).
           rewrite (H p u' Hp' Hu').
           now destruct (RunStore.find p u' seen).
      * apply Py_eqb_neq in E1. cbn [andb]. unfold Py.get_in.
        rewrite (get_set_elsewhere _ _ _ _ _ _ (VDict []) E E1).
        fold (Py.get_in m p' u' VNone). rewrite (H p' u' Hp' Hu').
        now destruct (RunStore.find p' u' seen).
    + now rewrite <- app_assoc.
    + exists m'. split; auto. now rewrite <- app_assoc in H'.
Qed.

Lemma list_all_runs (l : list value) : filter (RunStore.in_states None) l = l.
Proof. induction l as [|x l IH]; cbn; congruence. Qed.

(** X13.  When every run of the run store names, in its metadata, the
    project and the uid it is stored under, and no two runs share them,
    the map that a pass builds of the runs is the run store: it holds
    every run under its project and uid, and nothing under any other; no
    warning is logged. *)
Theorem list_runs_for_monitoring_holds_the_store (w : world) :
  Forall keyed_by_metadata (runs w) ->
  NoDup (map fst (runs w)) ->
  exists m,
    _list_runs_for_monitoring None w = (Ok m, record ListRuns w)
    /\ holds_runs m (runs w).
Proof.
  intros K D.
  destruct (list_runs_fold (runs w) [] (VDict [])) as [m [E H]]; auto.
  { intros p u Hp Hu. unfold Py.get_in, Py.get. now rewrite Hp, Hu. }
  exists m. split; auto.
  unfold _list_runs_for_monitoring, RunStore.list_runs.
  unfold bind at 1. unfold bind at 1. unfold emit.
  replace (filter (RunStore.in_states None) (map snd (runs (record ListRuns w))))
    with (map snd (runs w)).
  - unfold bind at 1. unfold lift. rewrite E. reflexivity.
  - cbn [runs record]. now rewrite list_all_runs.
Qed.

End MoreListing.

Lemma list_runs_for_monitoring_holds_the_store_witness :
  let w := {| pods := []; crds := [];
              runs := [(VStr "p", VStr "u1", running_run)];
              log_files := []; trace := [] |} in
  exists m,
    _list_runs_for_monitoring None w = (Ok m, record ListRuns w)
    /\ Py.get_in m (VStr "p") (VStr "u1") VNone = Ok running_run.
Proof.
  intros w.
  destruct (list_runs_for_monitoring_holds_the_store w) as [m [E H]].
  - repeat constructor.
  - repeat constructor. simpl. tauto.
  - exists m. split; [exact E|]. exact (H (VStr "p") (VStr "u1") eq_refl eq_refl).
Defined.

(** ** More of the handler: the run of a resource, once reconciled *)

Section MoreTerminal.

Context {constants : Constants} {config : Config} {datetime : Datetime}
        {platform : Platform}.

Lemma update_run_state_last_update (project uid : value)
  (run_state : option string) (r : value) (w : world) res (w1 : world) :
  update_run_state project uid run_state r w = (Ok res, w1) ->
  status_field (snd res) "last_update" = Ok (VStr (isoformat now_date)).
Proof.
  unfold update_run_state, bind, logger, emit, lift, ret.
  destruct (Py.setdefault_setitem r (VStr "status") (VStr "state")
              (of_option run_state)) as [r1|] eqn:E1; try discriminate.
  destruct (Py.setdefault_setitem r1 (VStr "status") (VStr "last_update")
              (VStr (isoformat now_date))) as [r2|] eqn:E2; try discriminate.
  simpl. intros E. injection E as <- <-. simpl.
  exact (get_in_set_same _ _ _ _ _ VNone E2).
Qed.

(** A reconciliation that changed the run ended with the write of the
    observed state. *)
Lemma reconcile_changed (project uid : value) (run_state : option string)
  (r : value) (w : world) (st : option string) (r1 : value) (w1 : world) :
  reconcile_run_state project uid run_state r w = (Ok (true, st, r1), w1) ->
  exists w0, update_run_state project uid run_state r w0 = (Ok (true, st, r1), w1).
Proof.
  unfold reconcile_run_state, bind, lift, logger, emit, ret.
  destruct (Py.get_in r (VStr "status") (VStr "state") VNone) as [db|];
    try discriminate.
  destruct (Py.truthy db); try (intros E; eexists; exact E).
  destruct (Py.eqb db (of_option run_state)); try discriminate.
  destruct (Py.in_strings db RunStates_terminal_states); try (intros E; eexists; exact E).
  destruct (negb (Py.in_strings (of_option run_state) RunStates_terminal_states));
    cbn; try (intros E; eexists; exact E).
  destruct (Py.get_in r (VStr "status") (VStr "last_update") VNone) as [lu|];
    try discriminate.
  destruct (negb (Py.is_none lu)); cbn; try (intros E; eexists; exact E).
  destruct (fromisoformat lu) as [t|]; try discriminate. cbn.
  destruct (t >? now_date - timedelta runs_monitoring_interval);
    try discriminate. intros E; eexists; exact E.
Qed.

(** X14.  Whether the run of a pod is in a terminal state.  A pod whose
    labels give no uid is taken to be so, and the run store is not asked.
    For a pod whose labels give a uid: once the reconciler has stored an
    observed state for the run, the run store is read, and the answer is
    whether that state is terminal, with the instant of the
    reconciliation as last update, provided that [fromisoformat] reads
    back what [isoformat] prints. *)
Theorem reconciled_run_is_seen (name : string) (labels : list (value * value))
  (phase : string) (containers : list (option Z)) :
  let project := project_of_labels labels in
  let uid := label_or labels "mlrun/uid" VNone in
  let pod := mk_pod name labels phase containers in
  (Py.truthy uid = false ->
   forall w, _is_runtime_resource_run_in_terminal_state pod w = (Ok (true, None), w))
  /\ (Py.truthy uid = true ->
      fromisoformat (VStr (isoformat now_date)) = Ok now_date ->
      forall run_name s run search_run w r1 w1,
        _ensure_run_state project uid run_name (Some s) run search_run w
        = (Ok (true, Some s, r1), w1) ->
        _is_runtime_resource_run_in_terminal_state pod w1
        = (Ok (Py.in_strings (VStr s) RunStates_terminal_states, Some now_date),
           record (ReadRun uid project) w1)).
Proof.
  intros project uid pod. split.
  - intros U w. unfold _is_runtime_resource_run_in_terminal_state, pod.
    unfold bind, lift. rewrite resolve_runtime_resource_run_pod.
    fold uid. now rewrite U.
  - intros U I run_name s run search_run w r1 w1 E.
    unfold _ensure_run_state in E.
    destruct (find_or_new_total project uid run_name run search_run w)
      as [r [evs [N F]]].
    unfold bind in E. rewrite F in E.
    apply reconcile_changed in E. destruct E as [w0 E].
    pose proof (update_run_state_last_update _ _ _ _ _ _ _ E) as LU.
    apply update_run_state_inv in E.
    destruct E as [r' [E [-> [S _]]]]. injection E as <-. simpl in LU.
    unfold _is_runtime_resource_run_in_terminal_state, pod.
    unfold bind at 1. unfold lift at 1. rewrite resolve_runtime_resource_run_pod.
    fold uid project. rewrite U. cbn [negb].
    unfold bind at 1. unfold RunStore.read_run, bind at 1, emit.
    cbn [runs record]. rewrite find_after_store.
    unfold status_field in LU, S. unfold bind, lift, ret.
    rewrite LU. cbn [Py.is_none negb]. rewrite I, S. cbn [of_option].
    now destruct (Py.in_strings (VStr s) RunStates_terminal_states).
Qed.

End MoreTerminal.

Lemma reconciled_run_is_seen_witness :
  let platform := indoors (at_ 10 0 0) in
  _is_runtime_resource_run_in_terminal_state finished_pod
    (snd (_ensure_run_state (VStr "p") (VStr "u1") (VStr "train")
            (Some "completed") VNone true (store_of [running_run])))
  = (Ok (true, Some (at_ 10 0 0)),
     record (ReadRun (VStr "u1") (VStr "p"))
       (snd (_ensure_run_state (VStr "p") (VStr "u1") (VStr "train")
               (Some "completed") VNone true (store_of [running_run])))).
Proof.
  intros platform.
  refine (proj2 (reconciled_run_is_seen (platform := platform) "pod-1"
                   labels_of_run "Succeeded"
                   [Some (at_ 10 0 0); Some (at_ 10 0 5)])
            eq_refl _ (VStr "train") "completed" VNone true
            (store_of [running_run]) _ _ _).
  - vm_compute. reflexivity.
  - vm_compute. reflexivity.
Defined.

(** ** More of the handler: the loop of the deletion of pods *)

Section MorePods.

Context {constants : Constants} {config : Config} {datetime : Datetime}
        {platform : Platform}.
Variable self : RuntimeHandler.

Lemma traverse_map {A B C} (f : B -> result C) (g : A -> B) (h : A -> C)
  (l : list A) :
  (forall x, f (g x) = Ok (h x)) -> traverse f (map g l) = Ok (map h l).
Proof.
  intros E. induction l as [|x l IH]; simpl; auto. now rewrite E, IH.
Qed.












End MorePods.


(** ** More of the handler: the selector of a deletion *)

Section MoreSelectors.

Context {constants : Constants} {config : Config} {datetime : Datetime}
        {platform : Platform}.
Variable self : RuntimeHandler.

Lemma append_nonempty (s t : string) : s <> "" -> String.eqb (s ++ t) "" = false.
Proof. destruct s; [congruence | reflexivity]. Qed.

(** X16.  The resources of an object are deleted under the selector made
    of the default selector of the kind, the selector of the object and
    the selector that was asked for, in this order and joined by commas;
    the default selector comes first even when it is empty, and no project
    is selected.  Inside a cluster, for a kind without custom resource
    definition, the deletion is that of the pods under this selector. *)
Theorem object_deletion_selector (object_id : string)
  (label_selector : option string) (force : bool) (grace_period : option Z) :
  object_id <> "" ->
  _get_object_label_selector self object_id <> "" ->
  let selector :=
    String.concat ","
      (_get_default_label_selector self None
       :: _get_object_label_selector self object_id
       :: match label_selector with
          | Some l => if String.eqb l "" then [] else [l]
          | None => []
          end) in
  resolve_label_selector self "*" None
    (_add_object_label_selector_if_needed self (Some object_id) label_selector)
    None false
  = selector
  /\ (is_running_inside_kubernetes_cluster = true ->
      crd_info_given self = false ->
      forall w,
        delete_runtime_object_resources self object_id label_selector force
          grace_period w
        = (_delete_pod_resources self resolve_namespace selector force
             (Some (grace_period_or_default grace_period)) ;;
           ret tt) w).
Proof.
  intros I O selector.
  assert (S : resolve_label_selector self "*" None
                (_add_object_label_selector_if_needed self (Some object_id)
                   label_selector) None false
              = selector).
  { unfold selector, resolve_label_selector, _add_object_label_selector_if_needed,
      nonempty.
    destruct (String.eqb_spec object_id ""); [contradiction|]. cbn [negb].
    destruct label_selector as [l|].
    - destruct (String.eqb_spec l ""); cbn [negb].
      + destruct (String.eqb_spec (_get_object_label_selector self object_id) "");
          [contradiction|]. reflexivity.
      + cbn [String.concat]. rewrite append_nonempty by assumption. reflexivity.
    - destruct (String.eqb_spec (_get_object_label_selector self object_id) "");
        [contradiction|]. reflexivity. }
  split; auto.
  intros C G w. unfold delete_runtime_object_resources, delete_resources.
  rewrite C, G, S. reflexivity.
Qed.

End MoreSelectors.

Lemma object_deletion_selector_witness :
  let platform := indoors (at_ 10 0 0) in
  resolve_label_selector plain_handler "*" None
    (_add_object_label_selector_if_needed plain_handler (Some "u1")
       (Some "app=trainer"))
    None false
  = ",mlrun/uid=u1,app=trainer".
Proof.
  intros platform.
  refine (proj1 (object_deletion_selector plain_handler "u1" (Some "app=trainer")
                   false None _ _)); discriminate.
Defined.

(** ** More of the handler: the listing of resources *)

Section MoreListingOfResources.

Context {constants : Constants} {config : Config} {datetime : Datetime}
        {platform : Platform}.
Variable self : RuntimeHandler.

Lemma traverse_app_raise {A B} (f : A -> result B) (l rest : list A) (bad : A)
  (ys : list B) (e : exn) :
  traverse f l = Ok ys -> f bad = Raise e ->
  traverse f (l ++ bad :: rest) = Raise e.
Proof.
  revert ys. induction l as [|x l IH]; intros ys; simpl.
  - intros _ E. now rewrite E.
  - destruct (f x) as [y|]; simpl; try discriminate.
    destruct (traverse f l) as [ys'|] eqn:T; simpl; try discriminate.
    intros _ E. now rewrite (IH ys' eq_refl E).
Qed.

Lemma build_pod_resources_pods (ds : list pod_description) :
  _build_pod_resources (map pod_of ds) = Ok (map pod_resource_of ds).
Proof.
  unfold _build_pod_resources. apply traverse_map.
  now intros [[[name labels] phase] containers].
Qed.

(** X17.  The listing of the resources of a kind without custom resource
    definition, inside a cluster.  It asks the cluster once, for the pods
    under the resolved selector, and answers one resource for each pod,
    with the name, the labels and the status of the pod, in the order of
    the cluster, and no custom object.  A pod without status is not passed
    over as the deletion and the monitoring do: the listing raises
    [KeyError], whatever the grouping. *)
Theorem list_resources_of_pods (project : string)
  (object_id label_selector : option string) (ds : list pod_description)
  (w : world) :
  is_running_inside_kubernetes_cluster = true ->
  crd_info_given self = false ->
  let selector :=
    resolve_label_selector self project object_id label_selector None false in
  let listed := record (ListPods resolve_namespace selector) w in
  (filter (selects selector) (pods w) = map pod_of ds ->
   list_resources self project object_id label_selector None w
   = (Ok (RuntimeResources [] (map pod_resource_of ds)), listed))
  /\ (forall bad rest metadata name labels group_by,
        filter (selects selector) (pods w) = (map pod_of ds ++ bad :: rest)%list ->
        Py.getitem bad (VStr "metadata") = Ok metadata ->
        Py.getitem metadata (VStr "name") = Ok name ->
        Py.getitem metadata (VStr "labels") = Ok labels ->
        Py.getitem bad (VStr "status") = Raise KeyError ->
        list_resources self project object_id label_selector group_by w
        = (Raise KeyError, listed)).
Proof.
  intros C G selector listed. unfold list_resources. rewrite C. cbn [negb].
  fold selector. unfold _list_pods, K8s.list_namespaced_pod.
  split.
  - intros L. unfold bind at 1. unfold bind at 1. unfold emit.
    cbn [pods record]. rewrite L.
    unfold bind at 1. unfold lift at 1. rewrite build_pod_resources_pods.
    unfold _list_crd_objects.
    destruct (_get_crd_info self) as [[crd_group crd_version] crd_plural].
    rewrite G. reflexivity.
  - intros bad rest metadata name labels group_by L M N B S.
    unfold bind at 1. unfold bind at 1. unfold emit.
    cbn [pods record]. rewrite L.
    unfold bind at 1. unfold lift at 1. unfold _build_pod_resources.
    rewrite (traverse_app_raise _ _ _ _ _ KeyError (build_pod_resources_pods ds));
      auto.
    now rewrite M, S; cbn; rewrite N, B.
Qed.

End MoreListingOfResources.

Lemma list_resources_of_pods_witness :
  let platform := indoors (at_ 10 0 0) in
  let w := cluster_of [finished_pod; running_pod; pod_without_status] [] in
  list_resources job_handler "p" None None (Some group_by_job) w
  = (Raise KeyError,
     record (ListPods "default-tenant" "mlrun/class=job,mlrun/project=p") w).
Proof.
  intros platform w.
  exact (proj2 (list_resources_of_pods (platform := platform) job_handler "p"
                  None None two_pods w eq_refl eq_refl)
           pod_without_status [] _ _ _ (Some group_by_job)
           eq_refl eq_refl eq_refl eq_refl eq_refl).
Defined.

(** ** More of the handler: the grouping of a listing *)

Section MoreGrouping.

Context {constants : Constants} {config : Config} {datetime : Datetime}
        {platform : Platform}.

Lemma assoc_update (k k' v : value) (d : list (value * value)) :
  Py.assoc k (Py.update k' v d) = if Py.eqb k' k then Some v else Py.assoc k d.
Proof.
  destruct (Py.eqb k' k) eqn:E.
  - apply Py_eqb_eq in E. subst. apply assoc_update_same.
  - apply Py_eqb_neq in E. now apply assoc_update_other.
Qed.

Lemma update_update (k v v0 : value) (d : list (value * value)) :
  Py.update k v (Py.update k v0 d) = Py.update k v d.
Proof.
  induction d as [|[k' v'] d IH]; simpl.
  - now rewrite Py_eqb_refl.
  - destruct (Py.eqb k' k) eqn:E; simpl; rewrite E; congruence.
Qed.

Lemma update_fresh (k v : value) (d : list (value * value)) :
  Py.assoc k d = None -> Py.update k v d = (d ++ [(k, v)])%list.
Proof.
  induction d as [|[k' v'] d IH]; simpl; auto.
  destruct (Py.eqb k' k); [discriminate|]. intros A. now rewrite IH.
Qed.

(** A resource is added at the end of the field of the entry of its two
    keys; the other entries and the other field stay as they are. *)
Lemma add_resource_to_grouped (first second r : value) (field : string)
  (x : value) (items : list value) :
  Py.hashable first = true -> Py.hashable second = true ->
  grouped r first second field = Ok items ->
  exists r',
    _add_resource_to_grouped_by_field_resources_response first second r field x
    = Ok r'
    /\ forall p u f,
         Py.hashable p = true -> Py.hashable u = true ->
         grouped r' p u f
         = if Py.eqb first p && Py.eqb second u && String.eqb field f
           then Ok (items ++ [x])%list
           else grouped r p u f.
Proof.
  intros H1 H2. unfold grouped, Py.get.
  destruct r as [| | | |m]; try discriminate. rewrite H1. cbn [rbind].
  set (G := match Py.assoc first m with Some v => v | None => VDict [] end).
  destruct G as [| | | |gm] eqn:EG; try discriminate. rewrite H2. cbn [rbind].
  set (E := match Py.assoc second gm with
            | Some v => v
            | None => RuntimeResources [] []
            end).
  unfold Py.getitem.
  destruct E as [| | | |em] eqn:EE; try discriminate. cbn [Py.hashable].
  destruct (Py.assoc (VStr field) em) as [l|] eqn:EL; try discriminate.
  cbn [rbind]. intros IT.
  exists (VDict (Py.update first
                   (VDict (Py.update second
                             (VDict (Py.update (VStr field)
                                       (VList (items ++ [x])) em))
                             gm))
                   m)).
  split.
  - unfold _add_resource_to_grouped_by_field_resources_response.
    unfold Py.contains, Py.setitem, Py.getitem. subst G E.
    destruct (Py.assoc first m) as [g|] eqn:A1.
    + subst g.
      destruct (Py.assoc second gm) as [e|] eqn:A2.
      * subst e.
        repeat (progress (rewrite ?H1, ?H2, ?A1, ?A2, ?EL, ?IT, ?assoc_update,
                            ?Py_eqb_refl;
                          cbn [rbind negb Py.hashable])).
        reflexivity.
      * unfold RuntimeResources in *. injection EE as <-.
        repeat (progress (rewrite ?H1, ?H2, ?A1, ?A2, ?EL, ?IT, ?assoc_update,
                            ?Py_eqb_refl;
                          cbn [rbind negb Py.hashable])).
        now rewrite update_update.
    + injection EG as <-. cbn [Py.assoc] in EE.
      unfold RuntimeResources in *. injection EE as <-.
      assert (A2 : Py.assoc second [] = None) by reflexivity.
      repeat (progress (rewrite ?H1, ?H2, ?A1, ?A2, ?EL, ?IT, ?assoc_update,
                          ?Py_eqb_refl;
                        cbn [rbind negb Py.hashable])).
      now rewrite !update_update.
  - intros p u f Hp Hu. rewrite Hp. cbn [rbind]. rewrite assoc_update.
    destruct (Py.eqb first p) eqn:E1; cbn [andb].
    2:{ reflexivity. }
    apply Py_eqb_eq in E1. subst p. fold G. rewrite EG. rewrite Hu.
    cbn [rbind]. rewrite assoc_update.
    destruct (Py.eqb second u) eqn:E2; cbn [andb].
    2:{ reflexivity. }
    apply Py_eqb_eq in E2. subst u. fold E. rewrite EE.
    cbn [Py.hashable]. rewrite assoc_update. cbn [Py.eqb].
    destruct (String.eqb field f); reflexivity.
Qed.

Variable self : RuntimeHandler.

Lemma add_pod_by_job (r : value) (field : string) (d : pod_description) :
  _add_resource_to_grouped_by_job_resources_response r field (pod_resource_of d)
  = match job_key_of d with
    | Some (project, uid) =>
        _add_resource_to_grouped_by_field_resources_response project uid r field
          (pod_resource_of d)
    | None => Ok r
    end.
Proof.
  destruct d as [[[name labels] phase] containers].
  unfold _add_resource_to_grouped_by_job_resources_response, job_key_of, label_or.
  cbn [labels_of].
  change (Py.getitem (pod_resource_of (name, labels, phase, containers))
            (VStr "labels"))
    with (Ok (VDict labels)).
  cbn [rbind]. unfold Py.contains, Py.get, Py.getitem. cbn [Py.hashable rbind].
  now destruct (Py.assoc (VStr "mlrun/uid") labels).
Qed.

Lemma group_by_job_fold (ds : list pod_description) :
  forall (seen : list pod_description) (r : value),
    (forall p u, Py.hashable p = true -> Py.hashable u = true ->
       grouped r p u "pod_resources"
       = Ok (map pod_resource_of (filter (in_job p u) seen))
       /\ grouped r p u "crd_resources" = Ok []) ->
    Forall hashable_job_key ds ->
    exists r',
      fold_result (fun resources pod_resource =>
                     _add_resource_to_grouped_by_job_resources_response
                       resources "pod_resources" pod_resource)
        (map pod_resource_of ds) r
      = Ok r'
      /\ forall p u, Py.hashable p = true -> Py.hashable u = true ->
           grouped r' p u "pod_resources"
           = Ok (map pod_resource_of (filter (in_job p u) (seen ++ ds)))
           /\ grouped r' p u "crd_resources" = Ok [].
Proof.
  induction ds as [|d ds IH]; intros seen r I K.
  - exists r. rewrite app_nil_r. now split.
  - inversion K as [|? ? Kd K']; subst. cbn [map fold_result].
    rewrite add_pod_by_job. unfold hashable_job_key in Kd.
    destruct (job_key_of d) as [[p0 u0]|] eqn:J.
    + destruct Kd as [Hp Hu].
      destruct (add_resource_to_grouped p0 u0 r "pod_resources"
                  (pod_resource_of d) _ Hp Hu (proj1 (I p0 u0 Hp Hu)))
        as [r1 [E1 G1]].
      rewrite E1. cbn [rbind].
      destruct (IH (seen ++ [d])%list r1) as [r' [E' I']]; auto.
      * intros p u Hp' Hu'. rewrite !G1 by assumption.
        assert (D : in_job p u d = Py.eqb p0 p && Py.eqb u0 u)
          by (unfold in_job; now rewrite J).
        rewrite filter_app, map_app. cbn [filter]. rewrite D.
        change ("pod_resources" =? "pod_resources")%string with true.
        change ("pod_resources" =? "crd_resources")%string with false.
        rewrite andb_false_r, andb_true_r.
        destruct (Py.eqb p0 p && Py.eqb u0 u) eqn:E.
        -- apply andb_true_iff in E. destruct E as [Ep Eu].
           apply Py_eqb_eq in Ep, Eu. subst p u. split; auto.
           apply I; auto.
        -- cbn [map]. rewrite app_nil_r. now apply I.
      * exists r'. split; auto. intros p u Hp' Hu'.
        rewrite <- app_assoc in I'. now apply I'.
    + cbn [rbind].
      destruct (IH (seen ++ [d])%list r) as [r' [E' I']]; auto.
      * intros p u Hp' Hu'.
        assert (D : in_job p u d = false) by (unfold in_job; now rewrite J).
        rewrite filter_app. cbn [filter]. rewrite D, app_nil_r. now apply I.
      * exists r'. split; auto. intros p u Hp' Hu'.
        rewrite <- app_assoc in I'. now apply I'.
Qed.

(** X18.  The listing grouped by job, of a kind without custom resource
    definition, inside a cluster.  The response files each pod that has a
    uid label under its project label (the default project when it has
    none) and its uid label: under a project and a uid it holds, as pod
    resources, the resources of the pods with these two, in the order of
    the cluster, and no custom object.  A pod without uid label is in no
    group. *)
Theorem list_resources_grouped_by_job (project : string)
  (object_id label_selector : option string) (ds : list pod_description)
  (w : world) :
  is_running_inside_kubernetes_cluster = true ->
  crd_info_given self = false ->
  let selector :=
    resolve_label_selector self project object_id label_selector None false in
  filter (selects selector) (pods w) = map pod_of ds ->
  Forall hashable_job_key ds ->
  exists response,
    list_resources self project object_id label_selector (Some group_by_job) w
    = (Ok response, record (ListPods resolve_namespace selector) w)
    /\ forall p u, Py.hashable p = true -> Py.hashable u = true ->
         grouped response p u "pod_resources"
         = Ok (map pod_resource_of (filter (in_job p u) ds))
         /\ grouped response p u "crd_resources" = Ok [].
Proof.
  intros C G selector L K.
  destruct (group_by_job_fold ds [] (VDict [])) as [response [E I]]; auto.
  { intros p u Hp Hu. unfold grouped, Py.get. rewrite Hp. cbn [rbind Py.assoc].
    now rewrite Hu. }
  exists response. split; auto.
  unfold list_resources. rewrite C. cbn [negb]. fold selector.
  unfold _list_pods, K8s.list_namespaced_pod.
  unfold bind at 1. unfold bind at 1. unfold emit.
  cbn [pods record]. rewrite L.
  unfold bind at 1. unfold lift at 1.
  rewrite (build_pod_resources_pods ds).
  unfold _list_crd_objects.
  destruct (_get_crd_info self) as [[crd_group crd_version] crd_plural].
  rewrite G. unfold bind, ret, lift. cbn [Py.iter _build_crd_resources traverse].
  unfold _build_list_resources_response,
    _build_grouped_by_job_list_resources_response.
  rewrite E. reflexivity.
Qed.

End MoreGrouping.

Lemma list_resources_grouped_by_job_witness :
  let platform := indoors (at_ 10 0 0) in
  let w := cluster_of [finished_pod; running_pod] [] in
  exists response,
    list_resources job_handler "p" None None (Some group_by_job) w
    = (Ok response,
       record (ListPods "default-tenant" "mlrun/class=job,mlrun/project=p") w)
    /\ grouped response (VStr "p") (VStr "u1") "pod_resources"
       = Ok (map pod_resource_of two_pods).
Proof.
  intros platform w.
  destruct (list_resources_grouped_by_job (platform := platform) job_handler "p"
              None None two_pods w eq_refl eq_refl eq_refl)
    as [response [E I]].
  - repeat constructor.
  - exists response. split; [exact E|].
    exact (proj1 (I (VStr "p") (VStr "u1") eq_refl eq_refl)).
Defined.

(** ** More of the handler: the monitoring of a finished pod *)

Section MoreMonitoring.

Context {constants : Constants} {config : Config} {datetime : Datetime}
        {platform : Platform}.
Variable self : RuntimeHandler.

(** The collection of the logs of a run always ends, with the logs in the
    archive unless the cluster has none; it leaves the run store alone. *)
Lemma ensure_run_logs_collected_done (project uid : value) (w : world) :
  exists w',
    _ensure_run_logs_collected project uid w = (Ok tt, w')
    /\ (has_log project uid w' = true \/ _get_logs_legacy_method project uid = "")
    /\ runs w' = runs w.
Proof.
  unfold _ensure_run_logs_collected, bind, Logs.log_file_exists_for_run_uid.
  fold (has_log project uid w).
  destruct (has_log project uid w) eqn:H; cbn [negb].
  - exists w. auto.
  - destruct (String.eqb_spec (_get_logs_legacy_method project uid) "");
      cbn [negb].
    + exists w. auto.
    + eexists. split; [reflexivity|]. split; auto. left.
      unfold has_log. cbn. rewrite existsb_app. cbn.
      rewrite !Py_eqb_refl. cbn. apply orb_true_r.
Qed.

(** The run that the reconciler works on when it is handed the run of the
    map of the monitoring. *)
Lemma find_or_new_handed (project uid name run : value) (w : world) :
  Py.truthy run = false \/ (exists db, status_field run "state" = Ok db) ->
  exists r evs,
    find_or_new_run project uid name run false w = (Ok r, push evs w)
    /\ no_store evs = true
    /\ (exists db, status_field r "state" = Ok db)
    /\ (if Py.truthy run then r = run else status_field r "state" = Ok VNone).
Proof.
  intros H. unfold find_or_new_run, bind, ret, logger, emit.
  destruct (Py.truthy (if Py.is_none run then VDict [] else run)) eqn:T;
    cbn [negb].
  - assert (R : (if Py.is_none run then VDict [] else run) = run)
      by (destruct run; try reflexivity; discriminate).
    rewrite R in *. exists run, []. rewrite push_nil, T.
    repeat split; auto. destruct H as [H|H]; [congruence | exact H].
  - eexists _, [Log warning "Run not found. A new run will be created"].
    assert (T' : Py.truthy run = false)
      by (destruct run; cbn in T |- *; congruence).
    rewrite T'. repeat split. now exists VNone.
Qed.

(** The reconciliation of a terminal state always ends, with a run in
    that state; when it says the run changed, the run is in the run
    store. *)
Lemma reconcile_terminal (project uid : value) (st : string) (r db : value)
  (w : world) :
  status_field r "state" = Ok db ->
  In st RunStates_terminal_states ->
  exists changed r1 w1,
    reconcile_run_state project uid (Some st) r w
    = (Ok (changed, Some st, r1), w1)
    /\ status_field r1 "state" = Ok (VStr st)
    /\ (if changed then stored_run project uid w1 = Some r1 else r1 = r)
    /\ log_files w1 = log_files w.
Proof.
  intros S I. apply in_strings_In in I.
  assert (U : forall w0, log_files w0 = log_files w ->
            exists changed r1 w1,
              update_run_state project uid (Some st) r w0
              = (Ok (changed, Some st, r1), w1)
              /\ status_field r1 "state" = Ok (VStr st)
              /\ (if changed then stored_run project uid w1 = Some r1 else r1 = r)
              /\ log_files w1 = log_files w).
  { intros w0 L.
    destruct (update_run_state_spec project uid (Some st) r db "state" w0 S)
      as [r' [E [S' _]]].
    exists true, r'. eexists. split; [exact E|]. split; [exact S'|].
    split; [apply find_after_store | exact L]. }
  unfold reconcile_run_state, bind, lift, logger, emit, ret.
  unfold status_field in S. rewrite S.
  destruct (Py.truthy db); [|now apply U].
  cbn [of_option].
  destruct (Py.eqb db (VStr st)) eqn:E.
  - apply Py_eqb_eq in E. subst db. exists false, r, w. auto.
  - destruct (Py.in_strings db RunStates_terminal_states); [|now apply U].
    rewrite I. cbn [negb]. now apply U.
Qed.

(** [project_run_uid_map[project][uid] = run], for a run that the map
    holds. *)
Lemma map_entry_update (m project uid run r1 : value) :
  Py.get_in m project uid VNone = Ok run -> Py.truthy run = true ->
  exists m',
    (let? uids := Py.getitem m project in
     let? uids := Py.setitem uids uid r1 in
     Py.setitem m project uids)%result = Ok m'
    /\ Py.get_in m' project uid VNone = Ok r1.
Proof.
  unfold Py.get_in, Py.get, Py.getitem, Py.setitem.
  destruct m as [| | | |items]; try discriminate.
  destruct (Py.hashable project) eqn:Hp; try discriminate.
  destruct (Py.assoc project items) as [inner|] eqn:A; cbn [rbind].
  - destruct inner as [| | | |uids]; try discriminate.
    destruct (Py.hashable uid) eqn:Hu; try discriminate.
    intros _ _. eexists. split; [reflexivity|]. cbn [rbind].
    now rewrite assoc_update, Py_eqb_refl, assoc_update, Py_eqb_refl.
  - destruct (Py.hashable uid); try discriminate.
    intros E. injection E as <-. discriminate.
Qed.

Lemma resolve_runtime_resource_run_reported (name : string)
  (labels : list (value * value)) (phase : string)
  (containers : option (list (option Z))) :
  _resolve_runtime_resource_run (reported_pod name labels phase containers)
  = Ok (project_of_labels labels, label_or labels "mlrun/uid" VNone,
        label_or labels "mlrun/name" (VStr "no-name")).
Proof.
  unfold _resolve_runtime_resource_run, project_of_labels, label_or.
  cbn -[Py.truthy].
  destruct (Py.truthy match Py.assoc (VStr "mlrun/project") labels with
                      | Some v => v
                      | None => VNone
                      end); reflexivity.
Qed.

(** X19.  The monitoring of a pod whose labels name a run and whose phase
    gives a terminal run state, as [pod.to_dict()] gives the pod.  When
    the container statuses of the pod are reported: whatever the map of
    the pass holds for the run (nothing, or a run with any state), the
    step does not fail; it ends with a run in the run state of the phase,
    which the map holds when it held the run and which the run store
    holds otherwise; and with the logs of the run in the archive, unless
    the cluster has none.  When no container statuses are reported and
    the phase is terminal, the status of the pod does not resolve: the
    step logs a warning and leaves the map, the run store and the log
    archive as they were. *)
Theorem monitoring_of_finished_pod (namespace name : string)
  (labels : list (value * value)) (phase : string)
  (containers : option (list (option Z))) (st : string)
  (project_run_uid_map resources_map resources_map' run : value) (w : world) :
  let project := project_of_labels labels in
  let uid := label_or labels "mlrun/uid" VNone in
  let pod := reported_pod name labels phase containers in
  Py.truthy project = true ->
  Py.truthy uid = true ->
  PodPhases_pod_phase_to_run_state (VStr phase) = Ok st ->
  In st RunStates_terminal_states ->
  Py.setdefault_setitem resources_map project uid
    (VDict [(VStr "name", label_or labels "mlrun/name" (VStr "no-name"))])
  = Ok resources_map' ->
  Py.get_in project_run_uid_map project uid VNone = Ok run ->
  Py.truthy run = false \/ (exists db, status_field run "state" = Ok db) ->
  match containers with
  | Some _ =>
      exists map' r1 w',
        monitor_runtime_resource_step self false namespace pod
          (project_run_uid_map, resources_map) w
        = (Ok (map', resources_map'), w')
        /\ status_field r1 "state" = Ok (VStr st)
        /\ (if Py.truthy run
            then Py.get_in map' project uid VNone = Ok r1
            else stored_run project uid w' = Some r1)
        /\ (has_log project uid w' = true
            \/ _get_logs_legacy_method project uid = "")
  | None =>
      In phase PodPhases_terminal_phases ->
      monitor_runtime_resource_step self false namespace pod
        (project_run_uid_map, resources_map) w
      = (Ok (project_run_uid_map, resources_map'),
         record (Log warning "Failed monitoring runtime resource. Continuing") w)
  end.
Proof.
  intros project uid pod Tp Tu P I S G H.
  destruct containers as [cs|].
  - unfold pod.
    change (reported_pod name labels phase (Some cs))
      with (mk_pod name labels phase cs).
    unfold monitor_runtime_resource_step.
    unfold bind at 1. unfold lift at 1. rewrite resolve_runtime_resource_run_pod.
    unfold bind at 1. unfold lift at 1. fold project uid.
    rewrite resources_map_entry, S.
    unfold bind at 1. unfold try_monitor_runtime_resource, try_except.
    unfold _monitor_runtime_resource. rewrite Tp, Tu. cbn [negb andb orb].
    unfold bind at 1. unfold ret at 1.
    unfold bind at 1. unfold lift at 1.
    change (let? uids := Py.get project_run_uid_map project (VDict []) in
            Py.get uids uid VNone)%result
      with (Py.get_in project_run_uid_map project uid VNone).
    rewrite G.
    unfold bind at 1. unfold lift at 1.
    rewrite (resolve_pod_status_info_pod name labels phase cs st P).
    unfold bind at 1. unfold _ensure_run_state. unfold bind at 1.
    rewrite Tp, Tu. cbn [negb orb]. cbv beta.
    destruct (find_or_new_handed project uid
                (label_or labels "mlrun/name" (VStr "no-name")) run w H)
      as [r [evs [F [_ [[db D] R]]]]].
    rewrite F.
    destruct (reconcile_terminal project uid st r db (push evs w) D I)
      as [changed [r1 [w1 [E [S1 [C L]]]]]].
    rewrite E. cbn [of_option].
    apply in_strings_In in I. rewrite I.
    destruct (ensure_run_logs_collected_done project uid w1) as [w2 [E2 [Lg Rn]]].
    unfold bind at 1. rewrite E2. unfold ret.
    destruct (Py.truthy run) eqn:T.
    + subst r.
      destruct (map_entry_update project_run_uid_map project uid run r1 G T)
        as [m' [Em Gm]].
      rewrite Em. exists m', r1, w2. auto.
    + exists project_run_uid_map, r1, w2. repeat split; auto.
      destruct changed.
      * unfold stored_run in *. now rewrite Rn.
      * subst r1. rewrite R in S1. discriminate.
  - intros Ip. unfold pod, monitor_runtime_resource_step.
    unfold bind at 1. unfold lift at 1.
    rewrite resolve_runtime_resource_run_reported.
    unfold bind at 1. unfold lift at 1. fold project uid.
    rewrite resources_map_entry, S.
    unfold bind at 1. unfold try_monitor_runtime_resource, try_except.
    unfold _monitor_runtime_resource. rewrite Tp, Tu. cbn [negb andb orb].
    unfold bind at 1. unfold ret at 1.
    unfold bind at 1. unfold lift at 1.
    change (let? uids := Py.get project_run_uid_map project (VDict []) in
            Py.get uids uid VNone)%result
      with (Py.get_in project_run_uid_map project uid VNone).
    rewrite G, Tp, Tu. cbn [negb orb]. cbv beta.
    unfold bind at 1. unfold lift at 1.
    now rewrite (resolve_pod_status_info_unreported name labels phase st P Ip).
Qed.

End MoreMonitoring.

Lemma monitoring_of_finished_pod_witness :
  let platform := with_logs (at_ 10 1 5) in
  let w := cluster_of [finished_pod] [running_run] in
  exists map' r1 w',
    monitor_runtime_resource_step job_handler false "default-tenant" finished_pod
      (dict [("p", dict [("u1", running_run)])], VDict []) w
    = (Ok (map', dict [("p", dict [("u1", dict [("name", VStr "train")])])]), w')
    /\ status_field r1 "state" = Ok (VStr "completed")
    /\ Py.get_in map' (VStr "p") (VStr "u1") VNone = Ok r1
    /\ has_log (VStr "p") (VStr "u1") w' = true.
Proof.
  intros platform w.
  destruct (monitoring_of_finished_pod (constants := constants)
              (config := config) (datetime := datetime) (platform := platform)
              job_handler
              "default-tenant" "pod-1" labels_of_run "Succeeded"
              (Some [Some (at_ 10 0 0); Some (at_ 10 0 5)]) "completed"
              (dict [("p", dict [("u1", running_run)])]) (VDict [])
              (dict [("p", dict [("u1", dict [("name", VStr "train")])])])
              running_run w eq_refl eq_refl eq_refl)
    as [map' [r1 [w' [E [S [G [L|L]]]]]]].
  - simpl. auto.
  - reflexivity.
  - reflexivity.
  - right. now exists (VStr "running").
  - exists map', r1, w'. auto.
  - discriminate.
Defined.

(** ** More of the handler: a pass with nothing to do *)

Section MoreQuiet.

Context {constants : Constants} {config : Config} {datetime : Datetime}
        {platform : Platform}.
Variable self : RuntimeHandler.

Lemma Forall_update (R : value -> Prop) (k v : value) (d : list (value * value)) :
  Forall (fun e => R (snd e)) d -> R v ->
  Forall (fun e => R (snd e)) (Py.update k v d).
Proof.
  intros F Rv. induction F as [|[k' v'] d Hx F IH]; simpl.
  - now constructor.
  - destruct (Py.eqb k' k); constructor; auto.
Qed.

Lemma Forall_assoc (R : value -> Prop) (k v : value) (d : list (value * value)) :
  Forall (fun e => R (snd e)) d -> Py.assoc k d = Some v -> R v.
Proof.
  intros F. induction F as [|[k' v'] d Hx F IH]; simpl; try discriminate.
  destruct (Py.eqb k' k); auto. intros E. now injection E as <-.
Qed.

(** Whatever a run of the listing does to the map of the monitoring, the
    map holds only runs of the listing. *)
Lemma list_run_for_monitoring_only (P : value -> Prop) (r m m' : value)
  (l l' : list value) (d d' : value) :
  list_run_for_monitoring r (m, l, d) = Ok (m', l', d') ->
  holds_only m P -> P r -> holds_only m' P.
Proof.
  unfold list_run_for_monitoring. intros E [items [-> F]] Pr.
  destruct (Py.get_in r (VStr "metadata") (VStr "project") VNone) as [p|];
    try discriminate.
  destruct (Py.get_in r (VStr "metadata") (VStr "uid") VNone) as [u|];
    try discriminate.
  cbn [rbind] in E.
  destruct (negb (Py.truthy u) || negb (Py.truthy p)).
  - destruct (Py.get r (VStr "metadata") (VDict [])); try discriminate.
    injection E as <- _ _. now exists items.
  - unfold Py.setdefault in E.
    destruct (Py.hashable p) eqn:Hp; try discriminate.
    assert (S : exists inner items1,
              (match Py.assoc p items with
               | Some v => @Ok (value * value) (v, VDict items)
               | None => Ok (VDict [], VDict (items ++ [(p, VDict [])]))
               end) = Ok (VDict inner, VDict items1)
              /\ Py.assoc p items1 = Some (VDict inner)
              /\ Forall (fun e => P (snd e)) inner
              /\ Forall (fun entry =>
                           exists inner,
                             snd entry = VDict inner
                             /\ Forall (fun e => P (snd e)) inner)
                   items1).
    { destruct (Py.assoc p items) as [v|] eqn:A.
      - destruct (Forall_assoc
                    (fun v => exists inner,
                       v = VDict inner /\ Forall (fun e => P (snd e)) inner)
                    _ _ _ F A) as [inner [-> Fi]].
        exists inner, items. auto.
      - exists [], (items ++ [(p, VDict [])])%list. repeat split; auto.
        + now rewrite (assoc_app_fresh _ _ _ _ A), Py_eqb_refl.
        + apply Forall_app. split; auto. constructor; auto. now exists []. }
    destruct S as [inner [items1 [S [A1 [Fi F1]]]]]. rewrite S in E.
    cbn [rbind] in E.
    unfold Py.get in E at 1.
    destruct (Py.hashable u) eqn:Hu; try discriminate. cbn [rbind] in E.
    destruct (Py.truthy match Py.assoc u inner with
                        | Some v => v
                        | None => VNone
                        end).
    + unfold Py.get in E at 1.
      destruct (match Py.assoc u inner with Some v => v | None => VNone end);
        discriminate.
    + unfold Py.getitem, Py.setitem in E. rewrite Hp, A1 in E.
      cbn [rbind] in E. rewrite Hu in E. cbn [rbind] in E.
      injection E as <- _ _. eexists. split; [reflexivity|].
      apply (Forall_update (fun v => exists inner,
                              v = VDict inner /\ Forall (fun e => P (snd e)) inner));
        auto.
      eexists. split; [reflexivity|]. now apply Forall_update.
Qed.

Lemma list_runs_fold_only (P : value -> Prop) (rs : list value) :
  forall m l d m' l' d',
    fold_result (fun acc run => list_run_for_monitoring run acc) rs (m, l, d)
    = Ok (m', l', d') ->
    holds_only m P -> Forall P rs -> holds_only m' P.
Proof.
  induction rs as [|r rs IH]; intros m l d m' l' d' E H F;
    cbn [fold_result] in E.
  - now injection E as <- _ _.
  - inversion F; subst.
    destruct (list_run_for_monitoring r (m, l, d)) as [[[m1 l1] d1]|] eqn:E1;
      try discriminate.
    cbn [rbind] in E. apply (IH _ _ _ _ _ _ E); auto.
    eapply list_run_for_monitoring_only; eauto.
Qed.

Lemma quiet_ret : quiet (ret tt).
Proof. intros w. exists []. now rewrite push_nil. Qed.

Lemma quiet_for_each {A} (xs : list A) (body : A -> unit -> M unit) :
  (forall x, In x xs -> quiet (body x tt)) ->
  quiet (for_each xs tt body).
Proof.
  induction xs as [|x xs IH]; intros H; simpl.
  - apply quiet_ret.
  - intros w. unfold bind.
    destruct (H x (or_introl eq_refl) w) as [evs [E N]]. rewrite E.
    destruct (IH (fun y I => H y (or_intror I)) (push evs w)) as [evs' [E' N']].
    rewrite E', push_push. exists (evs' ++ evs)%list.
    split; auto using no_store_app.
Qed.

(** A run that is settled is left alone, whatever the listing holds. *)
Lemma settled_run_is_left (project run_uid run resources_map : value) (w : world) :
  settled run ->
  _ensure_run_not_stuck_on_non_terminal_state project run_uid run resources_map w
  = (Ok tt, w).
Proof.
  intros [st [S [N I]]]. unfold status_field in S.
  unfold _ensure_run_not_stuck_on_non_terminal_state, bind, lift.
  rewrite S, (truthy_state st N). cbn [negb].
  destruct (Py.in_strings (VStr st) RunStates_non_terminal_states) eqn:E;
    auto.
  apply in_strings_In in E. contradiction.
Qed.

(** The second loop of the monitoring leaves alone a run that the map
    holds, when the run is of another kind or settled. *)
Lemma quiet_ensure_run_not_stuck_step (resources_map project run_uid run : value) :
  Py.truthy run = true -> settled_or_foreign self run ->
  quiet (ensure_run_not_stuck_step self resources_map project (run_uid, run)).
Proof.
  intros T S w. unfold ensure_run_not_stuck_step, try_except.
  unfold bind at 1. rewrite T. cbn [negb]. unfold ret at 1.
  unfold bind at 1. unfold lift at 1.
  change (let? metadata := Py.get run (VStr "metadata") (VDict []) in
          let? labels := Py.get metadata (VStr "labels") (VDict []) in
          Py.get labels (VStr "kind") (VStr ""))%result
    with (kind_of_run run).
  unfold settled_or_foreign in S.
  destruct (kind_of_run run) as [k|e].
  - destruct (Py.eqb (VStr (kind self)) k) eqn:E.
    + apply Py_eqb_eq in E. subst k.
      rewrite settled_run_is_left by auto.
      exists []. now rewrite push_nil.
    + exists []. now rewrite push_nil.
  - exists [Log warning "Failed ensuring run not stuck. Continuing"].
    split; reflexivity.
Qed.

(** X20.  A pass with nothing to do.  When the cluster has no resource
    under the default selector of the kind, the runs of the run store
    name, in their metadata, the project and uid they are stored under,
    no two share them, and each is of another kind or settled (its state
    is set and is not a non-terminal one), a pass of the monitoring ends
    without raising and has written nothing: it has only made calls and
    logs, and the cluster, the run store and the log archive are as they
    were. *)
Theorem monitoring_is_idle_on_settled_runs (w : world) :
  filter (selects (_get_default_label_selector self None)) (pods w) = [] ->
  filter (selects (_get_default_label_selector self None)) (crds w) = [] ->
  Forall keyed_by_metadata (runs w) ->
  NoDup (map fst (runs w)) ->
  Forall (fun row => settled_or_foreign self (snd row)) (runs w) ->
  exists evs,
    monitor_runs self w = (Ok tt, push evs w) /\ no_store evs = true.
Proof.
  intros Lp Lc K D S. unfold monitor_runs.
  assert (L : exists ev,
            is_store ev = false
            /\ (if crd_info_given self
                then _list_crd_objects self resolve_namespace
                       (_get_default_label_selector self None)
                else pods <- _list_pods resolve_namespace
                               (_get_default_label_selector self None) ;;
                     ret (VList pods))%monad w
               = (Ok (VList []), push [ev] w)).
  { unfold _list_crd_objects.
    destruct (_get_crd_info self) as [[crd_group crd_version] crd_plural].
    destruct (crd_info_given self).
    - unfold try_except, bind, K8s.list_namespaced_custom_object, bind, emit, lift.
      destruct crd_defined; cbn -[filter].
      + rewrite Lc. eexists (ListCustomObjects _ _ _ _ _). split; reflexivity.
      + eexists (ListCustomObjects _ _ _ _ _). split; reflexivity.
    - unfold _list_pods, K8s.list_namespaced_pod, bind, emit, ret.
      cbn -[filter]. rewrite Lp. eexists (ListPods _ _). split; reflexivity. }
  destruct L as [ev [Ne L]]. unfold bind at 1. rewrite L.
  destruct (list_runs_fold (runs w) [] (VDict [])) as [m [E _]]; auto.
  { intros p u Hp Hu. unfold Py.get_in, Py.get. now rewrite Hp, Hu. }
  assert (O : holds_only m (fun run => Py.truthy run = true
                                       /\ settled_or_foreign self run)).
  { eapply list_runs_fold_only; [exact E | now exists [] |].
    rewrite Forall_forall in *. intros r I. apply in_map_iff in I.
    destruct I as [[[p u] r0] [<- I]]. split.
    - destruct (K _ I) as [[N1 [_ [T _]]] _].
      apply (get_in_found_truthy _ _ _ _ N1). intros ->. discriminate.
    - exact (S _ I). }
  unfold bind at 1. unfold _list_runs_for_monitoring, RunStore.list_runs.
  unfold bind at 1. unfold bind at 1. unfold emit. cbn [runs record push].
  rewrite list_all_runs. unfold bind at 1. unfold lift at 1. rewrite E.
  cbn [Py.truthy]. unfold bind at 1. unfold ret at 1.
  unfold bind at 1. unfold ret at 1.
  unfold bind at 1. unfold lift at 1. cbn [Py.iter].
  unfold bind at 1. cbn [for_each]. unfold ret at 1.
  destruct O as [entries [-> F]].
  unfold bind at 1. unfold lift at 1. cbn [items].
  assert (Q : quiet
                (for_each entries tt
                   (fun (entry : value * value) (_ : unit) =>
                      let '(project, runs) := entry in
                      if Py.truthy runs then
                        runs <- lift (items runs) ;;
                        for_each runs tt
                          (fun entry _ =>
                             ensure_run_not_stuck_step self (VDict []) project entry)
                      else ret tt))).
  { apply quiet_for_each. intros [project runs0] I.
    rewrite Forall_forall in F. destruct (F _ I) as [inner [R Fi]].
    cbn [snd] in R. subst runs0.
    destruct (Py.truthy (VDict inner)); [|apply quiet_ret].
    intros w0. unfold bind, lift. cbn [items].
    apply quiet_for_each. intros [run_uid run] Ir.
    rewrite Forall_forall in Fi. destruct (Fi _ Ir) as [T Sr].
    now apply quiet_ensure_run_not_stuck_step. }
  destruct (Q (record ListRuns (push [ev] w))) as [evs [Eq N]].
  unfold ret at 1. cbv beta iota. cbn [items]. rewrite Eq.
  exists (evs ++ [ListRuns; ev])%list. split.
  - f_equal. unfold push. cbn. now rewrite <- app_assoc.
  - apply no_store_app; auto. cbn. now rewrite Ne.
Qed.

End MoreQuiet.

Lemma monitoring_is_idle_on_settled_runs_witness :
  let platform := indoors (at_ 10 0 0) in
  let w := cluster_of [] [completed_run] in
  exists evs,
    monitor_runs job_handler w = (Ok tt, push evs w) /\ no_store evs = true.
Proof.
  intros platform w.
  refine (monitoring_is_idle_on_settled_runs (platform := platform) job_handler
            w eq_refl eq_refl _ _ _).
  - repeat constructor.
  - repeat constructor. simpl. tauto.
  - constructor; [|constructor]. intros _. exists "completed".
    split; [reflexivity|]. split; [discriminate|].
    simpl. intuition discriminate.
Defined.
